(** * LMS-Backend: quiz generation, delivery and grading

    A shallow embedding of the request handlers of the quiz controller
    ([generateQuizController], [getQuizPdfController],
    [getQuizForTakingController], [submitQuizController]) together with the
    two document schemas they persist ([quizSchema], [resultSchema]).

    - Values that arrive in a request body or that are handed to [res.json]
      are JavaScript values ([jsval]).
    - A string is its sequence of code units, here restricted to the 8-bit
      range ([string]).
    - The three collections (quizzes, results, GridFS files) are finite maps
      keyed by the textual form of the document's ObjectId.
    - A handler is a state transformer over [World]; exceptions are values
      of [Exn] and [try]/[catch] is [try_catch]. Of the console output only
      [console.error] is recorded, the informational [console.log] lines
      are left out.
    - The collaborators that live outside the repository (PDF text
      extraction, the LLM chain, [JSON.parse], the ODM's casts of
      non-string values) are variables of the section [Controllers].
    - The collections of the database answer every query; of GridFS the
      two failures that the handlers provide for are part of the world:
      a bucket that [connectDB] has not initialised, and an upload stream
      that ends in ['error'].
    - [res.setHeader] checks the value it is given as Node does. *)

From Stdlib Require Import ZArith NArith String Ascii List Lia.
From Stdlib.Strings Require Import Byte.
From stdpp Require Import gmap strings list fin_maps sorting.

Set Warnings "-register-all".

Local Open Scope string_scope.
Local Open Scope list_scope.

(** ** JavaScript strings *)

Module JsString.

Definition nl : string := String (ascii_of_nat 10) "".

(** White space removed by [String.prototype.trim], among the code units
    below 256: TAB, LF, VT, FF, CR, SPACE and NBSP. *)
Definition is_ws (c : ascii) : bool :=
  let n := nat_of_ascii c in
  (((9 <=? n) && (n <=? 13)) || (n =? 32) || (n =? 160))%nat.

Fixpoint trimStart (s : string) : string :=
  match s with
  | String c s' => if is_ws c then trimStart s' else s
  | EmptyString => EmptyString
  end.

(** [trimEnd] keeps a character when it is not white space or when
    something remains after it. *)
Fixpoint trimEnd (s : string) : string :=
  match s with
  | EmptyString => EmptyString
  | String c s' =>
      match trimEnd s' with
      | EmptyString => if is_ws c then EmptyString else String c EmptyString
      | r => String c r
      end
  end.

Definition trim (s : string) : string := trimEnd (trimStart s).

Definition startsWith (s p : string) : bool := String.prefix p s.

(** [s.slice(b, e)]: negative indices count from the end, both ends are
    clamped to the string. *)
Definition clamp_index (len i : Z) : Z :=
  if (i <? 0)%Z then Z.max (len + i) 0 else Z.min i len.

Definition slice (s : string) (b e : Z) : string :=
  let len := Z.of_nat (String.length s) in
  let b' := clamp_index len b in
  let e' := clamp_index len e in
  String.substring (Z.to_nat b') (Z.to_nat (e' - b')) s.

(** [s.substring(0, n)] *)
Fixpoint take (n : N) (s : string) : string :=
  match s with
  | EmptyString => EmptyString
  | String c s' => if (n =? 0)%N then EmptyString else String c (take (N.pred n) s')
  end.

Definition is_empty (s : string) : bool :=
  match s with EmptyString => true | _ => false end.

End JsString.

(** ** JavaScript values *)

(** The values of a parsed request body and of a JSON answer. Numbers are
    integral (the handlers only test them for emptiness and pass them on);
    an object lists each of its keys once. *)
Inductive jsval : Type :=
| JUndef
| JNull
| JBool (b : bool)
| JNum (n : Z)
| JStr (s : string)
| JArr (l : list jsval)
| JObj (fields : list (string * jsval)).

(** ToBoolean *)
Definition truthy (v : jsval) : bool :=
  match v with
  | JUndef | JNull => false
  | JBool b => b
  | JNum n => negb (n =? 0)%Z
  | JStr s => negb (JsString.is_empty s)
  | JArr _ | JObj _ => true
  end.

(** [v === s] for a string [s] *)
Definition strict_eq_str (v : jsval) (s : string) : bool :=
  match v with
  | JStr t => if decide (t = s) then true else false
  | _ => false
  end.

Fixpoint assoc (k : string) (fs : list (string * jsval)) : jsval :=
  match fs with
  | [] => JUndef
  | (k', v) :: fs' => if decide (k' = k) then v else assoc k fs'
  end.

(** Exceptions thrown by the handlers and by the libraries they call. *)
Inductive Exn : Type :=
| TypeError (msg : string)
| SyntaxError
| CastError (kind : string)
| ValidationError (path : string)
| Error (msg : string)
| UpstreamError
| StorageError.

(** [v.k] for the property names the handlers read from request data
    ([questionId], [answer]): reading a property of [undefined] or [null]
    throws, a primitive or an array has no such property. *)
Definition getProp (v : jsval) (k : string) : Exn + jsval :=
  match v with
  | JUndef | JNull => inl (TypeError "Cannot read properties of undefined")
  | JObj fs => inr (assoc k fs)
  | _ => inr JUndef
  end.

(** ** ObjectIds *)

Module ObjectId.

(** An ObjectId is kept in its textual form, 24 lower-case hexadecimal
    digits, which is what [_id.toString()] yields. *)
Definition t := string.

#[global] Instance eq_dec : EqDecision t := String.eq_dec.

Definition toString (o : t) : string := o.

Definition hexDigit (n : N) : ascii :=
  match n with
  | 0%N => "0" | 1%N => "1" | 2%N => "2" | 3%N => "3"
  | 4%N => "4" | 5%N => "5" | 6%N => "6" | 7%N => "7"
  | 8%N => "8" | 9%N => "9" | 10%N => "a" | 11%N => "b"
  | 12%N => "c" | 13%N => "d" | 14%N => "e" | _ => "f"
  end%char.

Fixpoint hexFixed (w : nat) (n : N) : string :=
  match w with
  | O => ""
  | S w' => hexFixed w' (n / 16)%N +:+ String (hexDigit (n mod 16)%N) ""
  end.

(** The id the driver generates from its counter. *)
Definition generate (counter : N) : t := hexFixed 24 counter.

Definition isHexDigit (c : ascii) : bool :=
  let n := nat_of_ascii c in
  (((48 <=? n) && (n <=? 57)) || ((97 <=? n) && (n <=? 102))
   || ((65 <=? n) && (n <=? 70)))%nat.

Definition lower (c : ascii) : ascii :=
  let n := nat_of_ascii c in
  if ((65 <=? n) && (n <=? 70))%nat then ascii_of_nat (n + 32) else c.

Fixpoint allHex (s : string) : bool :=
  match s with
  | EmptyString => true
  | String c s' => isHexDigit c && allHex s'
  end.

Fixpoint lowerAll (s : string) : string :=
  match s with
  | EmptyString => EmptyString
  | String c s' => String (lower c) (lowerAll s')
  end.

(** The ODM's cast of a request parameter to an ObjectId: a string of 24
    hexadecimal digits, anything else is a [CastError] of kind
    ['ObjectId']. *)
Definition cast (s : string) : Exn + t :=
  if (String.length s =? 24)%nat && allHex s then inr (lowerAll s)
  else inl (CastError "ObjectId").

End ObjectId.

(** ** The database connection (config/db.js) *)

(** What happens to the module over time: a call of [connectDB], and the
    settling of the promise of [mongoose.connect] (fulfilled or
    rejected). *)
Inductive DbEvent : Type :=
| CallConnectDB
| ConnectSettled (ok : bool).

#[global] Instance DbEvent_eq_dec : EqDecision DbEvent.
Proof. solve_decision. Defined.

(** The variant that caches the promise of the connection. *)
Module DbPromise.

Inductive Promise : Type := Pending | Fulfilled.

(** The two module variables, the number of calls of [mongoose.connect]
    so far, and whether [process.exit(1)] was reached. *)
Record State : Type := mkState {
  connPromise : option Promise;
  bucket : bool;
  connects : nat;
  exited : bool
}.

Definition init : State := mkState None false 0 false.

(** [connectDB()]: an existing promise is reused; otherwise the body of
    the inner async function runs up to its [await], which calls
    [mongoose.connect], and the pending promise is cached. *)
Definition connectDB (s : State) : State :=
  match connPromise s with
  | Some _ => s
  | None => mkState (Some Pending) (bucket s) (S (connects s)) (exited s)
  end.

(** The continuation after [await mongoose.connect(...)]: the bucket is
    created, or the cached promise is dropped and the process exits. *)
Definition settle (ok : bool) (s : State) : State :=
  match connPromise s with
  | Some Pending =>
      if ok then mkState (Some Fulfilled) true (connects s) (exited s)
      else mkState None (bucket s) (connects s) true
  | _ => s
  end.

(** Nothing runs after the exit of the process. *)
Definition step (s : State) (e : DbEvent) : State :=
  if exited s then s
  else match e with
       | CallConnectDB => connectDB s
       | ConnectSettled ok => settle ok s
       end.

Definition run (s : State) (trace : list DbEvent) : State := fold_left step trace s.

Definition getBucket (s : State) : Exn + unit :=
  if bucket s then inr tt
  else inl (Error "GridFS Bucket not initialized. Ensure connectDB() has been successfully awaited.").

End DbPromise.

(** The variant that keeps a flag [isConnected]. *)
Module DbFlag.

(** The two module variables, the calls of [mongoose.connect] so far,
    those whose promise has not settled yet, and whether the process
    exited. *)
Record State : Type := mkState {
  isConnected : bool;
  bucket : bool;
  connects : nat;
  pending : nat;
  exited : bool
}.

Definition init : State := mkState false false 0 0 false.

Definition connectDB (s : State) : State :=
  if isConnected s then s
  else mkState false (bucket s) (S (connects s)) (S (pending s)) (exited s).

(** [isConnected] receives the [readyState] of the connection, which is 1
    once [mongoose.connect] is fulfilled. *)
Definition settle (ok : bool) (s : State) : State :=
  match pending s with
  | O => s
  | S n =>
      if ok then mkState true true (connects s) n (exited s)
      else mkState (isConnected s) (bucket s) (connects s) n true
  end.

Definition step (s : State) (e : DbEvent) : State :=
  if exited s then s
  else match e with
       | CallConnectDB => connectDB s
       | ConnectSettled ok => settle ok s
       end.

Definition run (s : State) (trace : list DbEvent) : State := fold_left step trace s.

Definition getBucket (s : State) : Exn + unit :=
  if bucket s then inr tt
  else inl (Error "GridFS Bucket not initialized. Call connectDB() before using getBucket().").

End DbFlag.

(** ** Documents (quizModel.js, resultModel.js) *)

Record Question : Type := mkQuestion {
  q_id : ObjectId.t;
  q_questionText : string;
  q_options : list string;
  q_correctAnswer : string
}.

(** The document array [questions] can hold [null] elements: the ODM
    keeps them as they are, see [newSubdocs] and [validateQuestion]. *)
Record Quiz : Type := mkQuiz {
  quiz_id : ObjectId.t;
  title : string;
  topic : string;
  sourceType : string;
  sourceFilename : option string;
  sourceFileId : option ObjectId.t;
  questions : list (option Question);   (* [None]: a [null] element *)
  quiz_createdAt : Z;
  quiz_updatedAt : Z
}.

(** One element of [submittedAnswers]; [submittedAnswer] and [isCorrect]
    are paths without [required], absent when the value given to the
    constructor is [undefined]. *)
Record SubmittedAnswer : Type := mkSubmittedAnswer {
  sa_questionId : ObjectId.t;
  sa_questionText : string;
  sa_submittedAnswer : option string;
  sa_correctAnswer : string;
  sa_isCorrect : option bool
}.

Record Result : Type := mkResult {
  result_id : ObjectId.t;
  result_quiz : ObjectId.t;
  score : nat;
  totalQuestions : nat;
  submittedAnswers : list SubmittedAnswer;
  result_createdAt : Z;
  result_updatedAt : Z
}.

(** A file of the GridFS bucket ['uploads']. *)
Record GridFile : Type := mkGridFile {
  filename : string;
  contentType : string;
  content : list Byte.byte
}.

(** [req.file] as multer's memory storage provides it. *)
Record UploadedFile : Type := mkUploadedFile {
  originalname : string;
  mimetype : string;
  buffer : list Byte.byte
}.

(** ** The world a handler runs in *)

(** A call to a collaborator outside the process. *)
Inductive Call : Type :=
| CallPdfParse (data : list Byte.byte)
| CallLLM (context : string) (numQuestions : jsval).

Record World : Type := mkWorld {
  quizzes : gmap string Quiz;
  results : gmap string Result;
  files : gmap string GridFile;
  db : DbPromise.State;             (* the module state of config/db.js, in the
                                       variant that caches the promise *)
  uploadsFinish : bool;             (* an upload stream of the bucket reaches
                                       ['finish']; it emits ['error'] otherwise *)
  counter : N;                      (* source of fresh ObjectIds *)
  calls : list Call;                (* most recent first *)
  stderr : list (list jsval)        (* [console.error], most recent first *)
}.

Definition set_quizzes (f : gmap string Quiz → gmap string Quiz) (w : World) : World :=
  mkWorld (f (quizzes w)) (results w) (files w) (db w) (uploadsFinish w)
    (counter w) (calls w) (stderr w).
Definition set_results (f : gmap string Result → gmap string Result) (w : World) : World :=
  mkWorld (quizzes w) (f (results w)) (files w) (db w) (uploadsFinish w)
    (counter w) (calls w) (stderr w).
Definition set_files (f : gmap string GridFile → gmap string GridFile) (w : World) : World :=
  mkWorld (quizzes w) (results w) (f (files w)) (db w) (uploadsFinish w)
    (counter w) (calls w) (stderr w).
Definition set_counter (f : N → N) (w : World) : World :=
  mkWorld (quizzes w) (results w) (files w) (db w) (uploadsFinish w)
    (f (counter w)) (calls w) (stderr w).
Definition set_calls (f : list Call → list Call) (w : World) : World :=
  mkWorld (quizzes w) (results w) (files w) (db w) (uploadsFinish w)
    (counter w) (f (calls w)) (stderr w).
Definition set_stderr (f : list (list jsval) → list (list jsval)) (w : World) : World :=
  mkWorld (quizzes w) (results w) (files w) (db w) (uploadsFinish w)
    (counter w) (calls w) (f (stderr w)).

(** State and exceptions. *)
Definition M (A : Type) : Type := World → (Exn + A) * World.

Definition ret {A} (a : A) : M A := λ w, (inr a, w).
Definition throw {A} (e : Exn) : M A := λ w, (inl e, w).
Definition bind {A B} (m : M A) (k : A → M B) : M B :=
  λ w, match m w with
       | (inr a, w') => k a w'
       | (inl e, w') => (inl e, w')
       end.
Definition try_catch {A} (body : M A) (handler : Exn → M A) : M A :=
  λ w, match body w with
       | (inr a, w') => (inr a, w')
       | (inl e, w') => handler e w'
       end.
Definition lift {A} (r : Exn + A) : M A := λ w, (r, w).
Definition get : M World := λ w, (inr w, w).
Definition modify (f : World → World) : M unit := λ w, (inr tt, f w).

Notation "x <- m ;; k" := (bind m (λ x, k))
  (at level 100, m at next level, right associativity).
Notation "m ;; k" := (bind m (λ _, k))
  (at level 100, right associativity).

Definition console_error (args : list jsval) : M unit :=
  modify (set_stderr (cons args)).

Definition newObjectId : M ObjectId.t :=
  w <- get ;;
  modify (set_counter N.succ) ;;
  ret (ObjectId.generate (counter w)).

(** ** Responses *)

Inductive Response : Type :=
| ResJson (status : nat) (body : jsval)
| ResStream (status : nat) (headers : list (string * string)) (body : list Byte.byte).

(** What became of a request: the handler answered, or its promise was
    rejected before any answer was sent. *)
Inductive Outcome : Type :=
| Sent (r : Response)
| Rejected (e : Exn).

Definition message (status : nat) (msg : string) : Response :=
  ResJson status (JObj [("message", JStr msg)]).

Definition run_handler (m : M Response) (w : World) : Outcome * World :=
  match m w with
  | (inr r, w') => (Sent r, w')
  | (inl e, w') => (Rejected e, w')
  end.

(** ** Serialisation of documents ([res.json]) *)

Definition optStr (o : option string) : jsval :=
  match o with Some s => JStr s | None => JNull end.

Definition questionToJSON (q : Question) : jsval :=
  JObj [("_id", JStr (ObjectId.toString (q_id q)));
        ("questionText", JStr (q_questionText q));
        ("options", JArr (map JStr (q_options q)));
        ("correctAnswer", JStr (q_correctAnswer q))].

Definition quizToJSON (q : Quiz) : jsval :=
  JObj [("_id", JStr (ObjectId.toString (quiz_id q)));
        ("title", JStr (title q));
        ("topic", JStr (topic q));
        ("sourceType", JStr (sourceType q));
        ("sourceFilename", optStr (sourceFilename q));
        ("sourceFileId", optStr (sourceFileId q));
        ("questions", JArr (map (from_option questionToJSON JNull) (questions q)));
        ("createdAt", JNum (quiz_createdAt q));
        ("updatedAt", JNum (quiz_updatedAt q))].

(** An absent path is left out of the serialised document. *)
Definition optField {A} (k : string) (f : A → jsval) (o : option A)
  : list (string * jsval) :=
  match o with Some a => [(k, f a)] | None => [] end.

Definition submittedAnswerToJSON (a : SubmittedAnswer) : jsval :=
  JObj ([("questionId", JStr (ObjectId.toString (sa_questionId a)));
         ("questionText", JStr (sa_questionText a))]
        ++ optField "submittedAnswer" JStr (sa_submittedAnswer a)
        ++ [("correctAnswer", JStr (sa_correctAnswer a))]
        ++ optField "isCorrect" JBool (sa_isCorrect a)).

Definition resultToJSON (r : Result) : jsval :=
  JObj [("_id", JStr (ObjectId.toString (result_id r)));
        ("quiz", JStr (ObjectId.toString (result_quiz r)));
        ("score", JNum (Z.of_nat (score r)));
        ("totalQuestions", JNum (Z.of_nat (totalQuestions r)));
        ("submittedAnswers", JArr (map submittedAnswerToJSON (submittedAnswers r)));
        ("createdAt", JNum (result_createdAt r));
        ("updatedAt", JNum (result_updatedAt r))].

(** ** Requests *)

(** [POST /api/quizzes/generate]: the three body fields the handler
    destructures (absent fields are [JUndef]) and multer's [req.file]. *)
Record GenerateRequest : Type := mkGenerateRequest {
  body_title : jsval;
  body_numQuestions : jsval;
  body_topic : jsval;
  file : option UploadedFile
}.

(** The paths of [questionSchema] after the ODM's cast of one element of
    the array given to [new Quiz]. *)
Record QuestionFields : Type := mkQuestionFields {
  qf_questionText : option string;
  qf_options : list string;
  qf_correctAnswer : option string
}.

(** An exception as an argument of [console.error]. *)
Definition exnToLog (e : Exn) : jsval :=
  match e with
  | TypeError msg => JObj [("name", JStr "TypeError"); ("message", JStr msg)]
  | SyntaxError => JObj [("name", JStr "SyntaxError")]
  | CastError kind => JObj [("name", JStr "CastError"); ("kind", JStr kind)]
  | ValidationError path => JObj [("name", JStr "ValidationError"); ("path", JStr path)]
  | Error msg => JObj [("name", JStr "Error"); ("message", JStr msg)]
  | UpstreamError => JObj [("name", JStr "Error")]
  | StorageError => JObj [("name", JStr "MongoError")]
  end.

Section Controllers.

(** [pdf(buffer)]: the text of the document, [None] when the parser
    throws. *)
Variable pdf : list Byte.byte → option string.
(** [chain.call({context, numQuestions})]: the text of the completion,
    [None] when the call fails. *)
Variable llm : string → jsval → option string.
(** [JSON.parse], [None] on a [SyntaxError]. *)
Variable JSON_parse : string → option jsval.
(** The ODM's cast to [String] of a value that is neither a string nor
    [null] nor [undefined]; [None] when the cast fails. *)
Variable castNonString : jsval → option string.
(** The ODM's cast of one element of [questions], other than [null], to
    the paths of [questionSchema]; [None] when the cast fails. *)
Variable castQuestion : jsval → option QuestionFields.

(** *** Schema validation (quizModel.js) *)

Definition castString (path : string) (v : jsval) : M (option string) :=
  match v with
  | JUndef | JNull => ret None
  | JStr s => ret (Some s)
  | _ => match castNonString v with
         | Some s => ret (Some s)
         | None => throw (ValidationError path)
         end
  end.

(** [required] on a [String] path rejects an absent value and the empty
    string. *)
Definition required (path : string) (o : option string) : M string :=
  match o with
  | Some s => if JsString.is_empty s then throw (ValidationError path) else ret s
  | None => throw (ValidationError path)
  end.

(** [null] and [undefined] *)
Definition isNullish (v : jsval) : bool :=
  match v with
  | JUndef | JNull => true
  | _ => false
  end.

(** The document array [questions] of [new Quiz({...})]: a [null] element
    is kept as it is, every other element becomes a subdocument with an
    [_id] of its own. *)
Fixpoint newSubdocs (vs : list jsval) : M (list (option (ObjectId.t * jsval))) :=
  match vs with
  | [] => ret []
  | v :: vs' =>
      d <- (if isNullish v then ret None
            else id <- newObjectId ;; ret (Some (id, v))) ;;
      ds <- newSubdocs vs' ;;
      ret (d :: ds)
  end.

(** [questionSchema]: [questionText] and [correctAnswer] are required,
    [options] has more than one element. The validation of a document
    array passes over its [null] elements. *)
Definition validateQuestion (d : option (ObjectId.t * jsval)) : M (option Question) :=
  match d with
  | None => ret None
  | Some (id, v) =>
      match castQuestion v with
      | None => throw (ValidationError "questions")
      | Some f =>
          qt <- required "questionText" (qf_questionText f) ;;
          (if (1 <? length (qf_options f))%nat then ret tt
           else throw (ValidationError "options")) ;;
          ca <- required "correctAnswer" (qf_correctAnswer f) ;;
          ret (Some (mkQuestion id qt (qf_options f) ca))
      end
  end.

Fixpoint validateQuestions (ds : list (option (ObjectId.t * jsval)))
  : M (list (option Question)) :=
  match ds with
  | [] => ret []
  | d :: ds' =>
      q <- validateQuestion d ;;
      qs <- validateQuestions ds' ;;
      ret (q :: qs)
  end.

Definition validSourceType (s : string) : bool :=
  bool_decide (s ∈ ["text"; "pdf"; "combined"]).

(** [new Quiz({...}).save()]: the document and its embedded questions
    receive their ids, [title] is trimmed, the validators of [quizSchema]
    run, and the document is inserted with its timestamps. *)
Definition saveQuiz (now : Z) (title_v topic_v : jsval) (questions_v : list jsval)
    (sourceType_v : string) (sourceFilename_v : option string)
    (sourceFileId_v : option ObjectId.t) : M Quiz :=
  id <- newObjectId ;;
  subdocs <- newSubdocs questions_v ;;
  t <- castString "title" title_v ;;
  t' <- required "title" (JsString.trim <$> t) ;;
  tp <- castString "topic" topic_v ;;
  tp' <- required "topic" tp ;;
  (if validSourceType sourceType_v then ret tt
   else throw (ValidationError "sourceType")) ;;
  qs <- validateQuestions subdocs ;;
  let quiz := mkQuiz id t' tp' sourceType_v sourceFilename_v sourceFileId_v qs now now in
  modify (set_quizzes (insert id quiz)) ;;
  ret quiz.

(** *** GridFS *)

(** [getBucket()] of config/db.js, on the module state of the world. *)
Definition getBucket : M unit :=
  w <- get ;;
  lift (DbPromise.getBucket (db w)).

(** [getBucket()], then [bucket.openUploadStream(name, {contentType})],
    which draws the id of the file, fed with the whole buffer and awaited
    until ['finish'] or ['error']; the result is [uploadStream.id]. *)
Definition upload (f : UploadedFile) : M ObjectId.t :=
  getBucket ;;
  id <- newObjectId ;;
  w <- get ;;
  if uploadsFinish w then
    (modify (set_files (insert id (mkGridFile (originalname f) (mimetype f) (buffer f)))) ;;
     ret id)
  else throw StorageError.

(** *** generateQuizController *)

(** [topic.trim()] *)
Definition js_trim (v : jsval) : M string :=
  match v with
  | JStr s => ret (JsString.trim s)
  | _ => throw (TypeError "topic.trim is not a function")
  end.

(** [!req.file && (!topic || topic.trim().length === 0)] *)
Definition sourceMissing (req : GenerateRequest) : M bool :=
  match file req with
  | Some _ => ret false
  | None =>
      if negb (truthy (body_topic req)) then ret true
      else t <- js_trim (body_topic req) ;; ret (String.length t =? 0)%nat
  end.

(** The four [let] variables of the handler. *)
Record Locals : Type := mkLocals {
  contextText : string;
  l_sourceType : string;
  l_sourceFilename : option string;
  l_sourceFileId : option ObjectId.t
}.

Definition initLocals : Locals := mkLocals "" "" None None.

(** A value inside a template literal; only strings and [null] reach
    one. *)
Definition templ (v : jsval) : string :=
  match v with
  | JStr s => s
  | _ => "null"
  end.

(** [if (topic && topic.trim().length > 0) { ... }] *)
Definition addTopic (topic_v : jsval) (l : Locals) : M Locals :=
  if truthy topic_v then
    t <- js_trim topic_v ;;
    if (0 <? String.length t)%nat then
      ret (mkLocals
             (contextText l +:+ "Topic provided by user:" +:+ JsString.nl +:+ templ topic_v)
             "text" (l_sourceFilename l) (l_sourceFileId l))
    else ret l
  else ret l.

Definition pdfParse (data : list Byte.byte) : M string :=
  modify (set_calls (cons (CallPdfParse data))) ;;
  match pdf data with
  | Some text => ret text
  | None => throw (Error "pdf-parse")
  end.

(** [if (req.file) { ... }] *)
Definition addFile (f : UploadedFile) (l : Locals) : M Locals :=
  id <- upload f ;;
  let sourceFilename' := originalname f in
  text <- pdfParse (buffer f) ;;
  let contextText' :=
    if negb (JsString.is_empty text) then
      let separator :=
        if (0 <? String.length (contextText l))%nat then
          JsString.nl +:+ JsString.nl +:+ "--- Content from uploaded PDF ("
            +:+ sourceFilename' +:+ ") ---" +:+ JsString.nl
        else "" in
      contextText l +:+ separator +:+ text
    else contextText l in
  ret (mkLocals contextText'
         (if decide (l_sourceType l = "text") then "combined" else "pdf")
         (Some sourceFilename') (Some id)).

(** Lines 195-231: the context and the provenance of the quiz. *)
Definition gatherSources (req : GenerateRequest) : M Locals :=
  l <- addTopic (body_topic req) initLocals ;;
  match file req with
  | Some f => addFile f l
  | None => ret l
  end.

Definition callLLM (context : string) (numQuestions : jsval) : M string :=
  modify (set_calls (cons (CallLLM context numQuestions))) ;;
  match llm context numQuestions with
  | Some text => ret text
  | None => throw UpstreamError
  end.

(** Lines 267-272: the code fence is dropped by position. *)
Definition stripFence (cleanedText : string) : string :=
  if JsString.startsWith cleanedText "```json" then JsString.slice cleanedText 7 (-3)
  else if JsString.startsWith cleanedText "```" then JsString.slice cleanedText 3 (-3)
  else cleanedText.

(** The body of the inner [try]. *)
Definition parseQuestions (text : string) : M (list jsval) :=
  let cleanedText := stripFence (JsString.trim text) in
  match JSON_parse cleanedText with
  | None => throw SyntaxError
  | Some questions_v =>
      match questions_v with
      | JArr (q :: qs) => ret (q :: qs)
      | _ =>
          console_error [JStr "Validation Error: AI response is not a valid or non-empty array."; questions_v] ;;
          throw (Error "AI failed to generate questions in the expected format.")
      end
  end.

(** [a || b] *)
Definition js_or (a b : jsval) : jsval := if truthy a then a else b.

(** [const { title, numQuestions = 5, topic } = req.body] *)
Definition numQuestionsOf (req : GenerateRequest) : jsval :=
  match body_numQuestions req with
  | JUndef => JNum 5
  | v => v
  end.

Definition generateBody (now : Z) (req : GenerateRequest) : M Response :=
  l <- gatherSources req ;;
  if (String.length (JsString.trim (contextText l)) <? 50)%nat then
    ret (message 400 "Could not find sufficient text from the provided sources to generate a quiz.")
  else
    let truncatedContext := JsString.take 24000%N (contextText l) in
    text <- callLLM truncatedContext (numQuestionsOf req) ;;
    parsed <- try_catch (qs <- parseQuestions text ;; ret (Some qs))
                (λ parseError,
                   console_error [JStr "Error parsing AI response:"; exnToLog parseError;
                                  JStr "Raw output:"; JStr text] ;;
                   ret None) ;;
    match parsed with
    | None => ret (message 500 "Failed to parse AI response. The format was invalid.")
    | Some questions_v =>
        savedQuiz <- saveQuiz now (body_title req)
                       (js_or (body_topic req)
                              (JStr ("Content from " +:+ templ (optStr (l_sourceFilename l)))))
                       questions_v (l_sourceType l) (l_sourceFilename l) (l_sourceFileId l) ;;
        ret (ResJson 201
               (JObj [("message", JStr "Quiz generated and saved successfully!");
                      ("quizId", JStr (ObjectId.toString (quiz_id savedQuiz)));
                      ("data", quizToJSON savedQuiz)]))
    end.

Definition generateQuizController (now : Z) (req : GenerateRequest) : M Response :=
  if negb (truthy (body_title req)) then
    ret (message 400 "A quiz title is required.")
  else
    missing <- sourceMissing req ;;
    if missing then
      ret (message 400 "Please provide either a topic or a PDF file to generate the quiz.")
    else
      try_catch (generateBody now req)
        (λ error,
           console_error [JStr "An error occurred during quiz generation:"; exnToLog error] ;;
           ret (message 500 "An error occurred on the server while generating the quiz.")).

(** *** Queries *)

(** [Quiz.findById(id)] *)
Definition findQuizById (id : string) : M (option Quiz) :=
  oid <- lift (ObjectId.cast id) ;;
  w <- get ;;
  ret (quizzes w !! oid).

(** [createdAt: -1] *)
Definition newerFirst (r1 r2 : Result) : Prop :=
  (result_createdAt r2 ≤ result_createdAt r1)%Z.

#[global] Instance newerFirst_dec : RelDecision newerFirst :=
  λ r1 r2, Z_le_dec (result_createdAt r2) (result_createdAt r1).

(** [Result.find({ quiz: quizId }).sort({ createdAt: -1 })] *)
Definition findResultsByQuiz (quizId : string) : M (list Result) :=
  oid <- lift (ObjectId.cast quizId) ;;
  w <- get ;;
  ret (merge_sort newerFirst
         (filter (λ r, result_quiz r = oid) (map_to_list (results w)).*2)).

(** [error.kind === 'ObjectId'] *)
Definition isObjectIdError (e : Exn) : bool :=
  match e with
  | CastError kind => bool_decide (kind = "ObjectId")
  | _ => false
  end.

(** *** getQuizPdfController *)

Definition dquote : string := String (ascii_of_nat 34) "".

Definition hexUpper (n : nat) : ascii :=
  ascii_of_nat (if (n <? 10)%nat then 48 + n else 55 + n).

Definition percent (n : nat) : string :=
  String "%" (String (hexUpper (n / 16)) (String (hexUpper (n mod 16)) "")).

Definition isUnreserved (c : ascii) : bool :=
  let n := nat_of_ascii c in
  (((48 <=? n) && (n <=? 57)) || ((65 <=? n) && (n <=? 90))
   || ((97 <=? n) && (n <=? 122)))%nat
  || bool_decide (c ∈ ["-"; "_"; "."; "!"; "~"; "*"; "'"; "("; ")"]%char).

(** [encodeURIComponent] on code units below 256: a unit from 128 on is
    escaped as the two bytes of its UTF-8 form. *)
Fixpoint encodeURIComponent (s : string) : string :=
  match s with
  | EmptyString => EmptyString
  | String c s' =>
      let n := nat_of_ascii c in
      (if isUnreserved c then String c ""
       else if (n <? 128)%nat then percent n
       else percent (192 + n / 64) +:+ percent (128 + n mod 64))
      +:+ encodeURIComponent s'
  end.

(** The characters that Node accepts in the value of a header: TAB, the
    printable ASCII characters and the code units from 128 on. *)
Definition isHeaderChar (c : ascii) : bool :=
  let n := nat_of_ascii c in
  ((n =? 9) || ((32 <=? n) && (n <=? 126)) || (128 <=? n))%nat.

Fixpoint validHeaderValue (s : string) : bool :=
  match s with
  | EmptyString => true
  | String c s' => isHeaderChar c && validHeaderValue s'
  end.

(** [res.setHeader(name, value)] throws on a value that holds another
    character. *)
Definition setHeader (name value : string) (headers : list (string * string))
  : M (list (string * string)) :=
  if validHeaderValue value then ret (headers ++ [(name, value)])
  else throw (TypeError ("Invalid character in header content [" +:+ dquote +:+ name
                           +:+ dquote +:+ "]")).

(** The value of [Content-Disposition] for a file name. *)
Definition contentDisposition (name : string) : string :=
  "inline; filename=" +:+ dquote +:+ name +:+ dquote.

(** The download stream of [fileId] is piped into the response, or emits
    ['error'] when the bucket has no such file. *)
Definition getQuizPdfController (id : string) : M Response :=
  try_catch
    (quiz <- findQuizById id ;;
     match quiz with
     | None => ret (message 404 "Quiz not found.")
     | Some quiz =>
         match sourceFileId quiz with
         | None => ret (message 404 "No PDF found for this quiz.")
         | Some fileId =>
             getBucket ;;
             h1 <- setHeader "Content-Type" "application/pdf" [] ;;
             h2 <- setHeader "Content-Disposition"
                     (contentDisposition (templ (optStr (sourceFilename quiz)))) h1 ;;
             h3 <- setHeader "X-Quiz-Title" (encodeURIComponent (title quiz)) h2 ;;
             w <- get ;;
             match files w !! fileId with
             | Some f => ret (ResStream 200 h3 (content f))
             | None =>
                 console_error [JStr "Error streaming PDF from GridFS:"] ;;
                 ret (message 500 "Failed to retrieve PDF file.")
             end
         end
     end)
    (λ error,
       console_error [JStr "Error fetching quiz PDF:"; exnToLog error] ;;
       if isObjectIdError error then ret (message 404 "Quiz not found.")
       else ret (message 500 "An error occurred on the server.")).

(** *** getQuizForTakingController *)

(** The error of reading the property [k] of a [null] element of
    [questions]. *)
Definition nullRead (k : string) : Exn :=
  TypeError ("Cannot read properties of null (reading '" +:+ k +:+ "')").

(** [q.k] for an element [q] of [quiz.questions] *)
Definition qprop {A} (k : string) (field : Question → A) (q : option Question) : M A :=
  match q with
  | Some q => ret (field q)
  | None => throw (nullRead k)
  end.

(** [q => ({ _id: q._id, questionText: q.questionText, options: q.options })] *)
Definition questionForStudent (q : option Question) : M jsval :=
  id <- qprop "_id" q_id q ;;
  questionText <- qprop "questionText" q_questionText q ;;
  options <- qprop "options" q_options q ;;
  ret (JObj [("_id", JStr (ObjectId.toString id));
             ("questionText", JStr questionText);
             ("options", JArr (map JStr options))]).

(** [quiz.questions.map(...)] *)
Fixpoint questionsForStudent (qs : list (option Question)) : M (list jsval) :=
  match qs with
  | [] => ret []
  | q :: qs' =>
      v <- questionForStudent q ;;
      vs <- questionsForStudent qs' ;;
      ret (v :: vs)
  end.

Definition getQuizForTakingController (quizId : string) : M Response :=
  try_catch
    (quiz <- findQuizById quizId ;;
     results_l <- findResultsByQuiz quizId ;;
     match quiz with
     | None => ret (message 404 "Quiz not found.")
     | Some quiz =>
         questions_v <- questionsForStudent (questions quiz) ;;
         ret (ResJson 200
                (JObj [("quiz",
                        JObj [("_id", JStr (ObjectId.toString (quiz_id quiz)));
                              ("title", JStr (title quiz));
                              ("questions", JArr questions_v)]);
                       ("results", JArr (map resultToJSON results_l))]))
     end)
    (λ error,
       console_error [JStr "Error fetching quiz for taking:"; exnToLog error] ;;
       if isObjectIdError error then ret (message 404 "Quiz not found.")
       else ret (message 500 "An error occurred on the server.")).

(** *** submitQuizController *)

(** One element of [detailedResults]. *)
Record DetailedResult : Type := mkDetailedResult {
  dr_questionId : ObjectId.t;
  dr_questionText : string;
  dr_submittedAnswer : jsval;
  dr_correctAnswer : string;
  dr_isCorrect : jsval
}.

Definition detailedToJSON (d : DetailedResult) : jsval :=
  JObj [("questionId", JStr (ObjectId.toString (dr_questionId d)));
        ("questionText", JStr (dr_questionText d));
        ("submittedAnswer", dr_submittedAnswer d);
        ("correctAnswer", JStr (dr_correctAnswer d));
        ("isCorrect", dr_isCorrect d)].

(** [l.find(ans => ans.questionId === correctQuestion._id.toString())] on
    the elements of an array: the callback reads [ans.questionId], then
    [correctQuestion._id]. *)
Fixpoint findAnswer (correctQuestion : option Question) (l : list jsval) : M jsval :=
  match l with
  | [] => ret JUndef
  | ans :: l' =>
      v <- lift (getProp ans "questionId") ;;
      id <- qprop "_id" q_id correctQuestion ;;
      if strict_eq_str v (ObjectId.toString id) then ret ans
      else findAnswer correctQuestion l'
  end.

(** [userAnswers.find(...)]: only an array has a [find] method. *)
Definition userAnswers_find (userAnswers : jsval) (correctQuestion : option Question)
  : M jsval :=
  match userAnswers with
  | JArr l => findAnswer correctQuestion l
  | JUndef | JNull => throw (TypeError "Cannot read properties of undefined (reading 'find')")
  | _ => throw (TypeError "userAnswers.find is not a function")
  end.

(** The callback of [quiz.questions.forEach], with the two variables it
    updates. *)
Definition gradeQuestion (userAnswers : jsval) (correctQuestion : option Question)
    (acc : nat * list DetailedResult) : M (nat * list DetailedResult) :=
  let '(score_v, detailedResults) := acc in
  userAnswerObj <- userAnswers_find userAnswers correctQuestion ;;
  isCorrect <-
    (if truthy userAnswerObj then
       a <- lift (getProp userAnswerObj "answer") ;;
       ca <- qprop "correctAnswer" q_correctAnswer correctQuestion ;;
       ret (JBool (strict_eq_str a ca))
     else ret userAnswerObj) ;;
  let score' := if truthy isCorrect then S score_v else score_v in
  questionId <- qprop "_id" q_id correctQuestion ;;
  questionText <- qprop "questionText" q_questionText correctQuestion ;;
  submittedAnswer <-
    (if truthy userAnswerObj then lift (getProp userAnswerObj "answer")
     else ret (JStr "No Answer")) ;;
  correctAnswer <- qprop "correctAnswer" q_correctAnswer correctQuestion ;;
  ret (score',
       detailedResults ++
         [mkDetailedResult questionId questionText submittedAnswer correctAnswer isCorrect]).

Fixpoint forEachQuestion (userAnswers : jsval) (qs : list (option Question))
    (acc : nat * list DetailedResult) : M (nat * list DetailedResult) :=
  match qs with
  | [] => ret acc
  | correctQuestion :: qs' =>
      acc' <- gradeQuestion userAnswers correctQuestion acc ;;
      forEachQuestion userAnswers qs' acc'
  end.

(** The ODM's cast to [Boolean]; [isCorrect] is [undefined] or a
    boolean. *)
Definition castBoolean (path : string) (v : jsval) : M (option bool) :=
  match v with
  | JUndef | JNull => ret None
  | JBool b => ret (Some b)
  | _ => throw (ValidationError path)
  end.

Definition castSubmittedAnswer (d : DetailedResult) : M SubmittedAnswer :=
  sa <- castString "submittedAnswer" (dr_submittedAnswer d) ;;
  ic <- castBoolean "isCorrect" (dr_isCorrect d) ;;
  ret (mkSubmittedAnswer (dr_questionId d) (dr_questionText d) sa (dr_correctAnswer d) ic).

Fixpoint castSubmittedAnswers (ds : list DetailedResult) : M (list SubmittedAnswer) :=
  match ds with
  | [] => ret []
  | d :: ds' =>
      a <- castSubmittedAnswer d ;;
      rest <- castSubmittedAnswers ds' ;;
      ret (a :: rest)
  end.

(** [new Result({...}).save()] *)
Definition saveResult (now : Z) (quizId : string) (score_v totalQuestions_v : nat)
    (detailedResults : list DetailedResult) : M Result :=
  id <- newObjectId ;;
  quiz_oid <- lift (ObjectId.cast quizId) ;;
  answers <- castSubmittedAnswers detailedResults ;;
  let r := mkResult id quiz_oid score_v totalQuestions_v answers now now in
  modify (set_results (insert id r)) ;;
  ret r.

(** [quizId] is [req.params.id], [userAnswers] is [req.body.answers]. *)
Definition submitQuizController (now : Z) (quizId : string) (userAnswers : jsval)
  : M Response :=
  try_catch
    (quiz <- findQuizById quizId ;;
     match quiz with
     | None => ret (message 404 "Quiz not found.")
     | Some quiz =>
         graded <- forEachQuestion userAnswers (questions quiz) (0%nat, []) ;;
         let '(score_v, detailedResults) := graded in
         savedResult <- saveResult now quizId score_v (length (questions quiz))
                          detailedResults ;;
         ret (ResJson 200
                (JObj [("message", JStr "Quiz submitted successfully!");
                       ("resultId", JStr (ObjectId.toString (result_id savedResult)));
                       ("score", JNum (Z.of_nat score_v));
                       ("totalQuestions", JNum (Z.of_nat (length (questions quiz))));
                       ("results", JArr (map detailedToJSON detailedResults))]))
     end)
    (λ error,
       console_error [JStr "Error submitting quiz:"; exnToLog error] ;;
       ret (message 500 "An error occurred on the server while submitting the quiz.")).

End Controllers.

(** ** Words of the specification *)

(** A topic text that is not blank after trimming is present. *)
Definition hasTopicText (v : jsval) : bool :=
  match v with
  | JStr s => negb (JsString.is_empty (JsString.trim s))
  | _ => false
  end.

(** The topic field is absent (or another empty value), or it is a text. *)
Definition topicAbsentOrText (v : jsval) : Prop :=
  truthy v = false ∨ ∃ s, v = JStr s.

(** A call that passes the two input checks of [generate]: a title, and a
    topic text or a file. *)
Definition validGenerate (req : GenerateRequest) : Prop :=
  truthy (body_title req) = true ∧
  (is_Some (file req) ∨ hasTopicText (body_topic req) = true).

(** No call to the LLM was added between two worlds. *)
Definition noLLMCall (w w' : World) : Prop :=
  ∀ c n, CallLLM c n ∈ calls w' → CallLLM c n ∈ calls w.

(** The context and provenance after the topic block. *)
Definition afterTopic (topic_v : jsval) : Locals :=
  if hasTopicText topic_v then
    mkLocals ("Topic provided by user:" +:+ JsString.nl +:+ templ topic_v) "text" None None
  else initLocals.

(** The world after the upload of [f] and the extraction of its text. *)
Definition afterFile (f : UploadedFile) (w : World) : World :=
  set_calls (cons (CallPdfParse (buffer f)))
    (set_files (insert (ObjectId.generate (counter w))
                  (mkGridFile (originalname f) (mimetype f) (buffer f)))
       (set_counter N.succ w)).

(** [w'] differs from [w] at most in the counter of ObjectIds. *)
Definition counterOnly (w w' : World) : Prop :=
  w' = set_counter (λ _, counter w') w.

(** The answer of [generate] to a call that produced the quiz [q]. *)
Definition created (q : Quiz) : Response :=
  ResJson 201
    (JObj [("message", JStr "Quiz generated and saved successfully!");
           ("quizId", JStr (ObjectId.toString (quiz_id q)));
           ("data", quizToJSON q)]).

(** The topic handed to [new Quiz]: [topic || `Content from ${sourceFilename}`]. *)
Definition topicOrFallback (topic_v : jsval) (l : Locals) : jsval :=
  js_or topic_v (JStr ("Content from " +:+ templ (optStr (l_sourceFilename l)))).

(** [q] is a quiz of [w'] that [w] does not hold. *)
Definition persistedBy (w w' : World) (q : Quiz) : Prop :=
  ∃ id, quizzes w' !! id = Some q ∧ quizzes w !! id ≠ Some q.

(** The parsed value is an array with at least one element. *)
Definition nonEmptyArray (v : jsval) : bool :=
  match v with
  | JArr (_ :: _) => true
  | _ => false
  end.

(** The results stored for the quiz [oid]. *)
Definition resultsOf (w : World) (oid : ObjectId.t) : list Result :=
  filter (λ r, result_quiz r = oid) (map_to_list (results w)).*2.

(** The question of a quiz as [getForTaking] shows it. *)
Definition studentView (q : Question) : jsval :=
  JObj [("_id", JStr (ObjectId.toString (q_id q)));
        ("questionText", JStr (q_questionText q));
        ("options", JArr (map JStr (q_options q)))].

(** *** Submitted answers *)

(** An entry of the answer list of [submit]: [{questionId, answer}]. *)
Record AnswerEntry : Type := mkAnswerEntry {
  ae_questionId : string;
  ae_answer : string
}.

Definition entryToJSON (e : AnswerEntry) : jsval :=
  JObj [("questionId", JStr (ae_questionId e)); ("answer", JStr (ae_answer e))].

(** The first entry for the question [id], and its answer. *)
Fixpoint firstEntry (id : string) (answers : list AnswerEntry) : option AnswerEntry :=
  match answers with
  | [] => None
  | e :: rest =>
      if decide (ae_questionId e = id) then Some e
      else firstEntry id rest
  end.

Definition firstAnswer (id : string) (answers : list AnswerEntry) : option string :=
  ae_answer <$> firstEntry id answers.

(** The first entry for the question carries exactly its correct answer. *)
Definition answeredCorrectly (answers : list AnswerEntry) (q : Question) : bool :=
  bool_decide (firstAnswer (ObjectId.toString (q_id q)) answers = Some (q_correctAnswer q)).

Definition correctCount (answers : list AnswerEntry) (qs : list Question) : nat :=
  length (filter (λ q, answeredCorrectly answers q = true) qs).

(** Some entry of the list, not necessarily the first for that question,
    carries the id of the question and exactly its correct answer. *)
Definition someEntryCorrect (answers : list AnswerEntry) (q : Question) : Prop :=
  ∃ e, e ∈ answers ∧
       ae_questionId e = ObjectId.toString (q_id q) ∧
       ae_answer e = q_correctAnswer q.

(** What [detailedResults] holds for the question [q]. *)
Definition gradedAs (answers : list AnswerEntry) (q : Question) (d : DetailedResult) : Prop :=
  dr_questionId d = q_id q ∧
  dr_questionText d = q_questionText q ∧
  dr_correctAnswer d = q_correctAnswer q ∧
  dr_submittedAnswer d
  = JStr (default "No Answer" (firstAnswer (ObjectId.toString (q_id q)) answers)) ∧
  truthy (dr_isCorrect d) = answeredCorrectly answers q ∧
  (is_Some (firstAnswer (ObjectId.toString (q_id q)) answers) →
   dr_isCorrect d = JBool (answeredCorrectly answers q)).

(** What the persisted result holds for the question [q]. *)
Definition storedAs (answers : list AnswerEntry) (q : Question) (a : SubmittedAnswer) : Prop :=
  sa_questionId a = q_id q ∧
  sa_questionText a = q_questionText q ∧
  sa_correctAnswer a = q_correctAnswer q ∧
  sa_submittedAnswer a
  = Some (default "No Answer" (firstAnswer (ObjectId.toString (q_id q)) answers)) ∧
  (sa_isCorrect a = Some true ↔ answeredCorrectly answers q = true) ∧
  (is_Some (firstAnswer (ObjectId.toString (q_id q)) answers) →
   sa_isCorrect a = Some (answeredCorrectly answers q)).

(** The element of [detailedResults] computed for [q]. *)
Definition gradeOf (answers : list AnswerEntry) (q : Question) : DetailedResult :=
  let found := firstAnswer (ObjectId.toString (q_id q)) answers in
  mkDetailedResult (q_id q) (q_questionText q)
    (JStr (default "No Answer" found))
    (q_correctAnswer q)
    (match found with
     | Some a => JBool (answeredCorrectly answers q)
     | None => JUndef
     end).

(** Its cast to the paths of [submittedAnswers]. *)
Definition storedGradeOf (answers : list AnswerEntry) (q : Question) : SubmittedAnswer :=
  let found := firstAnswer (ObjectId.toString (q_id q)) answers in
  mkSubmittedAnswer (q_id q) (q_questionText q)
    (Some (default "No Answer" found))
    (q_correctAnswer q)
    (match found with
     | Some a => Some (answeredCorrectly answers q)
     | None => None
     end).

(** ** A concrete deployment, for examples *)

Module Scenario.

(** The module state of config/db.js once [connectDB] was awaited. *)
Definition connected : DbPromise.State :=
  DbPromise.run DbPromise.init [CallConnectDB; ConnectSettled true].

Definition emptyWorld : World := mkWorld ∅ ∅ ∅ connected true 0%N [] [].

Definition pdfText : string :=
  "The mitochondrion is the organelle that produces most of the ATP of a cell.".

Definition pdf (data : list Byte.byte) : option string := Some pdfText.

(** The completion of the scenario, a fenced array of one question (its
    quotes are written as apostrophes), and the parser that reads it. *)
Definition completion : string :=
  "```json[{'questionText':'Q?','options':['A','B'],'correctAnswer':'A'}]```".

Definition llm (context : string) (numQuestions : jsval) : option string :=
  Some completion.

Definition questionJson : jsval :=
  JObj [("questionText", JStr "Q?");
        ("options", JArr [JStr "A"; JStr "B"]);
        ("correctAnswer", JStr "A")].

Definition JSON_parse (s : string) : option jsval :=
  if decide (s = "[{'questionText':'Q?','options':['A','B'],'correctAnswer':'A'}]")
  then Some (JArr [questionJson])
  else if decide (s = "[{'questionText':'Q?','options':['A','B'],'correctAnswer':'A'},null]")
  then Some (JArr [questionJson; JNull])
  else None.

Definition castNonString (v : jsval) : option string := None.

Definition castQuestion (v : jsval) : option QuestionFields :=
  match v with
  | JObj fs =>
      match assoc "questionText" fs, assoc "options" fs, assoc "correctAnswer" fs with
      | JStr qt, JArr [JStr a; JStr b], JStr ca =>
          Some (mkQuestionFields (Some qt) [a; b] (Some ca))
      | _, _, _ => None
      end
  | _ => None
  end.

Definition generate : Z → GenerateRequest → M Response :=
  generateQuizController pdf llm JSON_parse castNonString castQuestion.

(** An LLM that answers with prose. *)
Definition proseLlm (context : string) (numQuestions : jsval) : option string :=
  Some "Sorry, here are no questions.".

Definition submit : Z → string → jsval → M Response :=
  submitQuizController castNonString.

Definition notesPdf : UploadedFile :=
  mkUploadedFile "notes.pdf" "application/pdf" ["%"; "P"; "D"; "F"]%byte.

Definition longTopic : string :=
  "Cell biology: organelles, membranes and the production of energy.".

Definition reqTopicOnly : GenerateRequest :=
  mkGenerateRequest (JStr "Biology") JUndef (JStr longTopic) None.
Definition reqFileOnly : GenerateRequest :=
  mkGenerateRequest (JStr "Biology") JUndef JUndef (Some notesPdf).
Definition reqBoth : GenerateRequest :=
  mkGenerateRequest (JStr "Biology") JUndef (JStr longTopic) (Some notesPdf).
(** A file together with a topic of three spaces. *)
Definition reqBlankTopic : GenerateRequest :=
  mkGenerateRequest (JStr "Biology") JUndef (JStr "   ") (Some notesPdf).
Definition reqShortTopic : GenerateRequest :=
  mkGenerateRequest (JStr "Biology") JUndef (JStr "cells") None.
Definition reqNoSource : GenerateRequest :=
  mkGenerateRequest (JStr "Biology") (JNum 3) (JStr "  ") None.

(** The world after [reqFileOnly]: file 0, quiz 1, question 2. *)
Definition worldWithQuiz : World := snd (generate 1000 reqFileOnly emptyWorld).
Definition fileId : ObjectId.t := ObjectId.generate 0.
Definition quizId : ObjectId.t := ObjectId.generate 1.
Definition questionId : ObjectId.t := ObjectId.generate 2.

Definition theQuestion : Question := mkQuestion questionId "Q?" ["A"; "B"] "A".

Definition theQuiz : Quiz :=
  mkQuiz quizId "Biology" "Content from notes.pdf" "pdf" (Some "notes.pdf") (Some fileId)
    [Some theQuestion] 1000 1000.

(** Two entries for the same question: a wrong answer, then the right
    one. *)
Definition duplicateAnswers : list AnswerEntry :=
  [mkAnswerEntry questionId "B"; mkAnswerEntry questionId "A"].

(** The world after an empty submission for [theQuiz]: result 3. *)
Definition worldWithResult : World :=
  snd (submit 2000 quizId (JArr []) worldWithQuiz).
Definition resultId : ObjectId.t := ObjectId.generate 3.
Definition theResult : Result :=
  mkResult resultId quizId 0 1
    [mkSubmittedAnswer questionId "Q?" (Some "No Answer") "A" None] 2000 2000.

End Scenario.

(** ** getAllQuizzesController *)

(** [createdAt: -1] on quizzes *)
Definition newerQuizFirst (q1 q2 : Quiz) : Prop :=
  (quiz_createdAt q2 ≤ quiz_createdAt q1)%Z.

#[global] Instance newerQuizFirst_dec : RelDecision newerQuizFirst :=
  λ q1 q2, Z_le_dec (quiz_createdAt q2) (quiz_createdAt q1).

(** [Quiz.find({}, 'title questions').sort({ createdAt: -1 })] *)
Definition findAllQuizzes : M (list Quiz) :=
  w <- get ;;
  ret (merge_sort newerQuizFirst (map_to_list (quizzes w)).*2).

Definition quizForList (quiz : Quiz) : jsval :=
  JObj [("_id", JStr (ObjectId.toString (quiz_id quiz)));
        ("title", JStr (title quiz));
        ("questionCount", JNum (Z.of_nat (length (questions quiz))))].

Definition getAllQuizzesController : M Response :=
  try_catch
    (quizzes_l <- findAllQuizzes ;;
     ret (ResJson 200 (JArr (map quizForList quizzes_l))))
    (λ error,
       console_error [JStr "Error fetching all quizzes:"; exnToLog error] ;;
       ret (message 500 "An error occurred on the server.")).

(** ** The CORS policy (index.js) *)

Module Cors.

(** [allowedOrigins]; the last element is [process.env.FRONTEND_URL],
    [None] when the variable is not set. *)
Definition allowedOrigins (FRONTEND_URL : option string) : list (option string) :=
  [Some "http://localhost:5173";
   Some "http://localhost:5174";
   Some "http://localhost:5175";
   FRONTEND_URL].

(** [!origin] for the [Origin] header of a request, [None] when absent. *)
Definition noOrigin (origin : option string) : bool :=
  match origin with
  | None => true
  | Some s => JsString.is_empty s
  end.

(** [allowedOrigins.indexOf(origin) !== -1] *)
Definition listed (FRONTEND_URL : option string) (origin : option string) : bool :=
  bool_decide (origin ∈ allowedOrigins FRONTEND_URL).

(** What is handed to the callback: an error, or the permission. *)
Definition withMiddleware (FRONTEND_URL : option string) (origin : option string)
  : Exn + bool :=
  if noOrigin origin || listed FRONTEND_URL origin then inr true
  else inl (Error "Not allowed by CORS").

(** The [origin] function of the variant that connects at start-up. *)
Definition atStartup (FRONTEND_URL : option string) (origin : option string)
  : Exn + bool :=
  if noOrigin origin then inr true
  else if negb (listed FRONTEND_URL origin) then
    inl (Error "The CORS policy for this site does not allow access from the specified Origin.")
  else inr true.

End Cors.

(** ** Further words for properties *)

(** The validators of [questionSchema] hold of a stored question. *)
Definition validQuestion (q : Question) : Prop :=
  q_questionText q ≠ "" ∧ (2 ≤ length (q_options q))%nat ∧ q_correctAnswer q ≠ "".

(** The entry that answers [q] correctly. *)
Definition correctEntry (q : Question) : AnswerEntry :=
  mkAnswerEntry (ObjectId.toString (q_id q)) (q_correctAnswer q).

(** The entry is about one of the questions [qs] ([null] elements apart). *)
Definition aboutQuestions (qs : list (option Question)) (e : AnswerEntry) : Prop :=
  ae_questionId e ∈ (λ q, ObjectId.toString (q_id q)) <$> omap id qs.

#[global] Instance aboutQuestions_dec (qs : list (option Question)) (e : AnswerEntry) :
  Decision (aboutQuestions qs e).
Proof. unfold aboutQuestions. apply _. Defined.

(** The bucket is initialised and its upload streams finish. *)
Definition canUpload (w : World) : bool :=
  DbPromise.bucket (db w) && uploadsFinish w.

(** The computation leaves the database module and the bucket as they
    are. *)
Definition keepsDb {A} (m : M A) : Prop :=
  ∀ w r w', m w = (r, w') → db w' = db w ∧ uploadsFinish w' = uploadsFinish w.

(** The stored question is a document that passes the validators. *)
Definition validStored (q : option Question) : Prop :=
  ∀ q', q = Some q' → validQuestion q'.

(** The generic answer of [generate] to an exception. *)
Definition generateFailed : Response :=
  message 500 "An error occurred on the server while generating the quiz.".

(** The world after the LLM was called on the context of [l]. *)
Definition afterLLM (req : GenerateRequest) (l : Locals) (w1 : World) : World :=
  set_calls (cons (CallLLM (JsString.take 24000 (contextText l)) (numQuestionsOf req))) w1.

(** The error log entry of the outer [catch] of [generate]. *)
Definition generateErrorLog (e : Exn) : list jsval :=
  [JStr "An error occurred during quiz generation:"; exnToLog e].

(** What a handler may not touch when it only reads. *)
Definition sameData (w w' : World) : Prop :=
  quizzes w' = quizzes w ∧ results w' = results w ∧ files w' = files w ∧
  counter w' = counter w ∧ calls w' = calls w.

(** What holds of the module with the cached promise at any time. *)
Definition dbInvariant (s : DbPromise.State) : Prop :=
  match DbPromise.connPromise s with
  | None =>
      DbPromise.bucket s = false ∧
      (if DbPromise.exited s then DbPromise.connects s = 1%nat
       else DbPromise.connects s = 0%nat)
  | Some DbPromise.Pending =>
      DbPromise.bucket s = false ∧ DbPromise.connects s = 1%nat ∧
      DbPromise.exited s = false
  | Some DbPromise.Fulfilled =>
      DbPromise.bucket s = true ∧ DbPromise.connects s = 1%nat ∧
      DbPromise.exited s = false
  end.

(** What an element of [detailedResults] copies from its question. *)
Definition snapshotOf (q : Question) (d : DetailedResult) : Prop :=
  dr_questionId d = q_id q ∧
  dr_questionText d = q_questionText q ∧
  dr_correctAnswer d = q_correctAnswer q.

(** ** Further scenarios *)

Module Scenario2.

(** A text extraction and an LLM that fail. *)
Definition brokenPdf (data : list Byte.byte) : option string := None.
Definition brokenLlm (context : string) (numQuestions : jsval) : option string := None.

Definition reqBlankTitle : GenerateRequest :=
  mkGenerateRequest (JStr "  ") JUndef (JStr Scenario.longTopic) None.

(** The world after [Scenario.reqTopicOnly]: quiz 0, question 1. *)
Definition worldWithTextQuiz : World :=
  snd (Scenario.generate 1000 Scenario.reqTopicOnly Scenario.emptyWorld).
Definition textQuizId : ObjectId.t := ObjectId.generate 0.

(** A quiz whose file is not in the bucket. *)
Definition danglingQuiz : Quiz :=
  mkQuiz Scenario.quizId "Biology" "Content from notes.pdf" "pdf" (Some "notes.pdf")
    (Some Scenario.fileId) [Some Scenario.theQuestion] 1000 1000.
Definition worldWithDanglingQuiz : World :=
  mkWorld {[Scenario.quizId := danglingQuiz]} ∅ ∅ Scenario.connected true 3%N [] [].

(** A deployment in which [connectDB] was never awaited, and one whose
    upload streams end in ['error']. *)
Definition worldNotConnected : World := mkWorld ∅ ∅ ∅ DbPromise.init true 0%N [] [].
Definition worldUploadsFail : World := mkWorld ∅ ∅ ∅ Scenario.connected false 0%N [] [].

(** A quiz of [worldNotConnected] that names a file. *)
Definition worldNotConnectedWithQuiz : World :=
  mkWorld {[Scenario.quizId := danglingQuiz]} ∅ ∅ DbPromise.init true 3%N [] [].

(** An LLM whose array ends with [null]. *)
Definition completionWithNull : string :=
  "[{'questionText':'Q?','options':['A','B'],'correctAnswer':'A'},null]".
Definition llmWithNull (context : string) (numQuestions : jsval) : option string :=
  Some completionWithNull.

(** The world after [Scenario.reqTopicOnly] with that LLM: quiz 0,
    question 1 and a [null]. *)
Definition worldWithNullQuestion : World :=
  snd (generateQuizController Scenario.pdf llmWithNull Scenario.JSON_parse
         Scenario.castNonString Scenario.castQuestion 1000 Scenario.reqTopicOnly
         Scenario.emptyWorld).
Definition quizWithNull : Quiz :=
  mkQuiz textQuizId "Biology" Scenario.longTopic "text" None None
    [Some (mkQuestion (ObjectId.generate 1) "Q?" ["A"; "B"] "A"); None] 1000 1000.

(** A file whose name holds a line feed, and the request that uploads
    it. *)
Definition oddName : string := "lecture" +:+ JsString.nl +:+ "notes.pdf".
Definition oddNamePdf : UploadedFile :=
  mkUploadedFile oddName "application/pdf" ["%"; "P"; "D"; "F"]%byte.
Definition reqOddName : GenerateRequest :=
  mkGenerateRequest (JStr "Biology") JUndef JUndef (Some oddNamePdf).

(** A topic that is an array: a form field given twice. *)
Definition reqArrayTopic : GenerateRequest :=
  mkGenerateRequest (JStr "Biology") JUndef (JArr [JStr "a"; JStr "b"]) None.

(** An entry for a question that [Scenario.theQuiz] does not have, then a
    correct one. *)
Definition answersWithForeign : list AnswerEntry :=
  [mkAnswerEntry "ffffffffffffffffffffffff" "B"; mkAnswerEntry Scenario.questionId "A"].

End Scenario2.

(** ** Properties of JavaScript strings and ObjectIds *)

Lemma length_zero_is_empty (s : string) :
  (String.length s =? 0)%nat = JsString.is_empty s.
Proof. by destruct s. Qed.

Lemma length_pos_is_empty (s : string) :
  (0 <? String.length s)%nat = negb (JsString.is_empty s).
Proof. by destruct s. Qed.

Lemma hasTopicText_truthy (v : jsval) : hasTopicText v = true → truthy v = true.
Proof.
  destruct v as [| | | |s| |]; simpl; try discriminate.
  destruct s; [discriminate | done].
Qed.

Lemma substring_prefix (body rest : string) :
  String.substring 0 (String.length body) (body +:+ rest) = body.
Proof.
  induction body as [|c body IH]; simpl.
  - by destruct rest.
  - by rewrite IH.
Qed.

Lemma length_app (s1 s2 : string) :
  String.length (s1 +:+ s2) = (String.length s1 + String.length s2)%nat.
Proof. induction s1 as [|c s1 IH]; simpl; [done | by rewrite IH]. Qed.

Lemma allHex_app (s1 s2 : string) :
  ObjectId.allHex (s1 +:+ s2) = ObjectId.allHex s1 && ObjectId.allHex s2.
Proof.
  induction s1 as [|c s1 IH]; simpl; [done |].
  by rewrite IH, andb_assoc.
Qed.

Lemma lowerAll_app (s1 s2 : string) :
  ObjectId.lowerAll (s1 +:+ s2) = ObjectId.lowerAll s1 +:+ ObjectId.lowerAll s2.
Proof. induction s1 as [|c s1 IH]; simpl; [done | by rewrite IH]. Qed.

Lemma hexDigit_canonical (n : N) :
  (n < 16)%N →
  ObjectId.isHexDigit (ObjectId.hexDigit n) = true ∧
  ObjectId.lower (ObjectId.hexDigit n) = ObjectId.hexDigit n.
Proof.
  intros Hn.
  assert (Hcases : n ∈ [0; 1; 2; 3; 4; 5; 6; 7; 8; 9; 10; 11; 12; 13; 14; 15]%N).
  { rewrite !elem_of_cons. lia. }
  rewrite !elem_of_cons in Hcases.
  repeat destruct Hcases as [-> | Hcases]; try (split; reflexivity).
  by apply elem_of_nil in Hcases.
Qed.

Lemma hexFixed_canonical (w : nat) (n : N) :
  String.length (ObjectId.hexFixed w n) = w ∧
  ObjectId.allHex (ObjectId.hexFixed w n) = true ∧
  ObjectId.lowerAll (ObjectId.hexFixed w n) = ObjectId.hexFixed w n.
Proof.
  revert n. induction w as [|w IH]; intros n; simpl; [done |].
  destruct (IH (n / 16)%N) as (Hlen & Hhex & Hlow).
  destruct (hexDigit_canonical (n mod 16)%N) as [Hd Hl].
  { apply N.mod_lt. lia. }
  rewrite length_app, allHex_app, lowerAll_app, Hlen, Hhex, Hlow. simpl.
  rewrite Hd, Hl. repeat split; first [lia | done].
Qed.

(** The id of a freshly created document, sent to a client and received
    back as a request parameter, is cast to the same id. *)
Lemma cast_generate (n : N) :
  ObjectId.cast (ObjectId.generate n) = inr (ObjectId.generate n).
Proof.
  unfold ObjectId.cast, ObjectId.generate.
  destruct (hexFixed_canonical 24 n) as (Hlen & Hhex & Hlow).
  by rewrite Hlen, Hhex, Hlow.
Qed.

Lemma startsWith_app (p s : string) : JsString.startsWith (p +:+ s) p = true.
Proof.
  unfold JsString.startsWith. induction p as [|c p IH]; simpl.
  - by destruct s.
  - by destruct (ascii_dec c c).
Qed.

Lemma startsWith_shorter (p q s : string) :
  JsString.startsWith s (p +:+ q) = true → JsString.startsWith s p = true.
Proof.
  unfold JsString.startsWith. revert s.
  induction p as [|c p IH]; intros s.
  - by destruct s.
  - destruct s as [|d s]; simpl; [done |].
    destruct (ascii_dec c d); [apply IH | done].
Qed.

Lemma substring_skip (pre rest : string) (n : nat) :
  String.substring (String.length pre) n (pre +:+ rest) = String.substring 0 n rest.
Proof. induction pre as [|c pre IH]; simpl; [done | exact IH]. Qed.

(** [slice(k, -3)] of a text made of a prefix of [k] characters, a body
    and a closing fence is the body. *)
Lemma slice_fence (pre body : string) :
  JsString.slice (pre +:+ body +:+ "```") (Z.of_nat (String.length pre)) (-3) = body.
Proof.
  unfold JsString.slice, JsString.clamp_index.
  rewrite !length_app. simpl String.length.
  destruct (Z.ltb_spec (Z.of_nat (String.length pre)) 0) as [? | _]; [lia |].
  destruct (Z.ltb_spec (-3) 0) as [_ | ?]; [| lia].
  replace (Z.to_nat (Z.min _ _)) with (String.length pre) by lia.
  replace (Z.to_nat (_ - _)) with (String.length body) by lia.
  by rewrite substring_skip, substring_prefix.
Qed.

(** *** Header values *)

Lemma validHeaderValue_app (s1 s2 : string) :
  validHeaderValue (s1 +:+ s2) = validHeaderValue s1 && validHeaderValue s2.
Proof.
  induction s1 as [|c s1 IH]; simpl; [done |].
  by rewrite IH, andb_assoc.
Qed.

(** An escaped text is made of unreserved characters, ['%'] and
    hexadecimal digits. *)
Lemma encodeURIComponent_valid (s : string) :
  validHeaderValue (encodeURIComponent s) = true.
Proof.
  induction s as [|c s IH]; simpl; [done |].
  rewrite validHeaderValue_app, IH, andb_true_r.
  destruct c as [[] [] [] [] [] [] [] []]; vm_compute; reflexivity.
Qed.

Lemma contentDisposition_valid (name : string) :
  validHeaderValue (contentDisposition name) = validHeaderValue name.
Proof.
  unfold contentDisposition. rewrite !validHeaderValue_app.
  change (validHeaderValue "inline; filename=") with true.
  change (validHeaderValue dquote) with true.
  by rewrite andb_true_r.
Qed.

(** *** Computations that leave the database module alone *)

Lemma keepsDb_ret {A} (a : A) : keepsDb (ret a).
Proof. by intros w r w' [= <- <-]. Qed.

Lemma keepsDb_throw {A} (e : Exn) : keepsDb (@throw A e).
Proof. by intros w r w' [= <- <-]. Qed.

Lemma keepsDb_lift {A} (x : Exn + A) : keepsDb (lift x).
Proof. by intros w r w' [= <- <-]. Qed.

Lemma keepsDb_get : keepsDb get.
Proof. by intros w r w' [= <- <-]. Qed.

Lemma keepsDb_modify (f : World → World) :
  (∀ w, db (f w) = db w ∧ uploadsFinish (f w) = uploadsFinish w) →
  keepsDb (modify f).
Proof. intros Hf w r w' [= <- <-]. apply Hf. Qed.

Lemma keepsDb_bind {A B} (m : M A) (k : A → M B) :
  keepsDb m → (∀ a, keepsDb (k a)) → keepsDb (bind m k).
Proof.
  intros Hm Hk w r w'. unfold bind.
  destruct (m w) as [[e | a] w1] eqn:H1; destruct (Hm _ _ _ H1) as [Hd Hu].
  - intros [= <- <-]. by split.
  - intros [Hd' Hu']%Hk. split; congruence.
Qed.

Lemma keepsDb_try_catch {A} (body : M A) (handler : Exn → M A) :
  keepsDb body → (∀ e, keepsDb (handler e)) → keepsDb (try_catch body handler).
Proof.
  intros Hm Hk w r w'. unfold try_catch.
  destruct (body w) as [[e | a] w1] eqn:H1; destruct (Hm _ _ _ H1) as [Hd Hu].
  - intros [Hd' Hu']%Hk. split; congruence.
  - intros [= <- <-]. by split.
Qed.

(** Goals of the form [keepsDb m] for a computation built from the
    operations of the monad. *)
Create HintDb keeps.

Ltac keepsDb_step :=
  first
    [ assumption
    | solve [auto with keeps]
    | apply keepsDb_ret | apply keepsDb_throw | apply keepsDb_lift | apply keepsDb_get
    | apply keepsDb_modify; intros ?; split; reflexivity
    | apply keepsDb_bind; [| intros ?]
    | apply keepsDb_try_catch; [| intros ?]
    | match goal with
      | |- keepsDb (match ?x with _ => _ end) => destruct x
      | |- keepsDb (if ?b then _ else _) => destruct b
      | |- keepsDb (let '(_, _) := ?x in _) => destruct x
      end ].

Ltac keepsDb_tac := repeat keepsDb_step.

Lemma keepsDb_newObjectId : keepsDb newObjectId.
Proof. unfold newObjectId. keepsDb_tac. Qed.

Lemma keepsDb_console_error (args : list jsval) : keepsDb (console_error args).
Proof. unfold console_error. keepsDb_tac. Qed.

#[global] Hint Resolve keepsDb_newObjectId keepsDb_console_error : keeps.

Lemma keepsDb_newSubdocs (vs : list jsval) : keepsDb (newSubdocs vs).
Proof. induction vs as [| v vs IH]; simpl; keepsDb_tac. Qed.

#[global] Hint Resolve keepsDb_newSubdocs : keeps.

(** ** Properties of the handlers *)

Section Properties.

Variable pdf : list Byte.byte → option string.
Variable llm : string → jsval → option string.
Variable JSON_parse : string → option jsval.
Variable castNonString : jsval → option string.
Variable castQuestion : jsval → option QuestionFields.

Local Abbreviation generate :=
  (generateQuizController pdf llm JSON_parse castNonString castQuestion).
Local Abbreviation gather := (gatherSources pdf).

(** *** The input checks *)

Lemma sourceMissing_valid (req : GenerateRequest) (w : World) :
  is_Some (file req) ∨ hasTopicText (body_topic req) = true →
  sourceMissing req w = (inr false, w).
Proof.
  unfold sourceMissing. intros [[f Hf] | Ht].
  - by rewrite Hf.
  - destruct (file req); [done |].
    rewrite (hasTopicText_truthy _ Ht). simpl.
    destruct (body_topic req); try discriminate. simpl in *.
    unfold bind, ret. simpl. rewrite length_zero_is_empty.
    by destruct (JsString.is_empty (JsString.trim s)).
Qed.

Lemma sourceMissing_blank (req : GenerateRequest) (w : World) :
  file req = None →
  topicAbsentOrText (body_topic req) →
  hasTopicText (body_topic req) = false →
  sourceMissing req w = (inr true, w).
Proof.
  unfold sourceMissing. intros -> Habs Ht.
  destruct (truthy (body_topic req)) eqn:Htr; [| done]. simpl.
  destruct Habs as [Hf | [s Hs]]; [congruence |].
  rewrite Hs in *. simpl in *. unfold bind, ret. simpl.
  rewrite length_zero_is_empty.
  by destruct (JsString.is_empty (JsString.trim s)).
Qed.

(** [generate] answers 400 and leaves the world as it was (nothing
    stored, no collaborator called, nothing logged) whenever the title is
    empty, and, for a title that is not, whenever there is no file and the
    topic is absent or a text that is blank after trimming; the other
    fields of the request are arbitrary. *)
Lemma generate_rejects_invalid_input (now : Z) (req : GenerateRequest) (w : World) :
  (truthy (body_title req) = false →
   generate now req w = (inr (message 400 "A quiz title is required."), w)) ∧
  (truthy (body_title req) = true →
   file req = None →
   topicAbsentOrText (body_topic req) →
   hasTopicText (body_topic req) = false →
   generate now req w
   = (inr (message 400 "Please provide either a topic or a PDF file to generate the quiz."),
      w)).
Proof.
  split.
  - intros Ht. unfold generateQuizController. by rewrite Ht.
  - intros Ht Hf Habs Hblank. unfold generateQuizController. rewrite Ht. simpl.
    unfold bind. by rewrite sourceMissing_blank by done.
Qed.

(** A topic that is neither empty nor a text has no [trim] method: without
    a file the input check throws, outside the [try] block, and the
    request is never answered. *)
Lemma generate_non_text_topic (now : Z) (req : GenerateRequest) (w : World) :
  truthy (body_title req) = true →
  file req = None →
  truthy (body_topic req) = true →
  (∀ s, body_topic req ≠ JStr s) →
  run_handler (generate now req) w
  = (Rejected (TypeError "topic.trim is not a function"), w).
Proof.
  intros Ht Hf Htopic Hnot.
  unfold run_handler, generateQuizController. rewrite Ht. simpl.
  unfold bind, sourceMissing. rewrite Hf, Htopic. simpl.
  destruct (body_topic req) as [| | | |s| |]; try done. by destruct (Hnot s).
Qed.

(** *** Gathering the sources (lines 195-231) *)

Lemma addTopic_init (topic_v : jsval) (w : World) (l : Locals) (w' : World) :
  addTopic topic_v initLocals w = (inr l, w') →
  w' = w ∧ l = afterTopic topic_v.
Proof.
  unfold addTopic, afterTopic.
  destruct topic_v as [| |b|n|s|vs|fs]; simpl;
    try (intros [= <- <-]; done);
    try (destruct b; simpl; [discriminate | by intros [= <- <-]]);
    try (destruct (negb (n =? 0)%Z); simpl; [discriminate | by intros [= <- <-]]);
    try discriminate.
  destruct s as [|c s]; simpl; [by intros [= <- <-] |].
  unfold bind, ret. simpl. rewrite length_pos_is_empty.
  destruct (negb (JsString.is_empty (JsString.trim (String c s))));
    by intros [= <- <-].
Qed.

Lemma counterOnly_refl (w : World) : counterOnly w w.
Proof. by destruct w. Qed.

Lemma counterOnly_trans (w1 w2 w3 : World) :
  counterOnly w1 w2 → counterOnly w2 w3 → counterOnly w1 w3.
Proof. unfold counterOnly. intros -> ->. by destruct w1. Qed.

Lemma counterOnly_data (w w' : World) :
  counterOnly w w' →
  quizzes w' = quizzes w ∧ results w' = results w ∧ files w' = files w ∧
  calls w' = calls w ∧ db w' = db w ∧ uploadsFinish w' = uploadsFinish w.
Proof. unfold counterOnly. intros ->. by destruct w. Qed.

(** The upload stores the file under a fresh id when the bucket is
    initialised and the stream finishes, and throws otherwise. *)
Lemma upload_inv (f : UploadedFile) (w : World) r w' :
  upload f w = (r, w') →
  if canUpload w then
    r = inr (ObjectId.generate (counter w)) ∧
    w' = set_files (insert (ObjectId.generate (counter w))
                      (mkGridFile (originalname f) (mimetype f) (buffer f)))
           (set_counter N.succ w)
  else (∃ e, r = inl e) ∧ counterOnly w w'.
Proof.
  unfold upload, getBucket, canUpload, DbPromise.getBucket, newObjectId,
    bind, get, modify, lift, ret, throw.
  destruct (DbPromise.bucket (db w)); simpl.
  - destruct (uploadsFinish w); intros [= <- <-]; [done |].
    split; [by eexists | by destruct w].
  - intros [= <- <-]. split; [by eexists | apply counterOnly_refl].
Qed.

Lemma addFile_run (f : UploadedFile) (l : Locals) (w : World) r w' :
  addFile pdf f l w = (r, w') →
  if canUpload w then
    w' = afterFile f w ∧
    match pdf (buffer f) with
    | Some text =>
        ∃ l', r = inr l' ∧
              l_sourceType l' = (if decide (l_sourceType l = "text") then "combined" else "pdf") ∧
              l_sourceFilename l' = Some (originalname f) ∧
              l_sourceFileId l' = Some (ObjectId.generate (counter w))
    | None => ∃ e, r = inl e
    end
  else (∃ e, r = inl e) ∧ counterOnly w w'.
Proof.
  unfold addFile. unfold bind at 1.
  destruct (upload f w) as [[e | id] w1] eqn:Hup; apply upload_inv in Hup;
    destruct (canUpload w).
  - by destruct Hup.
  - intros [= <- <-]. destruct Hup as [_ Hc]. split; [by eexists | done].
  - destruct Hup as [[= ->] ->].
    unfold pdfParse, bind, modify, ret, throw. simpl.
    destruct (pdf (buffer f)); intros [= <- <-]; (split; [done |]); by eexists.
  - by destruct Hup as [[e He] _].
Qed.

Lemma addFile_inv (f : UploadedFile) (l l' : Locals) (w w' : World) :
  addFile pdf f l w = (inr l', w') →
  canUpload w = true ∧
  w' = afterFile f w ∧
  l_sourceType l' = (if decide (l_sourceType l = "text") then "combined" else "pdf") ∧
  l_sourceFilename l' = Some (originalname f) ∧
  l_sourceFileId l' = Some (ObjectId.generate (counter w)).
Proof.
  intros H%addFile_run. destruct (canUpload w).
  - destruct H as [-> H]. destruct (pdf (buffer f)).
    + destruct H as (l0 & [= <-] & H). by repeat split; try apply H.
    + by destruct H.
  - by destruct H as [[e He] _].
Qed.

Lemma gatherSources_inv (req : GenerateRequest) (w : World) (l : Locals) (w' : World) :
  gather req w = (inr l, w') →
  match file req with
  | None =>
      w' = w ∧ l = afterTopic (body_topic req)
  | Some f =>
      w' = afterFile f w ∧
      l_sourceType l = (if hasTopicText (body_topic req) then "combined" else "pdf") ∧
      l_sourceFilename l = Some (originalname f) ∧
      l_sourceFileId l = Some (ObjectId.generate (counter w))
  end.
Proof.
  unfold gatherSources, bind.
  destruct (addTopic (body_topic req) initLocals w) as [[e | l0] w0] eqn:Htopic;
    [discriminate |].
  apply addTopic_init in Htopic as [-> ->].
  destruct (file req) as [f |].
  - intros (_ & -> & Hty & Hname & Hid)%addFile_inv.
    repeat split; try done.
    rewrite Hty. unfold afterTopic.
    by destruct (hasTopicText (body_topic req)).
  - by intros [= <- <-].
Qed.

(** A call with a file gathers its sources only where the upload works. *)
Lemma gatherSources_canUpload (req : GenerateRequest) (w : World) (l : Locals) (w' : World) :
  gather req w = (inr l, w') → is_Some (file req) → canUpload w = true.
Proof.
  unfold gatherSources, bind.
  destruct (addTopic (body_topic req) initLocals w) as [[e | l0] w0] eqn:Htopic;
    [discriminate |].
  apply addTopic_init in Htopic as [-> ->].
  destruct (file req) as [f |]; [| by intros _ [? ?]].
  by intros (Hcan & _)%addFile_inv _.
Qed.

Lemma gatherSources_frame (req : GenerateRequest) (w : World) (l : Locals) (w' : World) :
  gather req w = (inr l, w') →
  quizzes w' = quizzes w ∧ results w' = results w ∧ noLLMCall w w'.
Proof.
  intros H%gatherSources_inv. destruct (file req) as [f |].
  - destruct H as (-> & _). repeat split; try done.
    intros c n. simpl. rewrite elem_of_cons. by intros [? | ?].
  - destruct H as [-> _]. repeat split; try done. by intros c n.
Qed.

(** C3. A call that passes the input checks and whose combined context,
    once trimmed, has fewer than 50 characters is answered 400; between
    the world before the request and the world after it no call to the
    LLM was made and the quizzes are the same. *)
Theorem generate_insufficient_context (now : Z) (req : GenerateRequest)
    (w : World) (l : Locals) (w1 : World) :
  validGenerate req →
  gather req w = (inr l, w1) →
  (String.length (JsString.trim (contextText l)) < 50)%nat →
  generate now req w
  = (inr (message 400 "Could not find sufficient text from the provided sources to generate a quiz."), w1)
  ∧ noLLMCall w w1
  ∧ quizzes w1 = quizzes w.
Proof.
  intros [Htitle Hsrc] Hgather Hshort.
  destruct (gatherSources_frame _ _ _ _ Hgather) as (Hq & _ & Hllm).
  repeat split; try done.
  unfold generateQuizController. rewrite Htitle. simpl.
  unfold bind at 1. rewrite sourceMissing_valid by done.
  unfold try_catch, generateBody, bind. rewrite Hgather.
  apply Nat.ltb_lt in Hshort. by rewrite Hshort.
Qed.

(** *** Saving a quiz *)

Lemma castString_pure (path : string) (v : jsval) (w : World) r w' :
  castString castNonString path v w = (r, w') → w' = w.
Proof.
  unfold castString. destruct v; try (by intros [= <- <-]);
    destruct (castNonString _); by intros [= <- <-].
Qed.

Lemma castString_str (path s : string) (w : World) :
  castString castNonString path (JStr s) w = (inr (Some s), w).
Proof. done. Qed.

Lemma required_inv (path : string) (o : option string) (w : World) r w' :
  required path o w = (r, w') →
  w' = w ∧ ∀ s, r = inr s → o = Some s ∧ JsString.is_empty s = false.
Proof.
  unfold required. destruct o as [s |].
  - destruct (JsString.is_empty s) eqn:He; intros [= <- <-]; split; try done.
    by intros ? [= <-].
  - by intros [= <- <-].
Qed.

Lemma validateQuestion_pure (d : option (ObjectId.t * jsval)) (w : World) r w' :
  validateQuestion castQuestion d w = (r, w') → w' = w.
Proof.
  unfold validateQuestion. destruct d as [[id v] |]; [| by intros [= <- <-]].
  destruct (castQuestion v) as [f |]; [| by intros [= <- <-]].
  unfold bind.
  destruct (required _ (qf_questionText f) w) as [[e | qt] w1] eqn:H1;
    apply required_inv in H1 as [-> _]; [by intros [= <- <-] |].
  destruct (1 <? length (qf_options f))%nat; simpl; [| by intros [= <- <-]].
  destruct (required _ (qf_correctAnswer f) w) as [[e | ca] w1] eqn:H2;
    apply required_inv in H2 as [-> _]; by intros [= <- <-].
Qed.

Lemma validateQuestions_pure (ds : list (option (ObjectId.t * jsval))) (w : World) r w' :
  validateQuestions castQuestion ds w = (r, w') → w' = w.
Proof.
  revert w r w'. induction ds as [| d ds IH]; intros w r w'; simpl;
    [by intros [= <- <-] |].
  unfold bind.
  destruct (validateQuestion _ d w) as [[e | q] w1] eqn:H1;
    apply validateQuestion_pure in H1 as ->; [by intros [= <- <-] |].
  destruct (validateQuestions _ ds w) as [[e | qs] w1] eqn:H2;
    apply IH in H2 as ->; by intros [= <- <-].
Qed.

Lemma newSubdocs_counterOnly (vs : list jsval) (w : World) r w' :
  newSubdocs vs w = (r, w') → counterOnly w w' ∧ ∃ ds, r = inr ds.
Proof.
  revert w r w'. induction vs as [| v vs IH]; intros w r w'; simpl.
  - intros [= <- <-]. split; [apply counterOnly_refl | by eexists].
  - unfold bind at 1. destruct (isNullish v).
    + unfold ret at 1. unfold bind.
      destruct (newSubdocs vs w) as [[e | ds] w1] eqn:H1;
        apply IH in H1 as [Hc [ds' Hds]]; [done |].
      intros [= <- <-]. split; [done | by eexists].
    + unfold newObjectId at 1. unfold bind, get, modify, ret. simpl.
      destruct (newSubdocs vs (set_counter N.succ w)) as [[e | ds] w1] eqn:H1;
        apply IH in H1 as [Hc [ds' Hds]]; [done |].
      intros [= <- <-]. split; [| by eexists].
      eapply counterOnly_trans; [| exact Hc]. by destruct w.
Qed.

Lemma saveQuiz_inv (now : Z) (title_v topic_v : jsval) (qs : list jsval)
    (st : string) (fn : option string) (fid : option ObjectId.t) (w : World) r w' :
  saveQuiz castNonString castQuestion now title_v topic_v qs st fn fid w = (r, w') →
  results w' = results w ∧ files w' = files w ∧ calls w' = calls w ∧
  match r with
  | inl _ => quizzes w' = quizzes w
  | inr q =>
      quiz_id q = ObjectId.generate (counter w) ∧
      quizzes w' = <[quiz_id q := q]> (quizzes w) ∧
      sourceType q = st ∧ sourceFilename q = fn ∧ sourceFileId q = fid ∧
      validSourceType st = true ∧
      JsString.is_empty (topic q) = false ∧
      (∀ s, topic_v = JStr s → topic q = s)
  end.
Proof.
  unfold saveQuiz. unfold bind at 1. unfold newObjectId at 1.
  unfold bind at 1 2, get, modify, ret at 1. simpl.
  unfold bind at 1.
  destruct (newSubdocs _ _) as [[e | subdocs] w1] eqn:Hids;
    apply newSubdocs_counterOnly in Hids as [Hc [? ?]]; [done |].
  assert (Hw1 : quizzes w1 = quizzes w ∧ results w1 = results w ∧
                files w1 = files w ∧ calls w1 = calls w).
  { rewrite Hc. by destruct w. }
  destruct Hw1 as (Hq1 & Hr1 & Hf1 & Hc1). clear Hc.
  unfold bind at 1.
  destruct (castString _ "title" title_v w1) as [[e | t] w2] eqn:Ht;
    apply castString_pure in Ht as ->; [by intros [= <- <-] |].
  unfold bind at 1.
  destruct (required "title" _ w1) as [[e | t'] w2] eqn:Ht';
    apply required_inv in Ht' as [-> _]; [by intros [= <- <-] |].
  unfold bind at 1.
  destruct (castString _ "topic" topic_v w1) as [[e | tp] w2] eqn:Htp.
  { apply castString_pure in Htp as ->. by intros [= <- <-]. }
  assert (w2 = w1) as -> by (by eapply castString_pure).
  unfold bind at 1.
  destruct (required "topic" tp w1) as [[e | tp'] w2] eqn:Htp';
    apply required_inv in Htp' as [-> Hreq]; [by intros [= <- <-] |].
  destruct (Hreq tp' eq_refl) as [-> Hne].
  unfold bind at 1.
  destruct (validSourceType st) eqn:Hst; simpl; [| by intros [= <- <-]].
  unfold bind at 1.
  destruct (validateQuestions _ subdocs w1) as [[e | qs'] w2] eqn:Hqs;
    apply validateQuestions_pure in Hqs as ->; [by intros [= <- <-] |].
  unfold bind, modify, ret. simpl. intros [= <- <-]. simpl.
  rewrite Hq1, Hr1, Hf1, Hc1. repeat split; try done.
  intros s ->. rewrite castString_str in Htp. by injection Htp as [= ->].
Qed.

(** *** The path of a request through [generate] *)

Lemma sourceMissing_pure (req : GenerateRequest) (w : World) r w' :
  sourceMissing req w = (r, w') → w' = w.
Proof.
  unfold sourceMissing. destruct (file req); [by intros [= <- <-] |].
  destruct (negb (truthy (body_topic req))); [by intros [= <- <-] |].
  destruct (body_topic req); by intros [= <- <-].
Qed.

Lemma sourceMissing_false (req : GenerateRequest) (w w' : World) :
  sourceMissing req w = (inr false, w') →
  is_Some (file req) ∨ hasTopicText (body_topic req) = true.
Proof.
  unfold sourceMissing. destruct (file req) as [f |]; [by left; eexists |].
  destruct (truthy (body_topic req)) eqn:Ht; simpl; [| discriminate].
  destruct (body_topic req) as [| | | |s| |]; try discriminate.
  unfold bind, ret. simpl. rewrite length_zero_is_empty.
  intros [= Hne]. right. simpl. by rewrite Hne.
Qed.

Lemma addTopic_pure (topic_v : jsval) (l : Locals) (w : World) r w' :
  addTopic topic_v l w = (r, w') → w' = w.
Proof.
  unfold addTopic. destruct (truthy topic_v); [| by intros [= <- <-]].
  destruct topic_v; try (by intros [= <- <-]).
  unfold bind, ret. simpl.
  destruct (0 <? _)%nat; by intros [= <- <-].
Qed.

Lemma gatherSources_quizzes (req : GenerateRequest) (w : World) r w' :
  gather req w = (r, w') → quizzes w' = quizzes w.
Proof.
  unfold gatherSources, bind.
  destruct (addTopic _ _ w) as [[e | l0] w0] eqn:Htopic;
    apply addTopic_pure in Htopic as ->; [by intros [= <- <-] |].
  destruct (file req) as [f |]; [| by intros [= <- <-]].
  intros H%addFile_run. destruct (canUpload w).
  - by destruct H as [-> _].
  - destruct H as [_ Hc]. by apply counterOnly_data in Hc as (? & _).
Qed.

Lemma callLLM_inv (context : string) (n : jsval) (w : World) r w' :
  callLLM llm context n w = (r, w') →
  w' = set_calls (cons (CallLLM context n)) w ∧
  ∀ text, r = inr text → llm context n = Some text.
Proof.
  unfold callLLM, bind, modify, ret, throw. simpl.
  destruct (llm context n); intros [= <- <-]; split; try done.
  by intros ? [= <-].
Qed.

Lemma parseQuestions_quizzes (text : string) (w : World) r w' :
  parseQuestions JSON_parse text w = (r, w') →
  quizzes w' = quizzes w ∧ files w' = files w ∧ counter w' = counter w.
Proof.
  unfold parseQuestions.
  destruct (JSON_parse _) as [v |]; [| by intros [= <- <-]].
  destruct v as [| | | | |[| q qs]|]; by intros [= <- <-].
Qed.

Lemma generateBody_inv (now : Z) (req : GenerateRequest) (w : World) r w' :
  generateBody pdf llm JSON_parse castNonString castQuestion now req w = (r, w') →
  (quizzes w' = quizzes w ∧ ∀ body, r ≠ inr (ResJson 201 body)) ∨
  ∃ l w1 q,
    gather req w = (inr l, w1) ∧
    r = inr (created q) ∧
    quizzes w' = <[quiz_id q := q]> (quizzes w) ∧
    files w' = files w1 ∧
    quiz_id q = ObjectId.generate (counter w1) ∧
    sourceType q = l_sourceType l ∧
    sourceFilename q = l_sourceFilename l ∧
    sourceFileId q = l_sourceFileId l ∧
    JsString.is_empty (topic q) = false ∧
    (∀ s, topicOrFallback (body_topic req) l = JStr s → topic q = s).
Proof.
  unfold generateBody. unfold bind at 1.
  destruct (gather req w) as [[e | l] w1] eqn:Hgather.
  { intros [= <- <-]. left. split; [by eapply gatherSources_quizzes | done]. }
  pose proof (gatherSources_quizzes _ _ _ _ Hgather) as Hq1.
  destruct (String.length (JsString.trim (contextText l)) <? 50)%nat.
  { intros [= <- <-]. left. split; [done | by intros b]. }
  unfold bind at 1.
  destruct (callLLM _ _ _ w1) as [[e | text] w2] eqn:Hllm;
    apply callLLM_inv in Hllm as [-> _].
  { intros [= <- <-]. left. by split. }
  unfold bind at 1. unfold try_catch, bind at 1.
  destruct (parseQuestions _ text _) as [[e | qs] w3] eqn:Hparse;
    apply parseQuestions_quizzes in Hparse as (Hq3 & Hf3 & Hc3); simpl in Hq3, Hf3, Hc3.
  { unfold bind, console_error, modify, ret. simpl.
    intros [= <- <-]. left. simpl. split; [congruence | by intros b]. }
  unfold ret at 1. unfold bind at 1.
  destruct (saveQuiz _ _ _ _ _ _ _ _ _ w3) as [[e | q] w4] eqn:Hsave;
    apply saveQuiz_inv in Hsave as (_ & Hf4 & _ & Hsave).
  { intros [= <- <-]. left. split; [congruence | done]. }
  destruct Hsave as (Hid & Hq4 & Hst & Hfn & Hfid & _ & Hne & Htopic).
  intros [= <- <-]. right. exists l, w1, q.
  repeat split; try done; congruence.
Qed.

Lemma generate_inv (now : Z) (req : GenerateRequest) (w : World) r w' :
  generate now req w = (r, w') →
  (quizzes w' = quizzes w ∧ ∀ body, r ≠ inr (ResJson 201 body)) ∨
  ∃ l w1 q,
    validGenerate req ∧
    gather req w = (inr l, w1) ∧
    r = inr (created q) ∧
    quizzes w' = <[quiz_id q := q]> (quizzes w) ∧
    files w' = files w1 ∧
    quiz_id q = ObjectId.generate (counter w1) ∧
    sourceType q = l_sourceType l ∧
    sourceFilename q = l_sourceFilename l ∧
    sourceFileId q = l_sourceFileId l ∧
    JsString.is_empty (topic q) = false ∧
    (∀ s, topicOrFallback (body_topic req) l = JStr s → topic q = s).
Proof.
  unfold generateQuizController.
  destruct (truthy (body_title req)) eqn:Htitle; simpl.
  2: { intros [= <- <-]. left. by split. }
  unfold bind at 1.
  destruct (sourceMissing req w) as [[e | missing] w0] eqn:Hmiss.
  { apply sourceMissing_pure in Hmiss as ->. intros [= <- <-]. left. by split. }
  pose proof (sourceMissing_pure _ _ _ _ Hmiss) as ->.
  destruct missing.
  { intros [= <- <-]. left. by split. }
  apply sourceMissing_false in Hmiss.
  unfold try_catch.
  destruct (generateBody _ _ _ _ _ now req w) as [[e | resp] w2] eqn:Hbody;
    apply generateBody_inv in Hbody as [[Hq Hr] | (l & w1 & q & Hg & Hr & Hrest)];
    try discriminate.
  - unfold bind, console_error, modify, ret. simpl.
    intros [= <- <-]. left. by split.
  - intros [= <- <-]. left. by split.
  - intros [= <- <-]. right. exists l, w1, q.
    split; [by split |]. split; [done |]. split; [done |]. exact Hrest.
Qed.

Lemma generate_persisted (now : Z) (req : GenerateRequest) (w : World) r w' (q : Quiz) :
  generate now req w = (r, w') →
  persistedBy w w' q →
  ∃ l w1,
    validGenerate req ∧
    gather req w = (inr l, w1) ∧
    r = inr (created q) ∧
    sourceType q = l_sourceType l ∧
    sourceFilename q = l_sourceFilename l ∧
    sourceFileId q = l_sourceFileId l ∧
    JsString.is_empty (topic q) = false ∧
    (∀ s, topicOrFallback (body_topic req) l = JStr s → topic q = s).
Proof.
  intros Hgen (id & Hnew & Hold).
  apply generate_inv in Hgen as [[Hq _] | (l & w1 & q0 & Hv & Hg & Hr & Hq & _ & _ & Hrest)].
  { rewrite Hq in Hnew. by rewrite Hnew in Hold. }
  rewrite Hq in Hnew.
  destruct (decide (quiz_id q0 = id)) as [<- | Hne].
  - rewrite lookup_insert_eq in Hnew. injection Hnew as [= <-]. by exists l, w1.
  - rewrite lookup_insert_ne in Hnew by done. done.
Qed.

(** C4. Every quiz persisted by [generate] has [sourceFileId] set iff
    [sourceFilename] is set iff [sourceType] is ['pdf'] or ['combined'];
    with topic text and no file the type is ['text'] and there is no
    [sourceFileId], with a file and no topic text it is ['pdf'], with both
    it is ['combined']. *)
Theorem generate_provenance (now : Z) (req : GenerateRequest) (w : World) r w' (q : Quiz) :
  generate now req w = (r, w') →
  persistedBy w w' q →
  ((is_Some (sourceFileId q) ↔ is_Some (sourceFilename q)) ∧
   (is_Some (sourceFilename q) ↔ sourceType q = "pdf" ∨ sourceType q = "combined")) ∧
  (file req = None → sourceType q = "text" ∧ sourceFileId q = None) ∧
  (is_Some (file req) → hasTopicText (body_topic req) = false → sourceType q = "pdf") ∧
  (is_Some (file req) → hasTopicText (body_topic req) = true → sourceType q = "combined").
Proof.
  intros Hgen Hp.
  destruct (generate_persisted _ _ _ _ _ _ Hgen Hp)
    as (l & w1 & [_ Hsrc] & Hg & _ & -> & -> & -> & _).
  apply gatherSources_inv in Hg.
  destruct (file req) as [f |].
  - destruct Hg as (_ & -> & -> & ->).
    split; [split; split |].
    + by eexists.
    + by eexists.
    + intros _. destruct (hasTopicText (body_topic req)); [by right | by left].
    + by eexists.
    + split; [done |]. split; intros _ ->; done.
  - destruct Hg as [_ ->]. destruct Hsrc as [[f Hf] | Ht]; [done |].
    unfold afterTopic. rewrite Ht. simpl.
    split; [split; split |].
    + by intros [? ?].
    + by intros [? ?].
    + by intros [? ?].
    + by intros [? | ?].
    + split; [done |]. split; by intros [? ?].
Qed.

Lemma keepsDb_validateQuestions (ds : list (option (ObjectId.t * jsval))) :
  keepsDb (validateQuestions castQuestion ds).
Proof.
  induction ds as [| d ds IH]; simpl; [keepsDb_tac |].
  unfold validateQuestion, required. keepsDb_tac.
Qed.

#[local] Hint Resolve keepsDb_validateQuestions : keeps.

Lemma keepsDb_saveQuiz (now : Z) (title_v topic_v : jsval) (qs : list jsval)
    (st : string) (fn : option string) (fid : option ObjectId.t) :
  keepsDb (saveQuiz castNonString castQuestion now title_v topic_v qs st fn fid).
Proof. unfold saveQuiz, castString, required. keepsDb_tac. Qed.

#[local] Hint Resolve keepsDb_saveQuiz : keeps.

Lemma keepsDb_generate (now : Z) (req : GenerateRequest) : keepsDb (generate now req).
Proof.
  unfold generateQuizController, sourceMissing, generateBody, gatherSources, addTopic,
    js_trim, addFile, upload, getBucket, pdfParse, callLLM, parseQuestions.
  keepsDb_tac.
Qed.

(** After a call of [generate] with the file [f] that is answered 201,
    the PDF endpoint, called with the [quizId] of that answer, streams
    exactly the bytes of [f], with its original name in
    [Content-Disposition], provided that name is made of characters that a
    header value may hold. *)
Lemma pdf_round_trip (now : Z) (req : GenerateRequest) (f : UploadedFile)
    (w : World) (body : jsval) (w' : World) :
  file req = Some f →
  validHeaderValue (originalname f) = true →
  generate now req w = (inr (ResJson 201 body), w') →
  ∃ quizId xtitle,
    getProp body "quizId" = inr (JStr quizId) ∧
    getQuizPdfController quizId w'
    = (inr (ResStream 200
              [("Content-Type", "application/pdf");
               ("Content-Disposition",
                 "inline; filename=" +:+ dquote +:+ originalname f +:+ dquote);
               ("X-Quiz-Title", xtitle)]
              (buffer f)), w').
Proof.
  intros Hf Hsafe Hgen.
  destruct (keepsDb_generate _ _ _ _ _ Hgen) as [Hdb _].
  apply generate_inv in Hgen
    as [[_ Hr] | (l & w1 & q & _ & Hg & Hr & Hq & Hfiles & Hid & _ & Hfn & Hfid & _)].
  { by destruct (Hr body). }
  injection Hr as [= ->].
  assert (Hbucket : DbPromise.bucket (db w') = true).
  { apply gatherSources_canUpload in Hg; [| by eexists].
    rewrite Hdb. unfold canUpload in Hg. by apply andb_true_iff in Hg as [? _]. }
  apply gatherSources_inv in Hg. rewrite Hf in Hg.
  destruct Hg as (-> & _ & Hname & Hfileid).
  exists (ObjectId.toString (quiz_id q)), (encodeURIComponent (title q)).
  split; [done |].
  unfold getQuizPdfController, try_catch, bind at 1.
  unfold findQuizById, bind, lift, get, ret. rewrite Hid at 1.
  unfold ObjectId.toString. rewrite cast_generate. rewrite <- Hid.
  rewrite Hq, lookup_insert_eq. rewrite Hfid, Hfileid.
  unfold getBucket, bind, lift, get, ret, DbPromise.getBucket. rewrite Hbucket.
  unfold setHeader.
  change (validHeaderValue "application/pdf") with true. cbn iota.
  rewrite Hfn, Hname. cbn [optStr templ].
  rewrite contentDisposition_valid, Hsafe, encodeURIComponent_valid.
  unfold ret. cbn beta iota. rewrite Hfiles. simpl.
  by rewrite lookup_insert_eq.
Qed.

(** The topic of a persisted quiz is never empty; it is the fallback when
    the topic field is absent, and the topic field itself when that is a
    non-empty text. *)
Lemma generate_topic (now : Z) (req : GenerateRequest) (w : World) r w' (q : Quiz) :
  generate now req w = (r, w') →
  persistedBy w w' q →
  topic q ≠ "" ∧
  (truthy (body_topic req) = false →
   ∃ f, file req = Some f ∧ topic q = "Content from " +:+ originalname f) ∧
  (∀ s, body_topic req = JStr s → s ≠ "" → topic q = s).
Proof.
  intros Hgen Hp.
  destruct (generate_persisted _ _ _ _ _ _ Hgen Hp)
    as (l & w1 & [_ Hsrc] & Hg & _ & _ & _ & _ & Hne & Htopic).
  split; [| split].
  - intros Hempty. by rewrite Hempty in Hne.
  - intros Hfalsy.
    destruct Hsrc as [[f Hf] | Ht]; [| by rewrite (hasTopicText_truthy _ Ht) in Hfalsy].
    exists f. split; [done |].
    apply gatherSources_inv in Hg. rewrite Hf in Hg.
    destruct Hg as (_ & _ & Hname & _).
    apply Htopic. unfold topicOrFallback, js_or. by rewrite Hfalsy, Hname.
  - intros s Hs Hnes. apply Htopic. unfold topicOrFallback, js_or.
    rewrite Hs. simpl. by destruct s.
Qed.

(** *** The answer of the LLM *)

Lemma stripFence_json (body : string) :
  stripFence ("```json" +:+ body +:+ "```") = body.
Proof.
  unfold stripFence. rewrite (startsWith_app "```json").
  exact (slice_fence "```json" body).
Qed.

Lemma stripFence_plain (body : string) :
  JsString.startsWith (body +:+ "```") "json" = false →
  stripFence ("```" +:+ body +:+ "```") = body.
Proof.
  intros Hjson. unfold stripFence.
  change (JsString.startsWith ("```" +:+ body +:+ "```") "```json")
    with (JsString.startsWith (body +:+ "```") "json").
  rewrite Hjson, (startsWith_app "```").
  exact (slice_fence "```" body).
Qed.

Lemma stripFence_none (s : string) :
  JsString.startsWith s "```" = false → stripFence s = s.
Proof.
  intros Hno. unfold stripFence. rewrite Hno.
  destruct (JsString.startsWith s "```json") eqn:Hjson; [| done].
  apply (startsWith_shorter "```" "json") in Hjson. congruence.
Qed.

(** C5. The fence is stripped before the parse: a text wrapped in
    [```json ... ```] or in [``` ... ```] is reduced to what is between
    the fences, a text that does not start with a fence is left as it is.
    When the LLM answered [text] and the parse of the stripped, trimmed
    text fails or does not yield a non-empty array, [generate] answers 500
    with a fixed message, persists no quiz, and [text] goes to the error
    log. *)
Theorem generate_malformed_ai_response :
  (∀ body, stripFence ("```json" +:+ body +:+ "```") = body) ∧
  (∀ body, JsString.startsWith (body +:+ "```") "json" = false →
           stripFence ("```" +:+ body +:+ "```") = body) ∧
  (∀ s, JsString.startsWith s "```" = false → stripFence s = s) ∧
  (∀ now req w l w1 text,
     validGenerate req →
     gather req w = (inr l, w1) →
     (50 ≤ String.length (JsString.trim (contextText l)))%nat →
     llm (JsString.take 24000 (contextText l)) (numQuestionsOf req) = Some text →
     (∀ v, JSON_parse (stripFence (JsString.trim text)) = Some v → nonEmptyArray v = false) →
     ∃ w',
       generate now req w
       = (inr (message 500 "Failed to parse AI response. The format was invalid."), w') ∧
       quizzes w' = quizzes w ∧
       ∃ e older,
         stderr w' = [JStr "Error parsing AI response:"; e; JStr "Raw output:"; JStr text] :: older).
Proof.
  split; [exact stripFence_json |]. split; [exact stripFence_plain |].
  split; [exact stripFence_none |].
  intros now req w l w1 text [Htitle Hsrc] Hgather Hlong Hllm Hbad.
  pose proof (gatherSources_quizzes _ _ _ _ Hgather) as Hq.
  unfold generateQuizController. rewrite Htitle. simpl.
  unfold bind at 1. rewrite sourceMissing_valid by done.
  unfold try_catch at 1. unfold generateBody. unfold bind at 1. rewrite Hgather.
  apply Nat.ltb_ge in Hlong. rewrite Hlong.
  unfold bind at 1. unfold callLLM at 1. unfold bind at 1, modify at 1.
  rewrite Hllm. unfold ret at 1.
  unfold bind at 1. unfold try_catch at 1. unfold bind at 1.
  unfold parseQuestions.
  destruct (JSON_parse (stripFence (JsString.trim text))) as [v |] eqn:Hparse.
  - specialize (Hbad v eq_refl).
    destruct v as [| | | | | [| q qs] |]; try discriminate;
      (eexists; split; [reflexivity |]; split; [exact Hq |]; by do 2 eexists).
  - eexists. split; [reflexivity |]. split; [exact Hq |]. by do 2 eexists.
Qed.

(** *** Taking a quiz *)

#[local] Instance newerFirst_transitive : Transitive newerFirst.
Proof. unfold newerFirst. intros r1 r2 r3 ? ?. lia. Qed.

#[local] Instance newerFirst_total : Total newerFirst.
Proof. unfold newerFirst. intros r1 r2. lia. Qed.

Lemma studentView_no_answer (q : Question) :
  getProp (studentView q) "correctAnswer" = inr JUndef.
Proof. done. Qed.

Lemma questionForStudent_some (q : Question) (w : World) :
  questionForStudent (Some q) w = (inr (studentView q), w).
Proof. done. Qed.

Lemma questionsForStudent_some (qs : list Question) (w : World) :
  questionsForStudent (Some <$> qs) w = (inr (map studentView qs), w).
Proof.
  induction qs as [| q qs IH]; [done |].
  rewrite fmap_cons. cbn [questionsForStudent map]. unfold bind.
  by rewrite questionForStudent_some, IH.
Qed.

Lemma questionsForStudent_null (qs : list (option Question)) (w : World) :
  None ∈ qs → questionsForStudent qs w = (inl (nullRead "_id"), w).
Proof.
  induction qs as [| [q |] qs IH]; intros Hin.
  - by apply elem_of_nil in Hin.
  - apply elem_of_cons in Hin as [? | Hin]; [done |].
    cbn [questionsForStudent]. unfold bind.
    by rewrite questionForStudent_some, IH.
  - done.
Qed.

(** The questions of a quiz are documents, up to the first [null]. *)
Lemma questions_split (oqs : list (option Question)) :
  (∃ qs, oqs = Some <$> qs) ∨ (∃ qs rest, oqs = (Some <$> qs) ++ None :: rest).
Proof.
  induction oqs as [| [q |] oqs IH].
  - left. by exists [].
  - destruct IH as [[qs ->] | (qs & rest & ->)].
    + left. by exists (q :: qs).
    + right. by exists (q :: qs), rest.
  - right. by exists [], oqs.
Qed.

Lemma questions_some_no_null (qs : list Question) : None ∉ (Some <$> qs : list (option Question)).
Proof. by intros (q & ? & _)%list_elem_of_fmap. Qed.

Lemma getQuizForTaking_found (quizId : string) (oid : ObjectId.t) (quiz : Quiz)
    (qs : list Question) (w : World) :
  ObjectId.cast quizId = inr oid →
  quizzes w !! oid = Some quiz →
  questions quiz = Some <$> qs →
  getQuizForTakingController quizId w
  = (inr (ResJson 200
            (JObj [("quiz",
                    JObj [("_id", JStr (ObjectId.toString (quiz_id quiz)));
                          ("title", JStr (title quiz));
                          ("questions", JArr (map studentView qs))]);
                   ("results",
                    JArr (map resultToJSON (merge_sort newerFirst (resultsOf w oid))))])),
     w).
Proof.
  intros Hcast Hquiz Hqs.
  unfold getQuizForTakingController, findQuizById, findResultsByQuiz,
    try_catch, bind, lift, get, ret.
  rewrite Hcast. cbn beta iota. by rewrite Hquiz, Hqs, questionsForStudent_some.
Qed.

(** A [null] among the questions makes the projection throw. *)
Lemma getQuizForTaking_null (quizId : string) (oid : ObjectId.t) (quiz : Quiz) (w : World) :
  ObjectId.cast quizId = inr oid →
  quizzes w !! oid = Some quiz →
  None ∈ questions quiz →
  getQuizForTakingController quizId w
  = (inr (message 500 "An error occurred on the server."),
     set_stderr (cons [JStr "Error fetching quiz for taking:"; exnToLog (nullRead "_id")]) w).
Proof.
  intros Hcast Hquiz Hnull.
  unfold getQuizForTakingController, findQuizById, findResultsByQuiz,
    try_catch, bind, lift, get, ret.
  rewrite Hcast. cbn beta iota. by rewrite Hquiz, questionsForStudent_null.
Qed.

(** For a quiz whose questions are all documents, [getForTaking] answers
    200 with the quiz reduced to its id, its title and its questions, each
    question reduced to its id, text and options (no [correctAnswer]
    property), and with the results stored for that quiz, newest first;
    when no quiz has that id it answers 404; for a quiz that holds a
    [null] among its questions it answers 500. *)
Lemma getForTaking_projection (quizId : string) (w : World) :
  (∀ oid quiz qs,
     ObjectId.cast quizId = inr oid →
     quizzes w !! oid = Some quiz →
     questions quiz = Some <$> qs →
     ∃ results_l,
       getQuizForTakingController quizId w
       = (inr (ResJson 200
                 (JObj [("quiz",
                         JObj [("_id", JStr (ObjectId.toString (quiz_id quiz)));
                               ("title", JStr (title quiz));
                               ("questions", JArr (map studentView qs))]);
                        ("results", JArr (map resultToJSON results_l))])),
          w) ∧
       Forall (λ v, getProp v "correctAnswer" = inr JUndef) (map studentView qs) ∧
       StronglySorted newerFirst results_l ∧
       results_l ≡ₚ resultsOf w oid) ∧
  ((∀ oid, ObjectId.cast quizId = inr oid → quizzes w !! oid = None) →
   ∃ w', getQuizForTakingController quizId w
         = (inr (message 404 "Quiz not found."), w')) ∧
  (∀ oid quiz,
     ObjectId.cast quizId = inr oid →
     quizzes w !! oid = Some quiz →
     None ∈ questions quiz →
     ∃ w', getQuizForTakingController quizId w
           = (inr (message 500 "An error occurred on the server."), w')).
Proof.
  split; [| split].
  - intros oid quiz qs Hcast Hquiz Hqs.
    exists (merge_sort newerFirst (resultsOf w oid)).
    split; [by eapply getQuizForTaking_found |]. split; [| split].
    + apply Forall_forall. intros v (q & -> & _)%list_elem_of_fmap.
      apply studentView_no_answer.
    + apply StronglySorted_merge_sort; apply _.
    + apply merge_sort_Permutation.
  - intros Hnone.
    unfold getQuizForTakingController, findQuizById, findResultsByQuiz,
      try_catch, bind, lift, get, ret.
    unfold ObjectId.cast in *.
    destruct ((String.length quizId =? 24)%nat && ObjectId.allHex quizId).
    + rewrite (Hnone _ eq_refl). by eexists.
    + by eexists.
  - intros oid quiz Hcast Hquiz Hnull. eexists. by eapply getQuizForTaking_null.
Qed.

(** *** Grading a submission *)

Lemma getProp_entry_questionId (e : AnswerEntry) :
  getProp (entryToJSON e) "questionId" = inr (JStr (ae_questionId e)).
Proof. done. Qed.

Lemma getProp_entry_answer (e : AnswerEntry) :
  getProp (entryToJSON e) "answer" = inr (JStr (ae_answer e)).
Proof. done. Qed.

Lemma findAnswer_typed (q : Question) (answers : list AnswerEntry) (w : World) :
  findAnswer (Some q) (map entryToJSON answers) w
  = (inr (from_option entryToJSON JUndef (firstEntry (ObjectId.toString (q_id q)) answers)),
     w).
Proof.
  induction answers as [| e answers IH]; [done |].
  cbn [map findAnswer firstEntry]. rewrite getProp_entry_questionId.
  unfold bind at 1, lift at 1. unfold bind at 1, qprop at 1, ret at 1.
  unfold strict_eq_str.
  destruct (decide (ae_questionId e = ObjectId.toString (q_id q))); [done | exact IH].
Qed.

Lemma findAnswer_typed_null (answers : list AnswerEntry) (w : World) :
  findAnswer None (map entryToJSON answers) w
  = (match answers with [] => inr JUndef | _ => inl (nullRead "_id") end, w).
Proof. by destruct answers. Qed.

Lemma gradeQuestion_typed (answers : list AnswerEntry) (q : Question)
    (sc : nat) (ds : list DetailedResult) (w : World) :
  gradeQuestion (JArr (map entryToJSON answers)) (Some q) (sc, ds) w
  = (inr ((if answeredCorrectly answers q then S sc else sc), ds ++ [gradeOf answers q]), w).
Proof.
  unfold gradeQuestion, userAnswers_find. unfold bind at 1.
  rewrite findAnswer_typed.
  unfold gradeOf, answeredCorrectly, firstAnswer.
  destruct (firstEntry (ObjectId.toString (q_id q)) answers) as [e |]; [| done].
  cbn [from_option fmap option_fmap option_map default].
  change (truthy (entryToJSON e)) with true. cbn iota.
  rewrite getProp_entry_answer. unfold bind, lift, qprop, ret.
  unfold strict_eq_str. cbn [truthy].
  destruct (decide (ae_answer e = q_correctAnswer q)) as [Heq | Hne].
  - by rewrite bool_decide_eq_true_2 by congruence.
  - by rewrite bool_decide_eq_false_2 by congruence.
Qed.

(** On a [null] question the callback throws, in the lookup when the
    answer list has an entry and in the object literal when it has
    none. *)
Lemma gradeQuestion_typed_null (answers : list AnswerEntry)
    (acc : nat * list DetailedResult) (w : World) :
  gradeQuestion (JArr (map entryToJSON answers)) None acc w = (inl (nullRead "_id"), w).
Proof.
  destruct acc as [sc ds].
  unfold gradeQuestion, userAnswers_find. unfold bind at 1.
  rewrite findAnswer_typed_null. by destruct answers.
Qed.

Lemma forEachQuestion_typed (answers : list AnswerEntry) (qs : list Question)
    (sc : nat) (ds : list DetailedResult) (w : World) :
  forEachQuestion (JArr (map entryToJSON answers)) (Some <$> qs) (sc, ds) w
  = (inr ((sc + correctCount answers qs)%nat, ds ++ map (gradeOf answers) qs), w).
Proof.
  revert sc ds. induction qs as [| q qs IH]; intros sc ds.
  - cbn. by rewrite Nat.add_0_r, app_nil_r.
  - rewrite fmap_cons. cbn [forEachQuestion]. unfold bind.
    rewrite gradeQuestion_typed, IH.
    unfold correctCount. rewrite filter_cons.
    rewrite <- app_assoc. cbn [map app].
    destruct (answeredCorrectly answers q).
    + rewrite decide_True by done. cbn [length]. do 3 f_equal. lia.
    + by rewrite decide_False by done.
Qed.

Lemma forEachQuestion_typed_null (answers : list AnswerEntry) (qs : list Question)
    (rest : list (option Question)) (acc : nat * list DetailedResult) (w : World) :
  forEachQuestion (JArr (map entryToJSON answers)) ((Some <$> qs) ++ None :: rest) acc w
  = (inl (nullRead "_id"), w).
Proof.
  revert acc. induction qs as [| q qs IH]; intros [sc ds].
  - cbn [fmap list_fmap app forEachQuestion]. unfold bind.
    by rewrite gradeQuestion_typed_null.
  - rewrite fmap_cons. cbn [app forEachQuestion]. unfold bind.
    by rewrite gradeQuestion_typed, IH.
Qed.

Lemma castSubmittedAnswer_typed (answers : list AnswerEntry) (q : Question) (w : World) :
  castSubmittedAnswer castNonString (gradeOf answers q) w
  = (inr (storedGradeOf answers q), w).
Proof.
  unfold castSubmittedAnswer, gradeOf, storedGradeOf, bind, ret. cbn.
  by destruct (firstAnswer (ObjectId.toString (q_id q)) answers).
Qed.

Lemma castSubmittedAnswers_typed (answers : list AnswerEntry) (qs : list Question) (w : World) :
  castSubmittedAnswers castNonString (map (gradeOf answers) qs) w
  = (inr (map (storedGradeOf answers) qs), w).
Proof.
  induction qs as [| q qs IH]; [done |].
  cbn [map castSubmittedAnswers]. unfold bind.
  by rewrite castSubmittedAnswer_typed, IH.
Qed.

Lemma gradeOf_gradedAs (answers : list AnswerEntry) (q : Question) :
  gradedAs answers q (gradeOf answers q).
Proof.
  unfold gradedAs, gradeOf, answeredCorrectly. cbn.
  destruct (firstAnswer (ObjectId.toString (q_id q)) answers) as [a |] eqn:Hfirst; cbn.
  - repeat split; done.
  - repeat split; try done; by intros [? ?].
Qed.

Lemma storedGradeOf_storedAs (answers : list AnswerEntry) (q : Question) :
  storedAs answers q (storedGradeOf answers q).
Proof.
  unfold storedAs, storedGradeOf, answeredCorrectly. cbn.
  destruct (firstAnswer (ObjectId.toString (q_id q)) answers) as [a |] eqn:Hfirst; cbn.
  - repeat split; try done; congruence.
  - repeat split; try done; by intros [? ?].
Qed.

(** The whole of [submit] on a list of entries, for a quiz whose
    questions are the documents [qs]. *)
Lemma submit_typed (now : Z) (quizId : string) (oid : ObjectId.t) (quiz : Quiz)
    (qs : list Question) (w : World) (answers : list AnswerEntry) :
  ObjectId.cast quizId = inr oid →
  quizzes w !! oid = Some quiz →
  questions quiz = Some <$> qs →
  let rid := ObjectId.generate (counter w) in
  let sc := correctCount answers qs in
  let r := mkResult rid oid sc (length (questions quiz))
             (map (storedGradeOf answers) qs) now now in
  submitQuizController castNonString now quizId (JArr (map entryToJSON answers)) w
  = (inr (ResJson 200
            (JObj [("message", JStr "Quiz submitted successfully!");
                   ("resultId", JStr (ObjectId.toString rid));
                   ("score", JNum (Z.of_nat sc));
                   ("totalQuestions", JNum (Z.of_nat (length (questions quiz))));
                   ("results",
                    JArr (map detailedToJSON (map (gradeOf answers) qs)))])),
     set_results (insert rid r) (set_counter N.succ w)).
Proof.
  intros Hcast Hquiz Hqs rid sc r.
  unfold submitQuizController, findQuizById, try_catch.
  unfold bind at 1. unfold bind at 1. unfold lift at 1. rewrite Hcast.
  unfold bind at 1, get at 1, ret at 1. rewrite Hquiz.
  unfold bind at 1. rewrite Hqs at 1. rewrite forEachQuestion_typed. cbn [app Nat.add].
  unfold saveResult, newObjectId.
  unfold bind at 1 2 3 4 5 6, get, modify, lift, ret. cbn [fst snd].
  rewrite Hcast. unfold bind at 1.
  by rewrite castSubmittedAnswers_typed.
Qed.

(** The same for a quiz that holds a [null] among its questions. *)
Lemma submit_typed_null (now : Z) (quizId : string) (oid : ObjectId.t) (quiz : Quiz)
    (w : World) (answers : list AnswerEntry) :
  ObjectId.cast quizId = inr oid →
  quizzes w !! oid = Some quiz →
  None ∈ questions quiz →
  submitQuizController castNonString now quizId (JArr (map entryToJSON answers)) w
  = (inr (message 500 "An error occurred on the server while submitting the quiz."),
     set_stderr (cons [JStr "Error submitting quiz:"; exnToLog (nullRead "_id")]) w).
Proof.
  intros Hcast Hquiz Hnull.
  destruct (questions_split (questions quiz)) as [[qs Hqs] | (qs & rest & Hqs)].
  { rewrite Hqs in Hnull. by apply questions_some_no_null in Hnull. }
  unfold submitQuizController, findQuizById, try_catch.
  unfold bind at 1. unfold bind at 1. unfold lift at 1. rewrite Hcast.
  unfold bind at 1, get at 1, ret at 1. rewrite Hquiz.
  unfold bind at 1. rewrite Hqs at 1. by rewrite forEachQuestion_typed_null.
Qed.

Lemma Forall2_map_graph {A B} (P : A → B → Prop) (f : A → B) (l : list A) :
  (∀ x, P x (f x)) → Forall2 P l (map f l).
Proof. intros HP. induction l; constructor; auto. Qed.

(** C1, amended. For an existing quiz whose questions are all documents
    (none of them [null]) and a list of answer entries, [submit] grades
    the questions in their stored order; a question counts as correct iff
    the first entry with its id carries exactly its [correctAnswer]; a
    question without entry is recorded with ["No Answer"] and does not
    count; the score, returned and persisted, is the number of correct
    questions and [totalQuestions] is the number of questions of the
    quiz. *)
Theorem submit_grades_first_matching_entry (now : Z) (quizId : string) (oid : ObjectId.t)
    (quiz : Quiz) (qs : list Question) (w : World) (answers : list AnswerEntry) :
  ObjectId.cast quizId = inr oid →
  quizzes w !! oid = Some quiz →
  questions quiz = Some <$> qs →
  ∃ rid detailed r w',
    submitQuizController castNonString now quizId (JArr (map entryToJSON answers)) w
    = (inr (ResJson 200
              (JObj [("message", JStr "Quiz submitted successfully!");
                     ("resultId", JStr rid);
                     ("score", JNum (Z.of_nat (correctCount answers qs)));
                     ("totalQuestions", JNum (Z.of_nat (length (questions quiz))));
                     ("results", JArr (map detailedToJSON detailed))])),
       w') ∧
    Forall2 (gradedAs answers) qs detailed ∧
    results w' = <[rid := r]> (results w) ∧
    quizzes w' = quizzes w ∧
    result_quiz r = oid ∧
    score r = correctCount answers qs ∧
    totalQuestions r = length (questions quiz) ∧
    Forall2 (storedAs answers) qs (submittedAnswers r).
Proof.
  intros Hcast Hquiz Hqs.
  do 4 eexists. split; [by eapply submit_typed |].
  split; [apply Forall2_map_graph, gradeOf_gradedAs |].
  cbn. repeat split; try done.
  apply Forall2_map_graph, storedGradeOf_storedAs.
Qed.

(** C10. When the quiz exists and has a question, and [answers] is not
    an array, [submit] answers 500 and the stored results, quizzes and
    files are those of before. *)
Theorem submit_without_answer_array (now : Z) (quizId : string) (oid : ObjectId.t)
    (quiz : Quiz) (w : World) (userAnswers : jsval) :
  ObjectId.cast quizId = inr oid →
  quizzes w !! oid = Some quiz →
  questions quiz ≠ [] →
  (∀ l, userAnswers ≠ JArr l) →
  ∃ w',
    submitQuizController castNonString now quizId userAnswers w
    = (inr (message 500 "An error occurred on the server while submitting the quiz."), w') ∧
    results w' = results w ∧ quizzes w' = quizzes w ∧ files w' = files w.
Proof.
  intros Hcast Hquiz Hq Hnot.
  unfold submitQuizController, findQuizById, try_catch.
  unfold bind at 1. unfold bind at 1. unfold lift at 1. rewrite Hcast.
  unfold bind at 1, get at 1, ret at 1. rewrite Hquiz.
  destruct (questions quiz) as [| q qs]; [done |].
  unfold bind at 1. cbn [forEachQuestion]. unfold bind at 1.
  unfold gradeQuestion. unfold bind at 1.
  assert (Hthrow : ∃ e, userAnswers_find userAnswers q w = (inl e, w)).
  { destruct userAnswers as [| | | | | l |]; try (by eexists). by destruct (Hnot l). }
  destruct Hthrow as [e ->].
  unfold bind, console_error, modify, ret.
  eexists. split; [reflexivity |]. done.
Qed.

(** A submission followed by [getForTaking]: the answer holds the new
    result, whose [correctAnswer] snapshots are those of the questions of
    the quiz, next to questions shown without them. *)
Lemma submit_then_getForTaking (now : Z) (quizId : string) (oid : ObjectId.t)
    (quiz : Quiz) (qs : list Question) (w : World) (answers : list AnswerEntry) :
  ObjectId.cast quizId = inr oid →
  quizzes w !! oid = Some quiz →
  questions quiz = Some <$> qs →
  ∃ resp w' r results_l,
    submitQuizController castNonString now quizId (JArr (map entryToJSON answers)) w
    = (inr resp, w') ∧
    getQuizForTakingController quizId w'
    = (inr (ResJson 200
              (JObj [("quiz",
                      JObj [("_id", JStr (ObjectId.toString (quiz_id quiz)));
                            ("title", JStr (title quiz));
                            ("questions", JArr (map studentView qs))]);
                     ("results", JArr (map resultToJSON results_l))])),
       w') ∧
    r ∈ results_l ∧
    sa_correctAnswer <$> submittedAnswers r = q_correctAnswer <$> qs.
Proof.
  intros Hcast Hquiz Hqs.
  pose proof (submit_typed now quizId oid quiz qs w answers Hcast Hquiz Hqs) as Hsubmit.
  cbv zeta in Hsubmit.
  set (r := mkResult (ObjectId.generate (counter w)) oid
              (correctCount answers qs) (length (questions quiz))
              (map (storedGradeOf answers) qs) now now) in Hsubmit.
  do 2 eexists. exists r. eexists. split; [exact Hsubmit |]. split; [| split].
  - by eapply getQuizForTaking_found.
  - rewrite merge_sort_Permutation. unfold resultsOf.
    apply list_elem_of_filter. split; [reflexivity |].
    apply list_elem_of_fmap. eexists (_, _). split; [reflexivity |].
    apply elem_of_map_to_list. cbn. apply lookup_insert_eq.
  - cbn. rewrite <- list_fmap_compose. done.
Qed.

End Properties.

Lemma generate_rejects_invalid_input_witness :
  Scenario.generate 0 (mkGenerateRequest JUndef (JNum 3) (JStr "x") (Some Scenario.notesPdf))
    Scenario.emptyWorld
  = (inr (message 400 "A quiz title is required."), Scenario.emptyWorld) ∧
  Scenario.generate 0 Scenario.reqNoSource Scenario.emptyWorld
  = (inr (message 400 "Please provide either a topic or a PDF file to generate the quiz."),
     Scenario.emptyWorld).
Proof.
  split.
  - apply (generate_rejects_invalid_input Scenario.pdf Scenario.llm Scenario.JSON_parse
             Scenario.castNonString Scenario.castQuestion). reflexivity.
  - apply (generate_rejects_invalid_input Scenario.pdf Scenario.llm Scenario.JSON_parse
             Scenario.castNonString Scenario.castQuestion);
      [reflexivity | reflexivity | right; by eexists | reflexivity].
Defined.

Lemma generate_insufficient_context_witness :
  validGenerate Scenario.reqShortTopic ∧
  generateQuizController Scenario.pdf Scenario.llm Scenario.JSON_parse
    Scenario.castNonString Scenario.castQuestion 0 Scenario.reqShortTopic Scenario.emptyWorld
  = (inr (message 400 "Could not find sufficient text from the provided sources to generate a quiz."),
     Scenario.emptyWorld).
Proof.
  assert (Hvalid : validGenerate Scenario.reqShortTopic).
  { split; [reflexivity | right; reflexivity]. }
  split; [exact Hvalid |].
  apply (generate_insufficient_context Scenario.pdf Scenario.llm Scenario.JSON_parse
           Scenario.castNonString Scenario.castQuestion 0 Scenario.reqShortTopic
           Scenario.emptyWorld
           (afterTopic (body_topic Scenario.reqShortTopic)) Scenario.emptyWorld Hvalid).
  - reflexivity.
  - vm_compute. lia.
Defined.

(** The examples below run the handlers of [Scenario]. *)

Lemma generate_provenance_witness :
  persistedBy Scenario.emptyWorld Scenario.worldWithQuiz Scenario.theQuiz ∧
  sourceType Scenario.theQuiz = "pdf" ∧
  is_Some (sourceFileId Scenario.theQuiz).
Proof.
  assert (Hp : persistedBy Scenario.emptyWorld Scenario.worldWithQuiz Scenario.theQuiz).
  { exists Scenario.quizId. split; [by vm_compute | intros H; by vm_compute in H]. }
  split; [exact Hp |].
  destruct (generate_provenance Scenario.pdf Scenario.llm Scenario.JSON_parse
              Scenario.castNonString Scenario.castQuestion 1000 Scenario.reqFileOnly
              Scenario.emptyWorld
              (fst (Scenario.generate 1000 Scenario.reqFileOnly Scenario.emptyWorld))
              Scenario.worldWithQuiz Scenario.theQuiz)
    as ([Hid Hname] & _ & Hpdf & _).
  - apply surjective_pairing.
  - exact Hp.
  - split.
    + apply Hpdf; [by eexists | reflexivity].
    + apply Hid, Hname. left. apply Hpdf; [by eexists | reflexivity].
Defined.

Lemma generate_malformed_ai_response_witness :
  ∃ w',
    generateQuizController Scenario.pdf Scenario.proseLlm Scenario.JSON_parse
      Scenario.castNonString Scenario.castQuestion 1000 Scenario.reqTopicOnly
      Scenario.emptyWorld
    = (inr (message 500 "Failed to parse AI response. The format was invalid."), w') ∧
    quizzes w' = quizzes Scenario.emptyWorld.
Proof.
  destruct (generate_malformed_ai_response Scenario.pdf Scenario.proseLlm
              Scenario.JSON_parse Scenario.castNonString Scenario.castQuestion)
    as (_ & _ & _ & H).
  destruct (H 1000%Z Scenario.reqTopicOnly Scenario.emptyWorld
              (afterTopic (body_topic Scenario.reqTopicOnly)) Scenario.emptyWorld
              "Sorry, here are no questions.")
    as (w' & Hrun & Hq & _).
  - split; [reflexivity | right; reflexivity].
  - reflexivity.
  - vm_compute. lia.
  - reflexivity.
  - intros v. vm_compute. discriminate.
  - exists w'. split; [exact Hrun | exact Hq].
Defined.

Lemma getForTaking_projection_witness :
  ObjectId.cast Scenario.quizId = inr Scenario.quizId ∧
  quizzes Scenario.worldWithResult !! Scenario.quizId = Some Scenario.theQuiz ∧
  (∃ results_l,
     getQuizForTakingController Scenario.quizId Scenario.worldWithResult
     = (inr (ResJson 200
               (JObj [("quiz",
                       JObj [("_id", JStr Scenario.quizId);
                             ("title", JStr "Biology");
                             ("questions", JArr [studentView Scenario.theQuestion])]);
                      ("results", JArr (map resultToJSON results_l))])),
        Scenario.worldWithResult)) ∧
  ∃ w', getQuizForTakingController "no-such-quiz" Scenario.worldWithResult
        = (inr (message 404 "Quiz not found."), w').
Proof.
  assert (Hcast : ObjectId.cast Scenario.quizId = inr Scenario.quizId) by reflexivity.
  assert (Hquiz : quizzes Scenario.worldWithResult !! Scenario.quizId = Some Scenario.theQuiz)
    by (by vm_compute).
  split; [exact Hcast |]. split; [exact Hquiz |]. split.
  - destruct (getForTaking_projection Scenario.quizId Scenario.worldWithResult) as [H _].
    destruct (H Scenario.quizId Scenario.theQuiz [Scenario.theQuestion] Hcast Hquiz eq_refl)
      as (results_l & Hrun & _).
    exists results_l. exact Hrun.
  - destruct (getForTaking_projection "no-such-quiz" Scenario.worldWithResult) as (_ & H & _).
    apply H. intros oid. discriminate.
Defined.

(** C6 fails on the quiz that [generate] stores when the array of the LLM
    ends with [null]: the array is not empty, the validation of the schema
    passes over the [null] element, the call is answered 201 and the quiz
    is stored with a [null] among its questions; [getForTaking], called
    with the id of that quiz, then reads [_id] of [null] and answers 500,
    neither the projection of the quiz nor 404. *)
Theorem getForTaking_null_question :
  generateQuizController Scenario.pdf Scenario2.llmWithNull Scenario.JSON_parse
    Scenario.castNonString Scenario.castQuestion 1000 Scenario.reqTopicOnly
    Scenario.emptyWorld
  = (inr (created Scenario2.quizWithNull), Scenario2.worldWithNullQuestion) ∧
  ObjectId.cast Scenario2.textQuizId = inr (quiz_id Scenario2.quizWithNull) ∧
  quizzes Scenario2.worldWithNullQuestion !! quiz_id Scenario2.quizWithNull
  = Some Scenario2.quizWithNull ∧
  None ∈ questions Scenario2.quizWithNull ∧
  ∃ w',
    getQuizForTakingController Scenario2.textQuizId Scenario2.worldWithNullQuestion
    = (inr (message 500 "An error occurred on the server."), w').
Proof.
  split; [by vm_compute |]. split; [reflexivity |]. split; [by vm_compute |].
  split; [right; left |].
  eexists. vm_compute. reflexivity.
Qed.

Lemma pdf_round_trip_witness :
  ∃ body xtitle,
    Scenario.generate 1000 Scenario.reqFileOnly Scenario.emptyWorld
    = (inr (ResJson 201 body), Scenario.worldWithQuiz) ∧
    getQuizPdfController Scenario.quizId Scenario.worldWithQuiz
    = (inr (ResStream 200
              [("Content-Type", "application/pdf");
               ("Content-Disposition", "inline; filename=" +:+ dquote +:+ "notes.pdf" +:+ dquote);
               ("X-Quiz-Title", xtitle)]
              (buffer Scenario.notesPdf)),
       Scenario.worldWithQuiz).
Proof.
  assert (Hgen : Scenario.generate 1000 Scenario.reqFileOnly Scenario.emptyWorld
                 = (inr (created Scenario.theQuiz), Scenario.worldWithQuiz))
    by (by vm_compute).
  destruct (pdf_round_trip Scenario.pdf Scenario.llm Scenario.JSON_parse
              Scenario.castNonString Scenario.castQuestion 1000 Scenario.reqFileOnly
              Scenario.notesPdf Scenario.emptyWorld _ Scenario.worldWithQuiz
              eq_refl eq_refl Hgen)
    as (quizId & xtitle & Hid & Hpdf).
  injection Hid as [= <-].
  by exists (JObj [("message", JStr "Quiz generated and saved successfully!");
                   ("quizId", JStr (ObjectId.toString (quiz_id Scenario.theQuiz)));
                   ("data", quizToJSON Scenario.theQuiz)]), xtitle.
Defined.

(** C7 fails on a file whose name holds a line feed: [generate] stores the
    file under that name and answers 201, and the PDF endpoint, called with
    the id of that answer, does not stream the file but answers 500: the
    name is put into [Content-Disposition] as it is and [res.setHeader]
    throws on the line feed. *)
Theorem pdf_round_trip_invalid_name :
  ∃ body w',
    Scenario.generate 1000 Scenario2.reqOddName Scenario.emptyWorld
    = (inr (ResJson 201 body), w') ∧
    getProp body "quizId" = inr (JStr Scenario.quizId) ∧
    files w' !! Scenario.fileId
    = Some (mkGridFile Scenario2.oddName "application/pdf" (buffer Scenario2.oddNamePdf)) ∧
    (sourceFileId <$> quizzes w' !! Scenario.quizId) = Some (Some Scenario.fileId) ∧
    (sourceFilename <$> quizzes w' !! Scenario.quizId) = Some (Some Scenario2.oddName) ∧
    validHeaderValue Scenario2.oddName = false ∧
    ∃ w'',
      getQuizPdfController Scenario.quizId w'
      = (inr (message 500 "An error occurred on the server."), w'').
Proof.
  do 2 eexists. split; [by vm_compute |]. split; [reflexivity |].
  split; [by vm_compute |]. split; [by vm_compute |]. split; [by vm_compute |].
  split; [reflexivity |].
  eexists. vm_compute. reflexivity.
Qed.

Lemma submit_grades_first_matching_entry_witness :
  ObjectId.cast Scenario.quizId = inr Scenario.quizId ∧
  quizzes Scenario.worldWithQuiz !! Scenario.quizId = Some Scenario.theQuiz ∧
  questions Scenario.theQuiz = Some <$> [Scenario.theQuestion] ∧
  ∃ r w',
    results w' = <[Scenario.resultId := r]> (results Scenario.worldWithQuiz) ∧
    score r = 1%nat ∧ totalQuestions r = 1%nat ∧
    ∃ body,
      Scenario.submit 2000 Scenario.quizId
        (JArr (map entryToJSON [mkAnswerEntry Scenario.questionId "A"]))
        Scenario.worldWithQuiz
      = (inr (ResJson 200 body), w').
Proof.
  assert (Hquiz : quizzes Scenario.worldWithQuiz !! Scenario.quizId = Some Scenario.theQuiz)
    by (by vm_compute).
  split; [reflexivity |]. split; [exact Hquiz |]. split; [reflexivity |].
  destruct (submit_grades_first_matching_entry Scenario.castNonString 2000 Scenario.quizId
              Scenario.quizId Scenario.theQuiz [Scenario.theQuestion] Scenario.worldWithQuiz
              [mkAnswerEntry Scenario.questionId "A"] eq_refl Hquiz eq_refl)
    as (rid & detailed & r & w' & Hrun & _ & Hres & _ & _ & Hscore & Htotal & _).
  exists r, w'.
  assert (Hrid : rid = Scenario.resultId).
  { pose proof (submit_typed Scenario.castNonString 2000 Scenario.quizId Scenario.quizId
                  Scenario.theQuiz [Scenario.theQuestion] Scenario.worldWithQuiz
                  [mkAnswerEntry Scenario.questionId "A"] eq_refl Hquiz eq_refl) as Heq.
    cbv zeta in Heq. unfold Scenario.submit in *. rewrite Heq in Hrun.
    by injection Hrun as [= <- _ _]. }
  subst rid. split; [exact Hres |]. split; [exact Hscore |]. split; [exact Htotal |].
  eexists. exact Hrun.
Defined.

Lemma submit_without_answer_array_witness :
  ObjectId.cast Scenario.quizId = inr Scenario.quizId ∧
  quizzes Scenario.worldWithQuiz !! Scenario.quizId = Some Scenario.theQuiz ∧
  questions Scenario.theQuiz ≠ [] ∧
  ∃ w',
    Scenario.submit 2000 Scenario.quizId JUndef Scenario.worldWithQuiz
    = (inr (message 500 "An error occurred on the server while submitting the quiz."), w') ∧
    results w' = results Scenario.worldWithQuiz.
Proof.
  assert (Hquiz : quizzes Scenario.worldWithQuiz !! Scenario.quizId = Some Scenario.theQuiz)
    by (by vm_compute).
  split; [reflexivity |]. split; [exact Hquiz |]. split; [discriminate |].
  destruct (submit_without_answer_array Scenario.castNonString 2000 Scenario.quizId
              Scenario.quizId Scenario.theQuiz Scenario.worldWithQuiz JUndef eq_refl Hquiz)
    as (w' & Hrun & Hres & _).
  - discriminate.
  - intros l. discriminate.
  - exists w'. split; [exact Hrun | exact Hres].
Defined.

(** The three kinds of source, run: topic only, file only, both. *)
Example generate_source_types :
  (sourceType <$> (map_to_list (quizzes (snd (Scenario.generate 1000 Scenario.reqTopicOnly
                                               Scenario.emptyWorld)))).*2 = ["text"]) ∧
  (sourceType <$> (map_to_list (quizzes (snd (Scenario.generate 1000 Scenario.reqFileOnly
                                               Scenario.emptyWorld)))).*2 = ["pdf"]) ∧
  (sourceType <$> (map_to_list (quizzes (snd (Scenario.generate 1000 Scenario.reqBoth
                                               Scenario.emptyWorld)))).*2 = ["combined"]).
Proof. repeat split; by vm_compute. Qed.

(** C2 fails on a call without file whose topic is an array (a form field
    given twice): neither a file nor a topic text is present, and yet the
    call is not answered 400. The array passes the test for an empty value
    and has no [trim] method: the input check throws, outside the [try]
    block, and the promise of the handler is rejected before any answer is
    sent. *)
Theorem generate_array_topic :
  truthy (body_title Scenario2.reqArrayTopic) = true ∧
  file Scenario2.reqArrayTopic = None ∧
  hasTopicText (body_topic Scenario2.reqArrayTopic) = false ∧
  run_handler (Scenario.generate 1000 Scenario2.reqArrayTopic) Scenario.emptyWorld
  = (Rejected (TypeError "topic.trim is not a function"), Scenario.emptyWorld).
Proof. by repeat split. Qed.

(** On the quiz with a [null] among its questions every submission is
    answered 500 and stores nothing, whether the answer array is empty or
    not. *)
Example submit_on_null_question :
  ∃ w1 w2,
    Scenario.submit 2000 Scenario2.textQuizId (JArr []) Scenario2.worldWithNullQuestion
    = (inr (message 500 "An error occurred on the server while submitting the quiz."), w1) ∧
    results w1 = results Scenario2.worldWithNullQuestion ∧
    Scenario.submit 2000 Scenario2.textQuizId
      (JArr (map entryToJSON [mkAnswerEntry (ObjectId.generate 1) "A"]))
      Scenario2.worldWithNullQuestion
    = (inr (message 500 "An error occurred on the server while submitting the quiz."), w2) ∧
    results w2 = results Scenario2.worldWithNullQuestion.
Proof.
  do 2 eexists. split; [by vm_compute |]. split; [by vm_compute |].
  split; by vm_compute.
Qed.

(** Where [connectDB] was never awaited, a call with a file is answered
    500 by the [catch] of the handler: [getBucket] throws, nothing is
    stored and no collaborator is called. *)
Example generate_without_bucket :
  ∃ w',
    Scenario.generate 1000 Scenario.reqFileOnly Scenario2.worldNotConnected
    = (inr generateFailed, w') ∧
    files w' = ∅ ∧ quizzes w' = ∅ ∧ calls w' = [].
Proof. eexists. split; [by vm_compute |]. by repeat split. Qed.

(** C1, as stated, fails on a list with two entries for one question: the
    list holds an entry with the id of the question and exactly its correct
    answer, and yet the question is graded incorrect and the score is 0,
    because the first entry for that question carries another answer. *)
Lemma submit_duplicate_entries_counterexample :
  ObjectId.cast Scenario.quizId = inr Scenario.quizId ∧
  quizzes Scenario.worldWithQuiz !! Scenario.quizId = Some Scenario.theQuiz ∧
  questions Scenario.theQuiz = [Some Scenario.theQuestion] ∧
  someEntryCorrect Scenario.duplicateAnswers Scenario.theQuestion ∧
  ∃ w',
    Scenario.submit 2000 Scenario.quizId
      (JArr (map entryToJSON Scenario.duplicateAnswers)) Scenario.worldWithQuiz
    = (inr (ResJson 200
              (JObj [("message", JStr "Quiz submitted successfully!");
                     ("resultId", JStr Scenario.resultId);
                     ("score", JNum 0);
                     ("totalQuestions", JNum 1);
                     ("results",
                      JArr [JObj [("questionId", JStr Scenario.questionId);
                                  ("questionText", JStr "Q?");
                                  ("submittedAnswer", JStr "B");
                                  ("correctAnswer", JStr "A");
                                  ("isCorrect", JBool false)]])])),
       w').
Proof.
  split; [reflexivity |]. split; [by vm_compute |]. split; [reflexivity |]. split.
  - exists (mkAnswerEntry Scenario.questionId "A").
    split; [| by split]. apply list_elem_of_In. right. by left.
  - eexists. vm_compute. reflexivity.
Qed.

(** A question without entry is recorded with [isCorrect] undefined, which
    the persisted result holds as an absent path. *)
Example submit_unanswered_isCorrect :
  ∃ rid w',
    Scenario.submit 2000 Scenario.quizId (JArr []) Scenario.worldWithQuiz
    = (inr (ResJson 200
              (JObj [("message", JStr "Quiz submitted successfully!");
                     ("resultId", JStr rid);
                     ("score", JNum 0);
                     ("totalQuestions", JNum 1);
                     ("results",
                      JArr [JObj [("questionId", JStr Scenario.questionId);
                                  ("questionText", JStr "Q?");
                                  ("submittedAnswer", JStr "No Answer");
                                  ("correctAnswer", JStr "A");
                                  ("isCorrect", JUndef)]])])),
       w') ∧
    results w' !! rid = Some Scenario.theResult ∧
    sa_isCorrect <$> submittedAnswers Scenario.theResult = [None].
Proof. do 2 eexists. split; [by vm_compute |]. split; by vm_compute. Qed.

(** C8 fails on a call with a file and a topic of three spaces: the topic
    is blank, so it contributes nothing to the context and the quiz is of
    type ['pdf'], and yet the stored topic is the three spaces of the
    request and not the description derived from the file. *)
Theorem generate_blank_topic_stored_verbatim :
  hasTopicText (body_topic Scenario.reqBlankTopic) = false ∧
  ∃ q w',
    Scenario.generate 1000 Scenario.reqBlankTopic Scenario.emptyWorld
    = (inr (created q), w') ∧
    quizzes w' !! quiz_id q = Some q ∧
    sourceType q = "pdf" ∧
    sourceFilename q = Some "notes.pdf" ∧
    topic q = "   " ∧
    topic q ≠ "Content from notes.pdf".
Proof.
  split; [reflexivity |].
  exists (mkQuiz Scenario.quizId "Biology" "   " "pdf" (Some "notes.pdf")
            (Some Scenario.fileId) [Some Scenario.theQuestion] 1000 1000).
  eexists. split; [by vm_compute |]. split; [by vm_compute |]. by repeat split.
Qed.

(** ** Listing, reading and connecting *)

#[local] Instance newerQuizFirst_transitive : Transitive newerQuizFirst.
Proof. unfold newerQuizFirst. intros q1 q2 q3 ? ?. lia. Qed.

#[local] Instance newerQuizFirst_total : Total newerQuizFirst.
Proof. unfold newerQuizFirst. intros q1 q2. lia. Qed.

(** X1. The list of quizzes is answered 200 with one entry
    [{_id, title, questionCount}] per stored quiz, each stored quiz once,
    the newest first, [questionCount] being the number of questions of the
    quiz; the world is left as it was. *)
Theorem getAllQuizzes_newest_first (w : World) :
  ∃ l,
    getAllQuizzesController w
    = (inr (ResJson 200
              (JArr (map (λ quiz,
                            JObj [("_id", JStr (ObjectId.toString (quiz_id quiz)));
                                  ("title", JStr (title quiz));
                                  ("questionCount",
                                   JNum (Z.of_nat (length (questions quiz))))])
                       l))),
       w) ∧
    StronglySorted newerQuizFirst l ∧
    l ≡ₚ (map_to_list (quizzes w)).*2 ∧
    length l = size (quizzes w) ∧
    ∀ id quiz, quizzes w !! id = Some quiz → quiz ∈ l.
Proof.
  exists (merge_sort newerQuizFirst (map_to_list (quizzes w)).*2).
  split; [reflexivity |]. split; [apply StronglySorted_merge_sort; apply _ |].
  split; [apply merge_sort_Permutation |]. split.
  - rewrite merge_sort_Permutation, length_fmap. apply length_map_to_list.
  - intros id quiz Hq. rewrite merge_sort_Permutation.
    apply list_elem_of_fmap. exists (id, quiz). split; [done |].
    by apply elem_of_map_to_list.
Qed.

(** X2. The three GET handlers only read: whatever the id, and whatever
    they answer, the quizzes, the results, the files, the counter of ids
    and the calls to collaborators are the same after as before. *)
Theorem get_handlers_read_only (id : string) (w : World) :
  sameData w (snd (getAllQuizzesController w)) ∧
  sameData w (snd (getQuizForTakingController id w)) ∧
  sameData w (snd (getQuizPdfController id w)).
Proof.
  split; [by repeat split |]. split.
  - unfold getQuizForTakingController, findQuizById, findResultsByQuiz,
      try_catch, bind, lift, get, ret, console_error, modify.
    destruct (ObjectId.cast id) as [e | oid]; cbn beta iota.
    + destruct (isObjectIdError e); by repeat split.
    + destruct (quizzes w !! oid) as [quiz |]; [| by repeat split].
      destruct (questions_split (questions quiz)) as [[qs ->] | (qs & rest & ->)].
      * rewrite questionsForStudent_some. by repeat split.
      * rewrite questionsForStudent_null by (apply elem_of_app; right; left).
        by repeat split.
  - unfold getQuizPdfController, findQuizById, getBucket, setHeader, DbPromise.getBucket,
      try_catch, bind, lift, get, ret, throw, console_error, modify.
    destruct (ObjectId.cast id) as [e | oid]; cbn beta iota.
    + destruct (isObjectIdError e); by repeat split.
    + destruct (quizzes w !! oid) as [quiz |]; [| by repeat split].
      destruct (sourceFileId quiz) as [fid |]; [| by repeat split].
      destruct (DbPromise.bucket (db w)); [| by repeat split].
      change (validHeaderValue "application/pdf") with true. cbn beta iota.
      destruct (validHeaderValue (contentDisposition _)); [| by repeat split].
      destruct (validHeaderValue (encodeURIComponent _)); [| by repeat split].
      destruct (files w !! fid); by repeat split.
Qed.

(** X3. The PDF endpoint fails in five ways: 404 when no quiz has the id
    (also when the id is not an ObjectId), 404 with another message when
    the quiz has no file, the generic 500 when the bucket is not
    initialised, the generic 500 when the name of the file cannot go into
    a header, and, where neither is the case, 500 with a message of its
    own when the file of the quiz is not in the bucket. *)
Theorem getQuizPdf_failures (id : string) (w : World) :
  ((∀ oid, ObjectId.cast id = inr oid → quizzes w !! oid = None) →
   ∃ w', getQuizPdfController id w = (inr (message 404 "Quiz not found."), w')) ∧
  (∀ oid quiz,
     ObjectId.cast id = inr oid →
     quizzes w !! oid = Some quiz →
     sourceFileId quiz = None →
     getQuizPdfController id w = (inr (message 404 "No PDF found for this quiz."), w)) ∧
  (∀ oid quiz fileId,
     ObjectId.cast id = inr oid →
     quizzes w !! oid = Some quiz →
     sourceFileId quiz = Some fileId →
     DbPromise.bucket (db w) = false →
     ∃ w', getQuizPdfController id w
           = (inr (message 500 "An error occurred on the server."), w')) ∧
  (∀ oid quiz fileId,
     ObjectId.cast id = inr oid →
     quizzes w !! oid = Some quiz →
     sourceFileId quiz = Some fileId →
     DbPromise.bucket (db w) = true →
     validHeaderValue (templ (optStr (sourceFilename quiz))) = false →
     ∃ w', getQuizPdfController id w
           = (inr (message 500 "An error occurred on the server."), w')) ∧
  (∀ oid quiz fileId,
     ObjectId.cast id = inr oid →
     quizzes w !! oid = Some quiz →
     sourceFileId quiz = Some fileId →
     DbPromise.bucket (db w) = true →
     validHeaderValue (templ (optStr (sourceFilename quiz))) = true →
     files w !! fileId = None →
     ∃ w', getQuizPdfController id w
           = (inr (message 500 "Failed to retrieve PDF file."), w')).
Proof.
  unfold getQuizPdfController, findQuizById, getBucket, setHeader, DbPromise.getBucket,
    try_catch, bind, lift, get, ret, throw, console_error, modify.
  change (validHeaderValue "application/pdf") with true.
  split; [| split; [| split; [| split]]].
  - intros Hnone. unfold ObjectId.cast in *.
    destruct ((String.length id =? 24)%nat && ObjectId.allHex id).
    + rewrite (Hnone _ eq_refl). by eexists.
    + by eexists.
  - intros oid quiz -> Hquiz Hfile. cbn beta iota. by rewrite Hquiz, Hfile.
  - intros oid quiz fileId -> Hquiz Hfile Hbucket. cbn beta iota.
    rewrite Hquiz, Hfile, Hbucket. by eexists.
  - intros oid quiz fileId -> Hquiz Hfile Hbucket Hname. cbn beta iota.
    rewrite Hquiz, Hfile, Hbucket. cbn beta iota.
    rewrite contentDisposition_valid, Hname. by eexists.
  - intros oid quiz fileId -> Hquiz Hfile Hbucket Hname Hmissing. cbn beta iota.
    rewrite Hquiz, Hfile, Hbucket. cbn beta iota.
    rewrite contentDisposition_valid, Hname, encodeURIComponent_valid. cbn beta iota.
    rewrite Hmissing. by eexists.
Qed.

(** *** connectDB and getBucket *)

Lemma dbInvariant_step (s : DbPromise.State) (e : DbEvent) :
  dbInvariant s → dbInvariant (DbPromise.step s e).
Proof.
  unfold dbInvariant, DbPromise.step, DbPromise.connectDB, DbPromise.settle.
  destruct s as [[[|] |] b n x]; cbn; intros H.
  - destruct H as (-> & -> & ->). by destruct e as [| [|]].
  - destruct H as (-> & -> & ->). by destruct e as [| [|]].
  - destruct H as [-> H]. destruct x; [done |]. subst n. by destruct e as [| [|]].
Qed.

Lemma dbInvariant_run (s : DbPromise.State) (trace : list DbEvent) :
  dbInvariant s → dbInvariant (DbPromise.run s trace).
Proof.
  revert s. induction trace as [| e trace IH]; intros s H; [done |].
  apply IH, dbInvariant_step, H.
Qed.

Lemma dbInvariant_init : dbInvariant DbPromise.init.
Proof. done. Qed.

Lemma db_called_once (s : DbPromise.State) (trace : list DbEvent) :
  dbInvariant s →
  DbPromise.connects s = 1%nat →
  DbPromise.connects (DbPromise.run s trace) = 1%nat.
Proof.
  revert s. induction trace as [| e trace IH]; intros s Hinv H1; [done |].
  cbn. apply IH; [by apply dbInvariant_step |].
  unfold dbInvariant, DbPromise.step, DbPromise.connectDB, DbPromise.settle in *.
  destruct s as [[[|] |] b n x]; cbn in *.
  - destruct Hinv as (-> & -> & ->). by destruct e as [| [|]].
  - destruct Hinv as (-> & -> & ->). by destruct e as [| [|]].
  - destruct Hinv as [-> H]. destruct x; [done |]. congruence.
Qed.

Lemma db_connects_count (trace : list DbEvent) :
  DbPromise.connects (DbPromise.run DbPromise.init trace)
  = (if bool_decide (CallConnectDB ∈ trace) then 1 else 0)%nat.
Proof.
  induction trace as [| e trace IH] using rev_ind.
  - by rewrite bool_decide_eq_false_2 by apply not_elem_of_nil.
  - unfold DbPromise.run in *. rewrite fold_left_app. cbn.
    pose proof (dbInvariant_run _ trace dbInvariant_init) as Hinv.
    fold (DbPromise.run DbPromise.init trace) in *.
    destruct (decide (CallConnectDB ∈ trace)) as [Hin | Hnot].
    + rewrite bool_decide_eq_true_2 in IH by done.
      rewrite bool_decide_eq_true_2 by (apply elem_of_app; by left).
      apply (db_called_once _ [e] Hinv IH).
    + rewrite bool_decide_eq_false_2 in IH by done.
      unfold dbInvariant in Hinv.
      destruct (DbPromise.run DbPromise.init trace) as [[[|] |] b n x];
        cbn in *; try (destruct Hinv as (_ & ? & _); congruence).
      destruct Hinv as [-> Hx]. destruct x; [congruence |].
      destruct e as [| ok].
      * rewrite bool_decide_eq_true_2 by (apply elem_of_app; right; by left).
        cbn. congruence.
      * rewrite bool_decide_eq_false_2; [done |].
        intros [? | Hin]%elem_of_app; [done |].
        by apply list_elem_of_singleton in Hin.
Qed.

(** X4. With the cached promise, [mongoose.connect] is called exactly
    once when [connectDB] is called at all, however often it is called and
    whenever the connection settles, and never otherwise. *)
Theorem connectDB_connects_once (trace : list DbEvent) :
  DbPromise.connects (DbPromise.run DbPromise.init trace)
  = (if bool_decide (CallConnectDB ∈ trace) then 1 else 0)%nat.
Proof. apply db_connects_count. Qed.

Lemma db_run_app (s : DbPromise.State) (t1 t2 : list DbEvent) :
  DbPromise.run s (t1 ++ t2) = DbPromise.run (DbPromise.run s t1) t2.
Proof. unfold DbPromise.run. apply fold_left_app. Qed.

Lemma db_fulfilled_final (s : DbPromise.State) (trace : list DbEvent) :
  DbPromise.connPromise s = Some DbPromise.Fulfilled →
  DbPromise.run s trace = s.
Proof.
  intros Hful. induction trace as [| e trace IH]; [done |].
  cbn. unfold DbPromise.step at 2.
  destruct (DbPromise.exited s); [exact IH |].
  unfold DbPromise.connectDB, DbPromise.settle. rewrite Hful.
  destruct e; exact IH.
Qed.

Lemma db_bucket_fulfilled (trace : list DbEvent) :
  DbPromise.getBucket (DbPromise.run DbPromise.init trace) = inr tt ↔
  DbPromise.connPromise (DbPromise.run DbPromise.init trace) = Some DbPromise.Fulfilled.
Proof.
  pose proof (dbInvariant_run _ trace dbInvariant_init) as Hinv.
  unfold dbInvariant, DbPromise.getBucket in *.
  destruct (DbPromise.connPromise _) as [[|] |];
    destruct Hinv as [-> _]; split; intros H; done.
Qed.

(** X5. [getBucket] throws as long as no connection was fulfilled; once
    it returns the bucket the module never changes again: later calls of
    [connectDB] reuse the connection and [getBucket] keeps returning. *)
Theorem getBucket_after_connect (before after : list DbEvent) :
  DbPromise.getBucket DbPromise.init
  = inl (Error "GridFS Bucket not initialized. Ensure connectDB() has been successfully awaited.") ∧
  (DbPromise.getBucket (DbPromise.run DbPromise.init before) = inr tt ↔
   DbPromise.connPromise (DbPromise.run DbPromise.init before) = Some DbPromise.Fulfilled) ∧
  (DbPromise.getBucket (DbPromise.run DbPromise.init before) = inr tt →
   DbPromise.run DbPromise.init (before ++ after) = DbPromise.run DbPromise.init before).
Proof.
  split; [done |]. split; [apply db_bucket_fulfilled |].
  intros Hful%db_bucket_fulfilled.
  rewrite db_run_app. by apply db_fulfilled_final.
Qed.

(** X6. Calls of [connectDB] that arrive before the first connection has
    settled: the variant with the cached promise opens one connection for
    all of them, the variant with the flag opens one per call. *)
Theorem connectDB_concurrent_calls (k : nat) :
  DbPromise.connects (DbPromise.run DbPromise.init (repeat CallConnectDB k)) = Nat.min k 1 ∧
  DbFlag.connects (DbFlag.run DbFlag.init (repeat CallConnectDB k)) = k.
Proof.
  split.
  - rewrite db_connects_count. destruct k as [| k]; cbn; [done |].
    rewrite bool_decide_eq_true_2 by (by left). by destruct k.
  - assert (H : ∀ s, DbFlag.isConnected s = false → DbFlag.exited s = false →
                     DbFlag.connects (DbFlag.run s (repeat CallConnectDB k))
                     = (DbFlag.connects s + k)%nat).
    { induction k as [| k IH]; intros s Hc Hx; [cbn; lia |].
      change (DbFlag.run s (repeat CallConnectDB (S k)))
        with (DbFlag.run (DbFlag.step s CallConnectDB) (repeat CallConnectDB k)).
      unfold DbFlag.step. rewrite Hx. unfold DbFlag.connectDB. rewrite Hc.
      rewrite IH by done. cbn. lia. }
    by rewrite H.
Qed.

(** *** The CORS policy *)

Lemma cors_noOrigin (origin : option string) :
  Cors.noOrigin origin = true ↔ origin = None ∨ origin = Some "".
Proof.
  destruct origin as [[| c s] |]; cbn; split; try done; try (by intros [? | ?]); auto.
Qed.

Lemma cors_listed (FRONTEND_URL origin : option string) :
  Cors.listed FRONTEND_URL origin = true ↔
  origin = Some "http://localhost:5173" ∨ origin = Some "http://localhost:5174" ∨
  origin = Some "http://localhost:5175" ∨ origin = FRONTEND_URL.
Proof.
  unfold Cors.listed, Cors.allowedOrigins.
  rewrite bool_decide_eq_true, !elem_of_cons, elem_of_nil. tauto.
Qed.

(** X7. The two variants of the origin check let the same requests
    through: those without [Origin] header (or with an empty one), those
    from one of the three local origins, and those whose origin is exactly
    [FRONTEND_URL]; every other origin gets an error, with a message that
    depends on the variant. *)
Theorem cors_allowed_origins (FRONTEND_URL origin : option string) :
  let allowed :=
    origin = None ∨ origin = Some "" ∨
    origin = Some "http://localhost:5173" ∨ origin = Some "http://localhost:5174" ∨
    origin = Some "http://localhost:5175" ∨ origin = FRONTEND_URL in
  (allowed →
   Cors.withMiddleware FRONTEND_URL origin = inr true ∧
   Cors.atStartup FRONTEND_URL origin = inr true) ∧
  (¬ allowed →
   Cors.withMiddleware FRONTEND_URL origin = inl (Error "Not allowed by CORS") ∧
   Cors.atStartup FRONTEND_URL origin
   = inl (Error "The CORS policy for this site does not allow access from the specified Origin.")).
Proof.
  cbv zeta. unfold Cors.withMiddleware, Cors.atStartup.
  pose proof (cors_noOrigin origin) as Hno.
  pose proof (cors_listed FRONTEND_URL origin) as Hl.
  destruct (Cors.noOrigin origin), (Cors.listed FRONTEND_URL origin); cbn;
    split; intros H; try done; exfalso; intuition congruence.
Qed.

(** ** More on submissions *)

Section Submissions.

Variable castNonString : jsval → option string.

Local Abbreviation submit := (submitQuizController castNonString).

Lemma findAnswer_pure (q : option Question) (l : list jsval) (w : World) r w' :
  findAnswer q l w = (r, w') → w' = w.
Proof.
  induction l as [| ans l IH]; simpl; [by intros [= <- <-] |].
  unfold bind at 1, lift at 1.
  destruct (getProp ans "questionId") as [e | v]; [by intros [= <- <-] |].
  unfold bind at 1, qprop.
  destruct q as [q |]; unfold ret, throw; [| by intros [= <- <-]].
  destruct (strict_eq_str _ _); [by intros [= <- <-] | apply IH].
Qed.

Lemma userAnswers_find_pure (userAnswers : jsval) (q : option Question) (w : World) r w' :
  userAnswers_find userAnswers q w = (r, w') → w' = w.
Proof.
  destruct userAnswers; simpl; try (by intros [= <- <-]). apply findAnswer_pure.
Qed.

Lemma gradeQuestion_inv (userAnswers : jsval) (oq : option Question) (sc : nat)
    (ds : list DetailedResult) (w : World) r w' :
  gradeQuestion userAnswers oq (sc, ds) w = (r, w') →
  w' = w ∧
  ∀ sc' ds', r = inr (sc', ds') →
    (sc ≤ sc' ≤ S sc)%nat ∧ ∃ q d, oq = Some q ∧ ds' = ds ++ [d] ∧ snapshotOf q d.
Proof.
  unfold gradeQuestion. unfold bind at 1.
  destruct (userAnswers_find userAnswers oq w) as [[e | found] w1] eqn:Hfind;
    apply userAnswers_find_pure in Hfind as ->; [by intros [= <- <-] |].
  destruct oq as [q |]; unfold qprop, bind, lift, ret, throw.
  - destruct (truthy found) eqn:Hfound.
    + destruct (getProp found "answer") as [e | a]; [by intros [= <- <-] |].
      intros [= <- <-]. split; [done |]. intros sc' ds' [= <- <-].
      split; [cbn; destruct (strict_eq_str _ _); lia |]. by do 2 eexists.
    + intros [= <- <-]. split; [done |]. intros sc' ds' [= <- <-].
      rewrite Hfound. split; [lia |]. by do 2 eexists.
  - destruct (truthy found); [destruct (getProp found "answer") |];
      by intros [= <- <-].
Qed.

Lemma forEachQuestion_inv (userAnswers : jsval) (oqs : list (option Question)) (sc : nat)
    (ds : list DetailedResult) (w : World) r w' :
  forEachQuestion userAnswers oqs (sc, ds) w = (r, w') →
  w' = w ∧
  ∀ sc' ds', r = inr (sc', ds') →
    (sc ≤ sc' ≤ sc + length oqs)%nat ∧
    ∃ qs new, oqs = Some <$> qs ∧ ds' = ds ++ new ∧ Forall2 snapshotOf qs new.
Proof.
  revert sc ds. induction oqs as [| oq oqs IH]; intros sc ds.
  - cbn. intros [= <- <-]. split; [done |]. intros sc' ds' [= <- <-].
    split; [lia |]. exists [], []. by rewrite app_nil_r.
  - cbn [forEachQuestion]. unfold bind.
    destruct (gradeQuestion userAnswers oq (sc, ds) w) as [[e | [sc1 ds1]] w1] eqn:Hq;
      apply gradeQuestion_inv in Hq as [-> Hq].
    + by intros [= <- <-].
    + destruct (Hq sc1 ds1 eq_refl) as (Hsc & q & d & -> & -> & Hd).
      intros (-> & Hrest)%IH. split; [done |]. intros sc' ds' Hr.
      destruct (Hrest sc' ds' Hr) as (Hsc' & qs & new & -> & -> & Hnew).
      split; [cbn; lia |]. exists (q :: qs), (d :: new).
      split; [done |]. split; [by rewrite <- app_assoc | by constructor].
Qed.

Lemma castSubmittedAnswers_inv (ds : list DetailedResult) (w : World) r w' :
  castSubmittedAnswers castNonString ds w = (r, w') →
  w' = w ∧ ∀ l, r = inr l → length l = length ds.
Proof.
  revert r w'. induction ds as [| d ds IH]; intros r w'; cbn.
  - intros [= <- <-]. split; [done |]. by intros l [= <-].
  - unfold bind at 1. unfold castSubmittedAnswer at 1. unfold bind at 1.
    destruct (castString _ _ (dr_submittedAnswer d) w) as [[e | sa] w1] eqn:Hsa;
      apply castString_pure in Hsa as ->; [by intros [= <- <-] |].
    unfold bind at 1, castBoolean.
    destruct (dr_isCorrect d); unfold throw, ret; try (by intros [= <- <-]);
      unfold bind;
      (destruct (castSubmittedAnswers castNonString ds w) as [[e | rest] w1];
       destruct (IH _ _ eq_refl) as [-> Hlen]; [by intros [= <- <-] |];
       intros [= <- <-]; split; [done |]; intros l [= <-]; cbn;
       by rewrite (Hlen rest eq_refl)).
Qed.

Lemma saveResult_inv (now : Z) (quizId : string) (sc n : nat)
    (ds : list DetailedResult) (w : World) r w' :
  saveResult castNonString now quizId sc n ds w = (r, w') →
  quizzes w' = quizzes w ∧ files w' = files w ∧ calls w' = calls w ∧
  match r with
  | inl _ => results w' = results w
  | inr res =>
      result_id res = ObjectId.generate (counter w) ∧
      results w' = <[result_id res := res]> (results w) ∧
      ObjectId.cast quizId = inr (result_quiz res) ∧
      score res = sc ∧ totalQuestions res = n ∧
      length (submittedAnswers res) = length ds ∧
      result_createdAt res = now
  end.
Proof.
  unfold saveResult, newObjectId.
  unfold bind at 1 2 3 4, get, modify, lift, ret at 1 2. cbn [fst snd].
  destruct (ObjectId.cast quizId) as [e | oid]; [by intros [= <- <-] |].
  unfold bind at 1.
  destruct (castSubmittedAnswers _ ds _) as [[e | answers] w1] eqn:Hcast;
    apply castSubmittedAnswers_inv in Hcast as [-> Hlen]; [by intros [= <- <-] |].
  unfold bind, ret. intros [= <- <-]. cbn.
  repeat split; try done. by apply Hlen.
Qed.

(** What [submit] did, read off its answer: it stored nothing, or it
    answered 200 after grading a quiz whose questions are all
    documents. *)
Lemma submit_inv (now : Z) (quizId : string) (userAnswers : jsval)
    (w : World) r (w' : World) :
  submit now quizId userAnswers w = (r, w') →
  (results w' = results w ∧ ∀ body, r ≠ inr (ResJson 200 body)) ∨
  ∃ oid quiz qs sc ds res,
    ObjectId.cast quizId = inr oid ∧
    quizzes w !! oid = Some quiz ∧
    questions quiz = Some <$> qs ∧
    r = inr (ResJson 200
               (JObj [("message", JStr "Quiz submitted successfully!");
                      ("resultId", JStr (ObjectId.toString (result_id res)));
                      ("score", JNum (Z.of_nat sc));
                      ("totalQuestions", JNum (Z.of_nat (length (questions quiz))));
                      ("results", JArr (map detailedToJSON ds))])) ∧
    (sc ≤ length (questions quiz))%nat ∧
    Forall2 snapshotOf qs ds ∧
    results w' = <[result_id res := res]> (results w) ∧
    result_quiz res = oid ∧ score res = sc ∧
    totalQuestions res = length (questions quiz) ∧
    length (submittedAnswers res) = length (questions quiz) ∧
    quizzes w' = quizzes w ∧ files w' = files w.
Proof.
  unfold submitQuizController, findQuizById, try_catch.
  unfold bind at 1. unfold bind at 1. unfold lift at 1.
  destruct (ObjectId.cast quizId) as [e | oid] eqn:Hcast.
  { unfold bind, console_error, modify, ret. intros [= <- <-]. left. by split. }
  unfold bind at 1, get at 1, ret at 1.
  destruct (quizzes w !! oid) as [quiz |] eqn:Hquiz.
  2: { intros [= <- <-]. left. by split. }
  unfold bind at 1.
  destruct (forEachQuestion userAnswers (questions quiz) (0%nat, []) w)
    as [[e | [sc ds]] w1] eqn:Hgrade;
    apply forEachQuestion_inv in Hgrade as [-> Hgrade].
  { unfold bind, console_error, modify, ret. intros [= <- <-]. left. by split. }
  destruct (Hgrade sc ds eq_refl) as (Hsc & qs & new & Hqs & -> & Hnew).
  unfold bind at 1.
  destruct (saveResult _ now quizId sc _ _ w) as [[e | res] w1] eqn:Hsave;
    apply saveResult_inv in Hsave as (Hq & Hf & _ & Hsave).
  { unfold bind, console_error, modify, ret. intros [= <- <-]. left. by split. }
  destruct Hsave as (_ & Hres & Hoid & Hscore & Htotal & Hlen & _).
  unfold ret. intros [= <- <-]. right.
  exists oid, quiz, qs, sc, new, res. cbn in *.
  rewrite Hoid in Hcast. injection Hcast as [= <-].
  repeat split; try done; try lia.
  rewrite Hlen, Hqs, length_fmap. symmetry. eapply Forall2_length, Hnew.
Qed.

(** X8. Whatever the request body holds, a submission that is answered
    200 found its quiz, whose questions are all documents, reports a
    score between 0 and the number of questions, reports that number as
    [totalQuestions], holds one detailed result per question, in the order
    of the quiz and with the text and correct answer of that question, and
    has added exactly one result, with the same score and total, to the
    collection. *)
Theorem submit_ok_inv (now : Z) (quizId : string) (userAnswers : jsval)
    (w : World) (body : jsval) (w' : World) :
  submit now quizId userAnswers w = (inr (ResJson 200 body), w') →
  ∃ oid quiz qs sc ds r,
    ObjectId.cast quizId = inr oid ∧
    quizzes w !! oid = Some quiz ∧
    questions quiz = Some <$> qs ∧
    body = JObj [("message", JStr "Quiz submitted successfully!");
                 ("resultId", JStr (ObjectId.toString (result_id r)));
                 ("score", JNum (Z.of_nat sc));
                 ("totalQuestions", JNum (Z.of_nat (length (questions quiz))));
                 ("results", JArr (map detailedToJSON ds))] ∧
    (sc ≤ length (questions quiz))%nat ∧
    Forall2 snapshotOf qs ds ∧
    results w' = <[result_id r := r]> (results w) ∧
    result_quiz r = oid ∧ score r = sc ∧
    totalQuestions r = length (questions quiz) ∧
    length (submittedAnswers r) = length (questions quiz) ∧
    quizzes w' = quizzes w ∧ files w' = files w.
Proof.
  intros [[_ Hno] | (oid & quiz & qs & sc & ds & r & Hcast & Hquiz & Hqs & Hr & Hrest)]%submit_inv.
  { by destruct (Hno body). }
  injection Hr as [= ->]. by exists oid, quiz, qs, sc, ds, r.
Qed.

(** X9. A submission for an id that is not an ObjectId is answered 500, a
    submission for an id that no quiz has is answered 404; in both cases
    nothing is stored. *)
Theorem submit_unknown_quiz (now : Z) (quizId : string) (userAnswers : jsval) (w : World) :
  (∀ e, ObjectId.cast quizId = inl e →
     ∃ w', submit now quizId userAnswers w
           = (inr (message 500 "An error occurred on the server while submitting the quiz."), w') ∧
           sameData w w') ∧
  (∀ oid, ObjectId.cast quizId = inr oid → quizzes w !! oid = None →
     submit now quizId userAnswers w = (inr (message 404 "Quiz not found."), w)).
Proof.
  unfold submitQuizController, findQuizById, try_catch.
  split.
  - intros e Hcast. unfold bind, lift, console_error, modify, ret. rewrite Hcast.
    eexists. split; [reflexivity |]. by repeat split.
  - intros oid Hcast Hnone. unfold bind at 1. unfold bind, lift, get, ret.
    rewrite Hcast. cbn beta iota. by rewrite Hnone.
Qed.

Lemma findAnswer_null (oq : option Question) (l : list jsval) (w : World) :
  JNull ∈ l →
  (∀ q, oq = Some q →
        ∀ v, v ∈ l → getProp v "questionId" ≠ inr (JStr (ObjectId.toString (q_id q)))) →
  ∃ e, findAnswer oq l w = (inl e, w).
Proof.
  induction l as [| v l IH]; intros Hin Hno; [by apply elem_of_nil in Hin |].
  cbn [findAnswer]. unfold bind at 1, lift at 1.
  destruct (getProp v "questionId") as [e | x] eqn:Hprop; [by eexists |].
  unfold bind at 1, qprop.
  destruct oq as [q |]; unfold ret, throw; [| by eexists].
  assert (Hx : strict_eq_str x (ObjectId.toString (q_id q)) = false).
  { destruct x as [| | | |s| |]; try done. cbn.
    destruct (decide (s = ObjectId.toString (q_id q))) as [-> |]; [| done].
    destruct (Hno q eq_refl v); [by left | done]. }
  rewrite Hx. apply IH.
  - apply elem_of_cons in Hin as [<- | Hin]; [discriminate Hprop | done].
  - intros q' Hq' v' Hv'. apply Hno; [done | by right].
Qed.

(** X10. An answer array that holds a [null] and no entry for the first
    question of the quiz makes the lookup for that question read a
    property of [null] (of the entry, or of the question when that is
    itself [null]): the submission is answered 500 and no result is
    stored. *)
Theorem submit_null_entry (now : Z) (quizId : string) (oid : ObjectId.t) (quiz : Quiz)
    (q : option Question) (qs : list (option Question)) (l : list jsval) (w : World) :
  ObjectId.cast quizId = inr oid →
  quizzes w !! oid = Some quiz →
  questions quiz = q :: qs →
  JNull ∈ l →
  (∀ q', q = Some q' →
         ∀ v, v ∈ l → getProp v "questionId" ≠ inr (JStr (ObjectId.toString (q_id q')))) →
  ∃ w',
    submit now quizId (JArr l) w
    = (inr (message 500 "An error occurred on the server while submitting the quiz."), w') ∧
    sameData w w'.
Proof.
  intros Hcast Hquiz Hqs Hnull Hno.
  unfold submitQuizController, findQuizById, try_catch.
  unfold bind at 1. unfold bind at 1. unfold lift at 1. rewrite Hcast.
  unfold bind at 1, get at 1, ret at 1. rewrite Hquiz, Hqs.
  unfold bind at 1. cbn [forEachQuestion]. unfold bind at 1.
  unfold gradeQuestion. unfold bind at 1. cbn [userAnswers_find].
  destruct (findAnswer_null q l w Hnull Hno) as [e ->].
  unfold bind, console_error, modify, ret.
  eexists. split; [reflexivity |]. by repeat split.
Qed.

Lemma firstEntry_filter (P : AnswerEntry → Prop) `{∀ e, Decision (P e)}
    (id : string) (answers : list AnswerEntry) :
  (∀ e, ae_questionId e = id → P e) →
  firstEntry id (filter P answers) = firstEntry id answers.
Proof.
  intros HP. induction answers as [| e answers IH]; [done |].
  rewrite filter_cons. cbn [firstEntry].
  destruct (decide (ae_questionId e = id)) as [Heq | Hne].
  - rewrite decide_True by auto. cbn. by rewrite decide_True.
  - destruct (decide (P e)); [| done]. cbn. by rewrite decide_False.
Qed.

Lemma firstEntry_Some (id : string) (answers : list AnswerEntry) (e : AnswerEntry) :
  firstEntry id answers = Some e → e ∈ answers ∧ ae_questionId e = id.
Proof.
  induction answers as [| a answers IH]; [done |]. cbn.
  destruct (decide (ae_questionId a = id)).
  - intros [= <-]. split; [by left | done].
  - intros [Hin Hid]%IH. split; [by right | done].
Qed.

Lemma firstEntry_None (id : string) (answers : list AnswerEntry) :
  firstEntry id answers = None → ∀ e, e ∈ answers → ae_questionId e ≠ id.
Proof.
  induction answers as [| a answers IH]; [by intros _ e ?%elem_of_nil |]. cbn.
  destruct (decide (ae_questionId a = id)); [done |].
  intros Hnone e [-> | Hin]%elem_of_cons; [done | by apply IH].
Qed.

Lemma grading_ext (answers answers' : list AnswerEntry) (qs : list Question) :
  (∀ q, q ∈ qs →
     firstEntry (ObjectId.toString (q_id q)) answers
     = firstEntry (ObjectId.toString (q_id q)) answers') →
  correctCount answers qs = correctCount answers' qs ∧
  map (gradeOf answers) qs = map (gradeOf answers') qs ∧
  map (storedGradeOf answers) qs = map (storedGradeOf answers') qs.
Proof.
  unfold correctCount.
  induction qs as [| q qs IH]; intros Hext; [done |].
  destruct IH as (IH1 & IH2 & IH3); [intros q' Hq'; apply Hext; by right |].
  assert (Hq : firstAnswer (ObjectId.toString (q_id q)) answers
               = firstAnswer (ObjectId.toString (q_id q)) answers').
  { unfold firstAnswer. rewrite Hext; [done | by left]. }
  assert (Hc : answeredCorrectly answers q = answeredCorrectly answers' q).
  { unfold answeredCorrectly. by rewrite Hq. }
  rewrite !filter_cons. cbn [map]. rewrite IH2, IH3.
  unfold gradeOf, storedGradeOf. rewrite Hq, Hc.
  split; [| done].
  destruct (answeredCorrectly answers' q).
  - rewrite !decide_True by done. cbn. by rewrite IH1.
  - by rewrite !decide_False by done.
Qed.

Lemma omap_id_some {A} (l : list A) : omap id (Some <$> l) = l.
Proof. induction l as [| a l IH]; [done |]. cbn. by rewrite IH. Qed.

(** X11. Entries for questions that the quiz does not have are ignored:
    dropping them from the answer list changes neither the answer of
    [submit] nor what it stores. *)
Theorem submit_ignores_foreign_entries (now : Z) (quizId : string) (oid : ObjectId.t)
    (quiz : Quiz) (w : World) (answers : list AnswerEntry) :
  ObjectId.cast quizId = inr oid →
  quizzes w !! oid = Some quiz →
  submit now quizId
    (JArr (map entryToJSON (filter (aboutQuestions (questions quiz)) answers))) w
  = submit now quizId (JArr (map entryToJSON answers)) w.
Proof.
  intros Hcast Hquiz.
  destruct (questions_split (questions quiz)) as [[qs Hqs] | (qs & rest & Hqs)].
  - rewrite !(submit_typed castNonString now quizId oid quiz qs w) by done. cbv zeta.
    destruct (grading_ext (filter (aboutQuestions (questions quiz)) answers) answers qs)
      as (-> & -> & ->); [| done].
    intros q Hq. apply firstEntry_filter. intros e He.
    unfold aboutQuestions. rewrite He, Hqs, omap_id_some.
    by apply (list_elem_of_fmap_2 (λ q, ObjectId.toString (q_id q))).
  - assert (Hnull : None ∈ questions quiz).
    { rewrite Hqs. apply elem_of_app. right. by left. }
    by rewrite !(submit_typed_null castNonString now quizId oid quiz w) by done.
Qed.

Lemma NoDup_fmap_eq {A B} (f : A → B) (l : list A) (x y : A) :
  NoDup (f <$> l) → x ∈ l → y ∈ l → f x = f y → x = y.
Proof.
  induction l as [| a l IH]; [by intros _ ?%elem_of_nil |].
  rewrite fmap_cons, NoDup_cons. intros [Hnotin Hnd].
  intros [-> | Hx]%elem_of_cons [-> | Hy]%elem_of_cons Heq; try done.
  - destruct Hnotin. rewrite Heq. by apply list_elem_of_fmap_2.
  - destruct Hnotin. rewrite <- Heq. by apply list_elem_of_fmap_2.
  - by apply IH.
Qed.

Lemma all_correct_count (answers : list AnswerEntry) (qs : list Question) :
  NoDup ((λ q, ObjectId.toString (q_id q)) <$> qs) →
  answers ≡ₚ correctEntry <$> qs →
  correctCount answers qs = length qs.
Proof.
  intros Hnd Hperm. unfold correctCount.
  assert (Hall : Forall (λ q, answeredCorrectly answers q = true) qs).
  { apply Forall_forall. intros q Hq.
    unfold answeredCorrectly, firstAnswer. apply bool_decide_eq_true.
    destruct (firstEntry (ObjectId.toString (q_id q)) answers) as [e |] eqn:Hfirst.
    - apply firstEntry_Some in Hfirst as [Hin Hid].
      rewrite Hperm in Hin. apply list_elem_of_fmap in Hin as (q' & -> & Hq').
      cbn in Hid. rewrite (NoDup_fmap_eq _ qs q' q Hnd Hq' Hq Hid). done.
    - exfalso. eapply (firstEntry_None _ _ Hfirst (correctEntry q)); [| done].
      rewrite Hperm. by apply list_elem_of_fmap_2. }
  clear Hnd Hperm. induction Hall as [| q qs Hq Hall IH]; [done |].
  rewrite filter_cons, decide_True by done. cbn. by rewrite IH.
Qed.

(** X12. When the questions of the quiz, all of them documents, have
    distinct ids and the answer list holds, in any order, exactly one
    entry per question with its correct answer, the score of the
    submission is the number of questions. *)
Theorem submit_all_correct (now : Z) (quizId : string) (oid : ObjectId.t)
    (quiz : Quiz) (qs : list Question) (w : World) (answers : list AnswerEntry) :
  ObjectId.cast quizId = inr oid →
  quizzes w !! oid = Some quiz →
  questions quiz = Some <$> qs →
  NoDup ((λ q, ObjectId.toString (q_id q)) <$> qs) →
  answers ≡ₚ correctEntry <$> qs →
  ∃ rid results_v r w',
    submit now quizId (JArr (map entryToJSON answers)) w
    = (inr (ResJson 200
              (JObj [("message", JStr "Quiz submitted successfully!");
                     ("resultId", JStr rid);
                     ("score", JNum (Z.of_nat (length (questions quiz))));
                     ("totalQuestions", JNum (Z.of_nat (length (questions quiz))));
                     ("results", JArr results_v)])),
       w') ∧
    results w' = <[rid := r]> (results w) ∧
    score r = totalQuestions r.
Proof.
  intros Hcast Hquiz Hqs Hnd Hperm.
  pose proof (submit_typed castNonString now quizId oid quiz qs w answers Hcast Hquiz Hqs)
    as Hrun.
  cbv zeta in Hrun. rewrite (all_correct_count answers qs Hnd Hperm) in Hrun.
  assert (Hlen : length qs = length (questions quiz)) by (by rewrite Hqs, length_fmap).
  rewrite Hlen in Hrun.
  do 4 eexists. split; [exact Hrun |]. split; reflexivity.
Qed.

(** C9. A result is only ever stored for a quiz whose questions are all
    documents: a submission that changes the results was made for such a
    quiz. Whenever a result is stored for such a quiz, the answer of
    [getForTaking] holds that result as stored: its [submittedAnswers]
    carry the [correctAnswer] of every graded question, although the
    questions of the quiz itself are shown without it. *)
Theorem getForTaking_results_carry_correctAnswer (quizId : string) (oid : ObjectId.t)
    (quiz : Quiz) (w : World) :
  ObjectId.cast quizId = inr oid →
  quizzes w !! oid = Some quiz →
  (∀ now userAnswers r' w',
     submit now quizId userAnswers w = (r', w') →
     results w' ≠ results w →
     ∃ qs, questions quiz = Some <$> qs) ∧
  (∀ qs id r,
     questions quiz = Some <$> qs →
     results w !! id = Some r →
     result_quiz r = oid →
     ∃ quiz_v questions_v results_v,
       getQuizForTakingController quizId w
       = (inr (ResJson 200 (JObj [("quiz", quiz_v); ("results", JArr results_v)])), w) ∧
       getProp quiz_v "questions" = inr (JArr questions_v) ∧
       Forall (λ v, getProp v "correctAnswer" = inr JUndef) questions_v ∧
       resultToJSON r ∈ results_v ∧
       getProp (resultToJSON r) "submittedAnswers"
       = inr (JArr (map submittedAnswerToJSON (submittedAnswers r))) ∧
       Forall (λ a, getProp (submittedAnswerToJSON a) "correctAnswer"
                    = inr (JStr (sa_correctAnswer a)))
         (submittedAnswers r)).
Proof.
  intros Hcast Hquiz. split.
  - intros now userAnswers r' w' Hrun Hchanged.
    apply submit_inv in Hrun
      as [[Hsame _] | (oid' & quiz' & qs & sc & ds & res & Hcast' & Hquiz' & Hqs & _)];
      [done |].
    exists qs. congruence.
  - intros qs id r Hqs Hr Hrq.
    do 3 eexists. split; [by eapply getQuizForTaking_found |].
    split; [reflexivity |]. split; [| split; [| split]].
    + apply Forall_forall. intros v (q & -> & _)%list_elem_of_fmap.
      apply studentView_no_answer.
    + apply list_elem_of_fmap_2. rewrite merge_sort_Permutation.
      unfold resultsOf. apply list_elem_of_filter. split; [done |].
      apply list_elem_of_fmap. exists (id, r). split; [done |].
      by apply elem_of_map_to_list.
    + done.
    + apply Forall_forall. intros a _. unfold submittedAnswerToJSON. simpl.
      by destruct (sa_submittedAnswer a).
Qed.

End Submissions.

(** ** More on generation *)

Lemma take_length (n : N) (s : string) :
  (N.of_nat (String.length (JsString.take n s)) ≤ n)%N.
Proof.
  revert n. induction s as [| c s IH]; intros n; cbn; [lia |].
  destruct (N.eqb_spec n 0) as [-> | Hn]; cbn [String.length]; [lia |].
  specialize (IH (N.pred n)). lia.
Qed.

Lemma take_prefix (n : N) (s : string) :
  JsString.startsWith s (JsString.take n s) = true.
Proof.
  unfold JsString.startsWith. revert n.
  induction s as [| c s IH]; intros n; cbn; [done |].
  destruct (n =? 0)%N; cbn; [done |].
  destruct (ascii_dec c c); [apply IH | done].
Qed.

Section Generation.

Variable pdf : list Byte.byte → option string.
Variable llm : string → jsval → option string.
Variable JSON_parse : string → option jsval.
Variable castNonString : jsval → option string.
Variable castQuestion : jsval → option QuestionFields.

Local Abbreviation generate :=
  (generateQuizController pdf llm JSON_parse castNonString castQuestion).
Local Abbreviation gather := (gatherSources pdf).
Local Abbreviation save := (saveQuiz castNonString castQuestion).

(** *** The effects of the steps *)

Lemma addTopic_text (topic_v : jsval) (l : Locals) (w : World) :
  topicAbsentOrText topic_v → ∃ l', addTopic topic_v l w = (inr l', w).
Proof.
  unfold addTopic. intros [Hfalsy | [s ->]].
  - rewrite Hfalsy. by eexists.
  - destruct (truthy (JStr s)); [| by eexists].
    unfold js_trim, bind, ret. cbn beta iota.
    destruct (0 <? String.length (JsString.trim s))%nat; by eexists.
Qed.

Lemma gatherSources_world (req : GenerateRequest) (w : World) g w1 :
  gather req w = (g, w1) →
  (counterOnly w w1 ∧ (is_Some (file req) → ∃ e, g = inl e)) ∨
  (∃ f, file req = Some f ∧ canUpload w = true ∧ w1 = afterFile f w ∧
        (pdf (buffer f) = None → ∃ e, g = inl e)).
Proof.
  unfold gatherSources, bind.
  destruct (addTopic _ _ w) as [[e | l0] w0] eqn:Htopic;
    apply addTopic_pure in Htopic as ->.
  { intros [= <- <-]. left. split; [apply counterOnly_refl | by eexists]. }
  destruct (file req) as [f |].
  - intros H%addFile_run. destruct (canUpload w) eqn:Hcan.
    + destruct H as [-> H]. right. exists f. repeat split; try done.
      intros Hnone. by rewrite Hnone in H.
    + destruct H as [He Hc]. left. by split.
  - intros [= <- <-]. left. split; [apply counterOnly_refl | by intros [? ?]].
Qed.

Lemma gatherSources_with_file (req : GenerateRequest) (f : UploadedFile) (w : World) g w1 :
  topicAbsentOrText (body_topic req) →
  file req = Some f →
  gather req w = (g, w1) →
  if canUpload w then
    w1 = afterFile f w ∧ (pdf (buffer f) = None → ∃ e, g = inl e)
  else counterOnly w w1 ∧ ∃ e, g = inl e.
Proof.
  intros Htopic Hf. unfold gatherSources, bind.
  destruct (addTopic_text _ initLocals w Htopic) as [l0 ->]. rewrite Hf.
  intros H%addFile_run. destruct (canUpload w).
  - destruct H as [-> H]. split; [done |]. intros Hnone. by rewrite Hnone in H.
  - destruct H as [He Hc]. by split.
Qed.

Lemma parseQuestions_inv (text : string) (w : World) r w' :
  parseQuestions JSON_parse text w = (r, w') →
  sameData w w' ∧
  ∀ vs, r = inr vs →
    w' = w ∧ vs ≠ [] ∧ JSON_parse (stripFence (JsString.trim text)) = Some (JArr vs).
Proof.
  unfold parseQuestions.
  destruct (JSON_parse _) as [v |]; [| by intros [= <- <-]].
  destruct v as [| | | | |[| q qs]|]; intros [= <- <-]; split; try done.
  by intros vs [= <-].
Qed.

Lemma generateBody_world (now : Z) (req : GenerateRequest) (w : World) r w' :
  generateBody pdf llm JSON_parse castNonString castQuestion now req w = (r, w') →
  ∃ g w1,
    gather req w = (g, w1) ∧
    files w' = files w1 ∧ results w' = results w1 ∧
    (calls w' = calls w1 ∨
     ∃ l, g = inr l ∧
          (50 ≤ String.length (JsString.trim (contextText l)))%nat ∧
          calls w' = calls (afterLLM req l w1)).
Proof.
  unfold generateBody. unfold bind at 1.
  destruct (gather req w) as [[e | l] w1] eqn:Hgather.
  { intros [= <- <-]. exists (inl e), w1.
    split; [done |]. split; [done |]. split; [done |]. by left. }
  destruct (Nat.ltb_spec (String.length (JsString.trim (contextText l))) 50) as [Hlt | Hge].
  { intros [= <- <-]. exists (inr l), w1.
    split; [done |]. split; [done |]. split; [done |]. by left. }
  assert (Hafter : ∀ w2,
            files w2 = files (afterLLM req l w1) →
            results w2 = results (afterLLM req l w1) →
            calls w2 = calls (afterLLM req l w1) →
            ∃ g w0,
              (@inr Exn Locals l, w1) = (g, w0) ∧
              files w2 = files w0 ∧ results w2 = results w0 ∧
              (calls w2 = calls w0 ∨
               ∃ l0, g = inr l0 ∧
                     (50 ≤ String.length (JsString.trim (contextText l0)))%nat ∧
                     calls w2 = calls (afterLLM req l0 w0))).
  { intros w2 Hf Hr Hc. exists (inr l), w1.
    split; [done |]. split; [exact Hf |]. split; [exact Hr |].
    right. exists l. by split. }
  unfold bind at 1.
  destruct (callLLM _ _ _ w1) as [[e | text] w2] eqn:Hllm;
    apply callLLM_inv in Hllm as [-> _].
  { intros [= <- <-]. by apply Hafter. }
  unfold bind at 1. unfold try_catch, bind at 1.
  destruct (parseQuestions _ text _) as [[e | qs] w3] eqn:Hparse;
    apply parseQuestions_inv in Hparse as [(Hq3 & Hr3 & Hf3 & Hc3 & Hcalls3) _].
  { unfold bind, console_error, modify, ret. simpl.
    intros [= <- <-]. by apply Hafter. }
  unfold ret at 1. unfold bind at 1.
  destruct (saveQuiz _ _ _ _ _ _ _ _ _ w3) as [[e | q] w4] eqn:Hsave;
    apply saveQuiz_inv in Hsave as (Hr4 & Hf4 & Hc4 & _);
    intros [= <- <-]; apply Hafter; unfold afterLLM; congruence.
Qed.

Lemma generate_world (now : Z) (req : GenerateRequest) (w : World) r w' :
  validGenerate req →
  generate now req w = (r, w') →
  ∃ g w1,
    gather req w = (g, w1) ∧
    files w' = files w1 ∧ results w' = results w1 ∧
    (calls w' = calls w1 ∨
     ∃ l, g = inr l ∧
          (50 ≤ String.length (JsString.trim (contextText l)))%nat ∧
          calls w' = calls (afterLLM req l w1)).
Proof.
  intros [Htitle Hsrc]. unfold generateQuizController. rewrite Htitle. cbn [negb].
  unfold bind at 1. rewrite sourceMissing_valid by done.
  unfold try_catch.
  destruct (generateBody _ _ _ _ _ now req w) as [[e | resp] w2] eqn:Hbody;
    apply generateBody_world in Hbody as (g & w1 & Hg & Hf & Hr & Hcalls).
  - unfold bind, console_error, modify, ret. cbn. intros [= <- <-]. by exists g, w1.
  - intros [= <- <-]. by exists g, w1.
Qed.

(** *** Saving, once more *)

Lemma newSubdocs_inv (vs : list jsval) (w : World) ds w' :
  newSubdocs vs w = (inr ds, w') →
  Forall2 (λ v d, isNullish v = true ↔ d = None) vs ds.
Proof.
  revert w ds w'. induction vs as [| v vs IH]; intros w ds w'; simpl.
  - intros [= <- <-]. constructor.
  - unfold bind at 1. destruct (isNullish v) eqn:Hv.
    + unfold ret at 1. unfold bind.
      destruct (newSubdocs vs w) as [[e | ds'] w1] eqn:H1; [done |].
      intros [= <- <-]. constructor; [done | by eapply IH].
    + unfold newObjectId at 1. unfold bind, get, modify, ret. simpl.
      destruct (newSubdocs vs (set_counter N.succ w)) as [[e | ds'] w1] eqn:H1; [done |].
      intros [= <- <-]. constructor; [| by eapply IH].
      split; [by rewrite Hv | done].
Qed.

Lemma validateQuestion_inv (d : option (ObjectId.t * jsval)) (w : World) q w' :
  validateQuestion castQuestion d w = (inr q, w') →
  validStored q ∧ (d = None ↔ q = None).
Proof.
  unfold validateQuestion, validStored.
  destruct d as [[id v] |]; [| by intros [= <- <-]].
  destruct (castQuestion v) as [f |]; [| done].
  unfold bind.
  destruct (required _ (qf_questionText f) w) as [[e | qt] w1] eqn:H1; [done |].
  apply required_inv in H1 as [-> H1]. destruct (H1 qt eq_refl) as [_ Hqt].
  destruct (Nat.ltb_spec 1 (length (qf_options f))) as [Hopt | Hopt]; simpl; [| done].
  destruct (required _ (qf_correctAnswer f) w) as [[e | ca] w1] eqn:H2; [done |].
  apply required_inv in H2 as [-> H2]. destruct (H2 ca eq_refl) as [_ Hca].
  intros [= <- <-]. split; [| done].
  intros q' [= <-]. unfold validQuestion. simpl.
  split; [by intros -> |]. split; [lia | by intros ->].
Qed.

Lemma validateQuestions_inv (ds : list (option (ObjectId.t * jsval))) (w : World) qs w' :
  validateQuestions castQuestion ds w = (inr qs, w') →
  Forall validStored qs ∧ Forall2 (λ d q, d = None ↔ q = None) ds qs.
Proof.
  revert w qs w'. induction ds as [| d ds IH]; intros w qs w'; simpl.
  - intros [= <- <-]. by split.
  - unfold bind.
    destruct (validateQuestion _ d w) as [[e | q] w1] eqn:H1; [done |].
    apply validateQuestion_inv in H1 as [Hq Hnull].
    destruct (validateQuestions _ ds w1) as [[e | qs'] w2] eqn:H2; [done |].
    apply IH in H2 as [Hall Hnulls].
    intros [= <- <-]. split; by constructor.
Qed.

Lemma saveQuiz_valid (now : Z) (title_v topic_v : jsval) (vs : list jsval)
    (st : string) (fn : option string) (fid : option ObjectId.t) (w : World) q w' :
  save now title_v topic_v vs st fn fid w = (inr q, w') →
  title q ≠ "" ∧
  (∀ t, title_v = JStr t → title q = JsString.trim t) ∧
  length (questions q) = length vs ∧
  Forall validStored (questions q) ∧
  quiz_createdAt q = now ∧
  Forall2 (λ v oq, isNullish v = true ↔ oq = None) vs (questions q).
Proof.
  unfold saveQuiz. unfold bind at 1. unfold newObjectId at 1.
  unfold bind at 1 2, get, modify, ret at 1. simpl.
  unfold bind at 1.
  destruct (newSubdocs _ _) as [[e | subdocs] w1] eqn:Hids; [done |].
  apply newSubdocs_inv in Hids.
  unfold bind at 1.
  destruct (castString _ "title" title_v w1) as [[e | t] w2] eqn:Ht; [done |].
  pose proof (castString_pure _ _ _ _ _ _ Ht) as ->.
  unfold bind at 1.
  destruct (required "title" _ w1) as [[e | t'] w2] eqn:Ht'; [done |].
  apply required_inv in Ht' as [-> Hreq]. destruct (Hreq t' eq_refl) as [Ht' Hne].
  unfold bind at 1.
  destruct (castString _ "topic" topic_v w1) as [[e | tp] w2] eqn:Htp; [done |].
  apply castString_pure in Htp as ->.
  unfold bind at 1.
  destruct (required "topic" tp w1) as [[e | tp'] w2] eqn:Htp'; [done |].
  apply required_inv in Htp' as [-> _].
  unfold bind at 1.
  destruct (validSourceType st); simpl; [| done].
  unfold bind at 1.
  destruct (validateQuestions _ subdocs w1) as [[e | qs'] w2] eqn:Hqs; [done |].
  apply validateQuestions_inv in Hqs as [Hall Hnulls].
  assert (Hnull : Forall2 (λ v oq, isNullish v = true ↔ oq = None) vs qs').
  { clear -Hids Hnulls. revert qs' Hnulls.
    induction Hids as [| v d vs ds Hv _ IH]; intros qs' Hnulls;
      inversion Hnulls as [| ? q ? qs'' Hq Hrest]; subst; constructor; [tauto | by apply IH]. }
  unfold bind, modify, ret. simpl. intros [= <- <-]. simpl.
  split; [by intros -> |]. split.
  { intros s ->. rewrite castString_str in Ht. injection Ht as [= <-].
    simpl in Ht'. by injection Ht' as [= <-]. }
  split; [symmetry; by eapply Forall2_length |]. by repeat split.
Qed.

Lemma saveQuiz_blank_title (now : Z) (t : string) (topic_v : jsval) (vs : list jsval)
    (st : string) (fn : option string) (fid : option ObjectId.t) (w : World) :
  JsString.trim t = "" →
  ∃ e w', save now (JStr t) topic_v vs st fn fid w = (inl e, w').
Proof.
  intros Hblank. unfold saveQuiz. unfold bind at 1. unfold newObjectId at 1.
  unfold bind at 1 2, get, modify, ret at 1. simpl.
  unfold bind at 1.
  destruct (newSubdocs _ _) as [[e | subdocs] w1]; [by do 2 eexists |].
  unfold bind at 1. unfold ret at 1.
  unfold bind at 1. simpl. rewrite Hblank. simpl. by do 2 eexists.
Qed.

(** *** The path to the save *)

Lemma generate_run (now : Z) (req : GenerateRequest) (w : World) (l : Locals)
    (w1 : World) (text : string) (v : jsval) (vs : list jsval) :
  validGenerate req →
  gather req w = (inr l, w1) →
  (50 ≤ String.length (JsString.trim (contextText l)))%nat →
  llm (JsString.take 24000 (contextText l)) (numQuestionsOf req) = Some text →
  JSON_parse (stripFence (JsString.trim text)) = Some (JArr (v :: vs)) →
  generate now req w
  = match save now (body_title req) (topicOrFallback (body_topic req) l) (v :: vs)
            (l_sourceType l) (l_sourceFilename l) (l_sourceFileId l) (afterLLM req l w1) with
    | (inr q, w2) => (inr (created q), w2)
    | (inl e, w2) => (inr generateFailed, set_stderr (cons (generateErrorLog e)) w2)
    end.
Proof.
  intros [Htitle Hsrc] Hgather Hlong Hllm Hparse.
  unfold generateQuizController. rewrite Htitle. simpl.
  unfold bind at 1. rewrite sourceMissing_valid by done.
  unfold try_catch at 1. unfold generateBody. unfold bind at 1. rewrite Hgather.
  apply Nat.ltb_ge in Hlong. rewrite Hlong.
  unfold bind at 1. unfold callLLM at 1. unfold bind at 1, modify at 1.
  rewrite Hllm. unfold ret at 1.
  unfold bind at 1. unfold try_catch at 1. unfold bind at 1.
  unfold parseQuestions. rewrite Hparse. unfold ret at 1 2.
  unfold bind at 1. unfold topicOrFallback, afterLLM.
  destruct (saveQuiz _ _ _ _ _ _ _ _ _ _) as [[e | q] w2]; reflexivity.
Qed.

Lemma generate_early (now : Z) (req : GenerateRequest) (w : World) r w' :
  generate now req w = (r, w') →
  (w' = w ∧ ∀ body, r ≠ inr (ResJson 201 body)) ∨ validGenerate req.
Proof.
  unfold generateQuizController.
  destruct (truthy (body_title req)) eqn:Htitle; simpl.
  2: { intros [= <- <-]. left. by split. }
  unfold bind at 1.
  destruct (sourceMissing req w) as [[e | missing] w0] eqn:Hmiss.
  { apply sourceMissing_pure in Hmiss as ->. intros [= <- <-]. left. by split. }
  pose proof (sourceMissing_pure _ _ _ _ Hmiss) as ->.
  destruct missing.
  { intros [= <- <-]. left. by split. }
  intros _. right. split; [done |]. by eapply sourceMissing_false.
Qed.

Lemma generate_created_inv (now : Z) (req : GenerateRequest) (w : World)
    (body : jsval) (w' : World) :
  generate now req w = (inr (ResJson 201 body), w') →
  ∃ l w1 text vs q,
    validGenerate req ∧
    gather req w = (inr l, w1) ∧
    (50 ≤ String.length (JsString.trim (contextText l)))%nat ∧
    llm (JsString.take 24000 (contextText l)) (numQuestionsOf req) = Some text ∧
    JSON_parse (stripFence (JsString.trim text)) = Some (JArr vs) ∧
    vs ≠ [] ∧
    save now (body_title req) (topicOrFallback (body_topic req) l) vs
      (l_sourceType l) (l_sourceFilename l) (l_sourceFileId l) (afterLLM req l w1)
    = (inr q, w') ∧
    ResJson 201 body = created q.
Proof.
  intros Hrun.
  destruct (generate_early _ _ _ _ _ Hrun) as [[_ Hno] | Hvalid]; [by destruct (Hno body) |].
  revert Hrun. destruct Hvalid as [Htitle Hsrc].
  unfold generateQuizController. rewrite Htitle. simpl.
  unfold bind at 1. rewrite sourceMissing_valid by done.
  unfold try_catch at 1. unfold generateBody. unfold bind at 1.
  destruct (gather req w) as [[e | l] w1] eqn:Hgather.
  { unfold bind, console_error, modify, ret. discriminate. }
  destruct (Nat.ltb_spec (String.length (JsString.trim (contextText l))) 50) as [Hlt | Hge].
  { discriminate. }
  unfold bind at 1. unfold callLLM at 1. unfold bind at 1, modify at 1.
  destruct (llm _ _) as [text |] eqn:Hllm.
  2: { unfold throw, bind, console_error, modify, ret. discriminate. }
  unfold ret at 1.
  unfold bind at 1. unfold try_catch at 1. unfold bind at 1.
  destruct (parseQuestions _ text _) as [[e | vs] w3] eqn:Hparse.
  { unfold bind, console_error, modify, ret. discriminate. }
  apply parseQuestions_inv in Hparse as [_ Hparse].
  destruct (Hparse vs eq_refl) as (-> & Hne & Hjson).
  unfold ret at 1. unfold bind at 1.
  destruct (saveQuiz _ _ _ _ _ _ _ _ _ _) as [[e | q] w4] eqn:Hsave.
  { unfold bind, console_error, modify, ret. discriminate. }
  unfold ret. intros [= <- <-].
  exists l, w1, text, vs, q. by repeat split.
Qed.

(** *** What a user of [generate] sees *)

(** X13. Once stored, an uploaded file is kept whatever becomes of the
    request: for a call with a title and a file (and a topic that is
    absent or a text), where the bucket is initialised and the upload
    stream finishes, the bucket holds afterwards the file, under a new id,
    with its name, content type and bytes, also when the answer is 400 or
    500. Where the bucket is not initialised or the upload stream ends in
    an error, the call is answered 500, the files and quizzes are those of
    before and no collaborator was called. *)
Theorem generate_keeps_upload (now : Z) (req : GenerateRequest) (f : UploadedFile)
    (w : World) r w' :
  truthy (body_title req) = true →
  topicAbsentOrText (body_topic req) →
  file req = Some f →
  generate now req w = (r, w') →
  if canUpload w then
    files w'
    = <[ObjectId.generate (counter w) := mkGridFile (originalname f) (mimetype f) (buffer f)]>
        (files w)
  else
    r = inr generateFailed ∧ files w' = files w ∧ quizzes w' = quizzes w ∧
    calls w' = calls w.
Proof.
  intros Htitle Htopic Hf Hrun.
  assert (Hvalid : validGenerate req).
  { split; [done |]. left. by eexists. }
  destruct (gather req w) as [g w1] eqn:Hg.
  pose proof (gatherSources_with_file _ _ _ _ _ Htopic Hf Hg) as Hgather.
  destruct (canUpload w).
  - destruct (generate_world _ _ _ _ _ Hvalid Hrun) as (g' & w1' & Hg' & -> & _).
    rewrite Hg in Hg'. injection Hg' as [= <- <-]. by destruct Hgather as [-> _].
  - destruct Hgather as [Hc [e ->]]. revert Hrun.
    destruct Hvalid as [_ Hsrc].
    unfold generateQuizController. rewrite Htitle. simpl.
    unfold bind at 1. rewrite sourceMissing_valid by done.
    unfold try_catch, generateBody. unfold bind at 1. rewrite Hg.
    unfold bind, console_error, modify, ret. intros [= <- <-]. simpl.
    apply counterOnly_data in Hc as (? & _ & ? & ? & _). by repeat split.
Qed.

(** X14. One request calls the LLM at most once, after the text
    extraction if there is one, and only with a context of at most 24000
    characters that is the beginning of the combined context, itself at
    least 50 characters long once trimmed, and with the requested number
    of questions (5 when none is given). *)
Theorem generate_llm_call (now : Z) (req : GenerateRequest) (w : World) r w' :
  generate now req w = (r, w') →
  ∃ extraction,
    (extraction = [] ∨ ∃ data, extraction = [CallPdfParse data]) ∧
    (calls w' = extraction ++ calls w ∨
     ∃ l w1 context,
       gather req w = (inr l, w1) ∧
       calls w' = CallLLM context (numQuestionsOf req) :: extraction ++ calls w ∧
       context = JsString.take 24000 (contextText l) ∧
       (N.of_nat (String.length context) ≤ 24000)%N ∧
       JsString.startsWith (contextText l) context = true ∧
       (50 ≤ String.length (JsString.trim (contextText l)))%nat).
Proof.
  intros Hrun.
  destruct (generate_early _ _ _ _ _ Hrun) as [[-> _] | Hvalid].
  { exists []. split; [by left | by left]. }
  destruct (generate_world _ _ _ _ _ Hvalid Hrun) as (g & w1 & Hg & _ & _ & Hcalls).
  assert (Hext : ∃ extraction,
            (extraction = [] ∨ ∃ data, extraction = [CallPdfParse data]) ∧
            calls w1 = extraction ++ calls w).
  { destruct (gatherSources_world _ _ _ _ Hg) as [[Hc _] | (f & _ & _ & -> & _)].
    - exists []. split; [by left |]. by apply counterOnly_data in Hc as (_ & _ & _ & ? & _).
    - exists [CallPdfParse (buffer f)]. split; [right; by eexists | done]. }
  destruct Hext as (extraction & Hform & Hw1).
  exists extraction. split; [exact Hform |].
  destruct Hcalls as [Hsame | (l & -> & Hlong & Hllm)].
  - left. by rewrite Hsame.
  - right. exists l, w1, (JsString.take 24000 (contextText l)).
    split; [done |]. split; [by rewrite Hllm, <- Hw1 |]. split; [done |].
    split; [apply (take_length 24000) |]. split; [apply take_prefix | done].
Qed.

(** X15. A title of white space only is not caught by the input check:
    the LLM is called, the save fails on the trimmed, empty title, the
    answer is 500 and no quiz is stored. *)
Theorem generate_blank_title (now : Z) (req : GenerateRequest) (t : string) (w : World)
    (l : Locals) (w1 : World) (text : string) (v : jsval) (vs : list jsval) :
  body_title req = JStr t →
  t ≠ "" →
  JsString.trim t = "" →
  is_Some (file req) ∨ hasTopicText (body_topic req) = true →
  gather req w = (inr l, w1) →
  (50 ≤ String.length (JsString.trim (contextText l)))%nat →
  llm (JsString.take 24000 (contextText l)) (numQuestionsOf req) = Some text →
  JSON_parse (stripFence (JsString.trim text)) = Some (JArr (v :: vs)) →
  ∃ w',
    generate now req w = (inr generateFailed, w') ∧
    quizzes w' = quizzes w ∧
    CallLLM (JsString.take 24000 (contextText l)) (numQuestionsOf req) ∈ calls w'.
Proof.
  intros Htitle Hne Hblank Hsrc Hgather Hlong Hllm Hparse.
  assert (Hvalid : validGenerate req).
  { split; [| done]. rewrite Htitle. by destruct t. }
  rewrite (generate_run now req w l w1 text v vs Hvalid Hgather Hlong Hllm Hparse).
  rewrite Htitle.
  destruct (saveQuiz_blank_title now t (topicOrFallback (body_topic req) l) (v :: vs)
              (l_sourceType l) (l_sourceFilename l) (l_sourceFileId l)
              (afterLLM req l w1) Hblank) as (e & w2 & Hsave).
  rewrite Hsave. eexists. split; [reflexivity |].
  apply saveQuiz_inv in Hsave as (_ & _ & Hcalls & Hq). simpl.
  split.
  - rewrite Hq. simpl. by eapply gatherSources_quizzes.
  - rewrite Hcalls. simpl. by left.
Qed.

(** X16. The quiz that a 201 answer reports is stored under the id of
    the answer; it has a non-empty title, which is the trimmed title of the
    request, one of the three source types, and one question per element
    of the array that the LLM answered, at least one. An element of that
    array that is [null] is stored as a [null] question; every other
    question passes the validators of the schema: it has a text, a correct
    answer and two options or more. *)
Theorem generate_stores_valid_quiz (now : Z) (req : GenerateRequest) (w : World)
    (body : jsval) (w' : World) :
  generate now req w = (inr (ResJson 201 body), w') →
  ∃ q l w1 text vs,
    ResJson 201 body = created q ∧
    quizzes w' !! quiz_id q = Some q ∧
    title q ≠ "" ∧
    (∀ t, body_title req = JStr t → title q = JsString.trim t) ∧
    sourceType q ∈ ["text"; "pdf"; "combined"] ∧
    questions q ≠ [] ∧
    gather req w = (inr l, w1) ∧
    llm (JsString.take 24000 (contextText l)) (numQuestionsOf req) = Some text ∧
    JSON_parse (stripFence (JsString.trim text)) = Some (JArr vs) ∧
    Forall2 (λ v oq, isNullish v = true ↔ oq = None) vs (questions q) ∧
    Forall validStored (questions q) ∧
    quiz_createdAt q = now.
Proof.
  intros Hrun.
  destruct (generate_created_inv _ _ _ _ _ Hrun)
    as (l & w1 & text & vs & q & _ & Hg & _ & Hllm & Hparse & Hne & Hsave & Hbody).
  exists q, l, w1, text, vs. split; [done |].
  pose proof (saveQuiz_valid _ _ _ _ _ _ _ _ _ _ Hsave)
    as (Htitle & Htrim & Hlen & Hall & Hnow & Hnull).
  apply saveQuiz_inv in Hsave
    as (_ & _ & _ & _ & Hq & Hst & _ & _ & Henum & _).
  split; [rewrite Hq; apply lookup_insert_eq |].
  repeat split; try done.
  - rewrite Hst. unfold validSourceType in Henum. by apply bool_decide_eq_true in Henum.
  - intros Hnil. rewrite Hnil in Hlen. by destruct vs.
Qed.

(** X17. A quiz that was just generated is in the list of quizzes, with
    the id of the 201 answer, the trimmed title of the request and a
    question count of at least one. *)
Theorem generate_then_list (now : Z) (req : GenerateRequest) (t : string) (w : World)
    (body : jsval) (w' : World) :
  body_title req = JStr t →
  generate now req w = (inr (ResJson 201 body), w') →
  ∃ quizId n entries,
    getProp body "quizId" = inr (JStr quizId) ∧
    getAllQuizzesController w' = (inr (ResJson 200 (JArr entries)), w') ∧
    JObj [("_id", JStr quizId);
          ("title", JStr (JsString.trim t));
          ("questionCount", JNum (Z.of_nat n))] ∈ entries ∧
    (1 ≤ n)%nat.
Proof.
  intros Htitle Hrun.
  destruct (generate_created_inv _ _ _ _ _ Hrun)
    as (l & w1 & text & vs & q & _ & _ & _ & _ & _ & Hne & Hsave & Hbody).
  injection Hbody as [= ->].
  pose proof (saveQuiz_valid _ _ _ _ _ _ _ _ _ _ Hsave)
    as (_ & Htrim & Hlen & _ & _).
  apply saveQuiz_inv in Hsave as (_ & _ & _ & _ & Hq & _).
  exists (ObjectId.toString (quiz_id q)), (length (questions q)).
  eexists. split; [done |]. split; [reflexivity |]. split.
  - rewrite <- (Htrim t Htitle).
    apply (list_elem_of_fmap_2 quizForList). rewrite merge_sort_Permutation.
    apply list_elem_of_fmap. exists (quiz_id q, q). split; [done |].
    apply elem_of_map_to_list. rewrite Hq. apply lookup_insert_eq.
  - rewrite Hlen. destruct vs; [done | simpl; lia].
Qed.

(** X18. A quiz generated from a topic alone has no PDF: the PDF endpoint,
    called with the id of the 201 answer, answers 404. *)
Theorem generate_text_then_pdf (now : Z) (req : GenerateRequest) (w : World)
    (body : jsval) (w' : World) :
  file req = None →
  generate now req w = (inr (ResJson 201 body), w') →
  ∃ quizId,
    getProp body "quizId" = inr (JStr quizId) ∧
    getQuizPdfController quizId w'
    = (inr (message 404 "No PDF found for this quiz."), w').
Proof.
  intros Hf Hrun.
  apply generate_inv in Hrun
    as [[_ Hr] | (l & w1 & q & _ & Hg & Hr & Hq & _ & Hid & _ & _ & Hfid & _)].
  { by destruct (Hr body). }
  injection Hr as [= ->].
  apply gatherSources_inv in Hg. rewrite Hf in Hg. destruct Hg as [-> ->].
  exists (ObjectId.toString (quiz_id q)). split; [done |].
  unfold getQuizPdfController, try_catch, bind at 1.
  unfold findQuizById, bind, lift, get, ret. rewrite Hid at 1.
  unfold ObjectId.toString. rewrite cast_generate. rewrite <- Hid.
  rewrite Hq, lookup_insert_eq. rewrite Hfid.
  unfold afterTopic. by destruct (hasTopicText (body_topic req)).
Qed.

(** X19. When the text extraction throws, the answer is 500: the LLM is
    not called and no quiz is stored; the extraction was the only call to
    a collaborator (and there was none where the upload before it already
    failed). *)
Theorem generate_extraction_failure (now : Z) (req : GenerateRequest) (f : UploadedFile)
    (w : World) :
  truthy (body_title req) = true →
  topicAbsentOrText (body_topic req) →
  file req = Some f →
  pdf (buffer f) = None →
  ∃ w',
    generate now req w = (inr generateFailed, w') ∧
    quizzes w' = quizzes w ∧
    calls w' = (if canUpload w then [CallPdfParse (buffer f)] else []) ++ calls w.
Proof.
  intros Htitle Htopic Hf Hpdf.
  assert (Hsrc : is_Some (file req) ∨ hasTopicText (body_topic req) = true).
  { left. by eexists. }
  destruct (gather req w) as [g w1] eqn:Hg.
  pose proof (gatherSources_with_file _ _ _ _ _ Htopic Hf Hg) as Hgather.
  assert (Herr : ∃ e, g = inl e).
  { destruct (canUpload w); [destruct Hgather as [_ H]; by apply H | by destruct Hgather]. }
  destruct Herr as [e ->].
  unfold generateQuizController. rewrite Htitle. simpl.
  unfold bind at 1. rewrite sourceMissing_valid by done.
  unfold try_catch, generateBody. unfold bind at 1. rewrite Hg.
  unfold bind, console_error, modify, ret.
  eexists. split; [reflexivity |]. simpl.
  destruct (canUpload w).
  - by destruct Hgather as [-> _].
  - destruct Hgather as [Hc _]. by apply counterOnly_data in Hc as (? & _ & _ & ? & _).
Qed.

(** X20. When the call to the LLM fails, the answer is the generic 500 and
    no quiz is stored. *)
Theorem generate_llm_failure (now : Z) (req : GenerateRequest) (w : World)
    (l : Locals) (w1 : World) :
  validGenerate req →
  gather req w = (inr l, w1) →
  (50 ≤ String.length (JsString.trim (contextText l)))%nat →
  llm (JsString.take 24000 (contextText l)) (numQuestionsOf req) = None →
  generate now req w
  = (inr generateFailed, set_stderr (cons (generateErrorLog UpstreamError)) (afterLLM req l w1)) ∧
  quizzes (afterLLM req l w1) = quizzes w.
Proof.
  intros [Htitle Hsrc] Hgather Hlong Hllm.
  split; [| unfold afterLLM; simpl; by eapply gatherSources_quizzes].
  unfold generateQuizController. rewrite Htitle. simpl.
  unfold bind at 1. rewrite sourceMissing_valid by done.
  unfold try_catch at 1. unfold generateBody. unfold bind at 1. rewrite Hgather.
  apply Nat.ltb_ge in Hlong. rewrite Hlong.
  unfold bind at 1. unfold callLLM at 1. unfold bind at 1, modify at 1.
  by rewrite Hllm.
Qed.

End Generation.

(** ** The history of a quiz *)

Lemma append_last_inj (s1 s2 : string) (c1 c2 : ascii) :
  s1 +:+ String c1 "" = s2 +:+ String c2 "" → c1 = c2.
Proof.
  revert s2. induction s1 as [| a s1 IH]; intros [| b s2]; simpl.
  - by intros [= ->].
  - intros [= _ H]. by destruct s2.
  - intros [= _ H]. by destruct s1.
  - intros [= _ H]. by eapply IH.
Qed.

Lemma hexDigit_inj (a b : N) :
  (a < 16)%N → (b < 16)%N → ObjectId.hexDigit a = ObjectId.hexDigit b → a = b.
Proof.
  intros Ha Hb.
  assert (Hca : a ∈ [0; 1; 2; 3; 4; 5; 6; 7; 8; 9; 10; 11; 12; 13; 14; 15]%N).
  { rewrite !elem_of_cons. lia. }
  assert (Hcb : b ∈ [0; 1; 2; 3; 4; 5; 6; 7; 8; 9; 10; 11; 12; 13; 14; 15]%N).
  { rewrite !elem_of_cons. lia. }
  rewrite !elem_of_cons, elem_of_nil in Hca, Hcb.
  repeat destruct Hca as [-> | Hca]; try done;
    repeat destruct Hcb as [-> | Hcb]; try done; simpl; discriminate.
Qed.

(** Two ids generated one after the other differ. *)
Lemma generate_succ_ne (n : N) :
  ObjectId.generate n ≠ ObjectId.generate (N.succ n).
Proof.
  unfold ObjectId.generate. cbn [ObjectId.hexFixed]. intros Heq.
  apply append_last_inj, hexDigit_inj in Heq; try (apply N.mod_lt; lia).
  pose proof (N.div_mod n 16). pose proof (N.div_mod (N.succ n) 16).
  pose proof (N.mod_lt n 16). pose proof (N.mod_lt (N.succ n) 16). lia.
Qed.

#[local] Instance newerFirst_history_transitive : Transitive newerFirst.
Proof. unfold newerFirst. intros r1 r2 r3 ? ?. lia. Qed.

#[local] Instance newerFirst_history_total : Total newerFirst.
Proof. unfold newerFirst. intros r1 r2. lia. Qed.

Lemma sorted_order (l : list Result) (r1 r2 : Result) :
  StronglySorted newerFirst l →
  r1 ∈ l → r2 ∈ l →
  (result_createdAt r1 < result_createdAt r2)%Z →
  ∃ before between after, l = before ++ r2 :: between ++ r1 :: after.
Proof.
  intros Hsorted H1 H2 Hlt.
  apply list_elem_of_split in H2 as (before & rest & ->).
  exists before.
  apply StronglySorted_app in Hsorted as (Hcross & _ & Hrest).
  apply elem_of_app in H1 as [Hin | Hin].
  - exfalso. specialize (Hcross r1 r2 Hin). unfold newerFirst in Hcross.
    assert (result_createdAt r2 ≤ result_createdAt r1)%Z; [apply Hcross; by left | lia].
  - apply elem_of_cons in Hin as [-> | Hin]; [lia |].
    apply list_elem_of_split in Hin as (between & after & ->).
    by exists between, after.
Qed.

(** X21. Submissions accumulate: after two submissions for a quiz whose
    questions are all documents, the second later than the first,
    [getForTaking] holds both results, each with its own score, the later
    one before the earlier one. *)
Theorem submit_twice_history (castNonString : jsval → option string) (now1 now2 : Z)
    (quizId : string) (oid : ObjectId.t) (quiz : Quiz) (qs : list Question) (w : World)
    (answers1 answers2 : list AnswerEntry) :
  ObjectId.cast quizId = inr oid →
  quizzes w !! oid = Some quiz →
  questions quiz = Some <$> qs →
  (now1 < now2)%Z →
  ∃ resp1 w1 resp2 w2 r1 r2 quiz_v before between after,
    submitQuizController castNonString now1 quizId (JArr (map entryToJSON answers1)) w
    = (inr resp1, w1) ∧
    submitQuizController castNonString now2 quizId (JArr (map entryToJSON answers2)) w1
    = (inr resp2, w2) ∧
    getQuizForTakingController quizId w2
    = (inr (ResJson 200
              (JObj [("quiz", quiz_v);
                     ("results",
                      JArr (map resultToJSON (before ++ r2 :: between ++ r1 :: after)))])),
       w2) ∧
    score r1 = correctCount answers1 qs ∧
    score r2 = correctCount answers2 qs.
Proof.
  intros Hcast Hquiz Hqs Hlt.
  pose proof (submit_typed castNonString now1 quizId oid quiz qs w answers1 Hcast Hquiz Hqs)
    as Hrun1.
  cbv zeta in Hrun1.
  set (id1 := ObjectId.generate (counter w)) in *.
  set (r1 := mkResult id1 oid (correctCount answers1 qs)
               (length (questions quiz)) (map (storedGradeOf answers1) qs)
               now1 now1) in *.
  set (w1 := set_results (insert id1 r1) (set_counter N.succ w)) in *.
  assert (Hquiz1 : quizzes w1 !! oid = Some quiz) by exact Hquiz.
  pose proof (submit_typed castNonString now2 quizId oid quiz qs w1 answers2 Hcast Hquiz1 Hqs)
    as Hrun2.
  cbv zeta in Hrun2.
  change (counter w1) with (N.succ (counter w)) in Hrun2.
  set (id2 := ObjectId.generate (N.succ (counter w))) in *.
  set (r2 := mkResult id2 oid (correctCount answers2 qs)
               (length (questions quiz)) (map (storedGradeOf answers2) qs)
               now2 now2) in *.
  set (w2 := set_results (insert id2 r2) (set_counter N.succ w1)) in *.
  assert (Hquiz2 : quizzes w2 !! oid = Some quiz) by exact Hquiz.
  pose proof (getQuizForTaking_found quizId oid quiz qs w2 Hcast Hquiz2 Hqs) as Hget.
  assert (Hne : id1 ≠ id2) by apply generate_succ_ne.
  assert (Hin : ∀ id r, results w2 !! id = Some r → result_quiz r = oid →
                        r ∈ merge_sort newerFirst (resultsOf w2 oid)).
  { intros id r Hr Hoid. rewrite merge_sort_Permutation. unfold resultsOf.
    apply list_elem_of_filter. split; [done |].
    apply list_elem_of_fmap. exists (id, r). split; [done |].
    by apply elem_of_map_to_list. }
  destruct (sorted_order (merge_sort newerFirst (resultsOf w2 oid)) r1 r2)
    as (before & between & after & Hsplit).
  - apply StronglySorted_merge_sort; apply _.
  - apply (Hin id1); [| done]. unfold w2, w1. simpl.
    rewrite lookup_insert_ne by done. apply lookup_insert_eq.
  - apply (Hin id2); [| done]. unfold w2. simpl. apply lookup_insert_eq.
  - exact Hlt.
  - rewrite Hsplit in Hget.
    eexists. exists w1. eexists. exists w2, r1, r2. eexists.
    exists before, between, after.
    split; [exact Hrun1 |]. split; [exact Hrun2 |]. split; [exact Hget |].
    split; reflexivity.
Qed.

(** Runs of the properties above on [Scenario] and [Scenario2]. *)

Lemma getForTaking_results_carry_correctAnswer_witness :
  questions Scenario.theQuiz = Some <$> [Scenario.theQuestion] ∧
  results Scenario.worldWithResult !! Scenario.resultId = Some Scenario.theResult ∧
  ∃ quiz_v results_v,
    getQuizForTakingController Scenario.quizId Scenario.worldWithResult
    = (inr (ResJson 200 (JObj [("quiz", quiz_v); ("results", JArr results_v)])),
       Scenario.worldWithResult) ∧
    resultToJSON Scenario.theResult ∈ results_v.
Proof.
  assert (Hr : results Scenario.worldWithResult !! Scenario.resultId = Some Scenario.theResult)
    by (by vm_compute).
  split; [reflexivity |]. split; [exact Hr |].
  destruct (getForTaking_results_carry_correctAnswer Scenario.castNonString Scenario.quizId
              Scenario.quizId Scenario.theQuiz Scenario.worldWithResult)
    as [_ H].
  - reflexivity.
  - by vm_compute.
  - destruct (H [Scenario.theQuestion] Scenario.resultId Scenario.theResult eq_refl Hr eq_refl)
      as (quiz_v & questions_v & results_v & Hrun & _ & _ & Hin & _).
    exists quiz_v, results_v. split; [exact Hrun | exact Hin].
Defined.

Lemma getQuizPdf_failures_witness :
  (∃ w', getQuizPdfController "no-such-quiz" Scenario.worldWithQuiz
         = (inr (message 404 "Quiz not found."), w')) ∧
  getQuizPdfController Scenario2.textQuizId Scenario2.worldWithTextQuiz
  = (inr (message 404 "No PDF found for this quiz."), Scenario2.worldWithTextQuiz) ∧
  (∃ w', getQuizPdfController Scenario.quizId Scenario2.worldNotConnectedWithQuiz
         = (inr (message 500 "An error occurred on the server."), w')) ∧
  (∃ w', getQuizPdfController Scenario.quizId
           (snd (Scenario.generate 1000 Scenario2.reqOddName Scenario.emptyWorld))
         = (inr (message 500 "An error occurred on the server."), w')) ∧
  (∃ w', getQuizPdfController Scenario.quizId Scenario2.worldWithDanglingQuiz
         = (inr (message 500 "Failed to retrieve PDF file."), w')).
Proof.
  split; [| split; [| split; [| split]]].
  - destruct (getQuizPdf_failures "no-such-quiz" Scenario.worldWithQuiz) as [H _].
    apply H. intros oid. discriminate.
  - destruct (getQuizPdf_failures Scenario2.textQuizId Scenario2.worldWithTextQuiz)
      as (_ & H & _).
    eapply (H Scenario2.textQuizId); [reflexivity | by vm_compute | reflexivity].
  - destruct (getQuizPdf_failures Scenario.quizId Scenario2.worldNotConnectedWithQuiz)
      as (_ & _ & H & _).
    eapply (H Scenario.quizId Scenario2.danglingQuiz Scenario.fileId);
      [reflexivity | by vm_compute | reflexivity | reflexivity].
  - destruct (getQuizPdf_failures Scenario.quizId
                (snd (Scenario.generate 1000 Scenario2.reqOddName Scenario.emptyWorld)))
      as (_ & _ & _ & H & _).
    eapply (H Scenario.quizId
              (mkQuiz Scenario.quizId "Biology"
                 ("Content from " +:+ Scenario2.oddName) "pdf" (Some Scenario2.oddName)
                 (Some Scenario.fileId) [Some Scenario.theQuestion] 1000 1000)
              Scenario.fileId);
      [reflexivity | by vm_compute | reflexivity | reflexivity | reflexivity].
  - destruct (getQuizPdf_failures Scenario.quizId Scenario2.worldWithDanglingQuiz)
      as (_ & _ & _ & _ & H).
    eapply (H Scenario.quizId Scenario2.danglingQuiz Scenario.fileId);
      [reflexivity | by vm_compute | reflexivity | reflexivity | reflexivity | by vm_compute].
Defined.

Lemma getBucket_after_connect_witness :
  DbPromise.getBucket
    (DbPromise.run DbPromise.init [CallConnectDB; CallConnectDB; ConnectSettled true])
  = inr tt ∧
  DbPromise.run DbPromise.init
    ([CallConnectDB; CallConnectDB; ConnectSettled true] ++ [CallConnectDB; ConnectSettled false])
  = DbPromise.run DbPromise.init [CallConnectDB; CallConnectDB; ConnectSettled true].
Proof.
  split; [reflexivity |].
  destruct (getBucket_after_connect [CallConnectDB; CallConnectDB; ConnectSettled true]
              [CallConnectDB; ConnectSettled false]) as (_ & _ & H).
  apply H. reflexivity.
Defined.

Lemma cors_allowed_origins_witness :
  Cors.withMiddleware (Some "https://lms.example.org") (Some "https://lms.example.org")
  = inr true ∧
  Cors.atStartup None (Some "http://localhost:5173/")
  = inl (Error "The CORS policy for this site does not allow access from the specified Origin.").
Proof.
  split.
  - destruct (cors_allowed_origins (Some "https://lms.example.org")
                (Some "https://lms.example.org")) as [H _].
    apply H. do 5 right. reflexivity.
  - destruct (cors_allowed_origins None (Some "http://localhost:5173/")) as [_ H].
    apply H. intros [? | [? | [? | [? | [? | ?]]]]]; discriminate.
Defined.

Lemma submit_ok_inv_witness :
  ∃ body w' r,
    Scenario.submit 2000 Scenario.quizId (JArr [JNum 7; JObj []]) Scenario.worldWithQuiz
    = (inr (ResJson 200 body), w') ∧
    results w' = <[result_id r := r]> (results Scenario.worldWithQuiz) ∧
    (score r ≤ totalQuestions r)%nat.
Proof.
  destruct (Scenario.submit 2000 Scenario.quizId (JArr [JNum 7; JObj []])
              Scenario.worldWithQuiz) as [resp w'] eqn:Hrun.
  assert (Hresp : ∃ body, resp = inr (ResJson 200 body)).
  { vm_compute in Hrun. injection Hrun as [= <- _]. by eexists. }
  destruct Hresp as [body ->].
  destruct (submit_ok_inv Scenario.castNonString 2000 Scenario.quizId
              (JArr [JNum 7; JObj []]) Scenario.worldWithQuiz body w' Hrun)
    as (oid & quiz & qs & sc & ds & r & _ & _ & _ & _ & Hsc & _ & Hres & _ & Hscore & Htotal & _).
  exists body, w', r. split; [reflexivity |]. split; [exact Hres |].
  rewrite Hscore, Htotal. exact Hsc.
Defined.

Lemma submit_unknown_quiz_witness :
  (∃ w', Scenario.submit 2000 "42" (JArr []) Scenario.worldWithQuiz
         = (inr (message 500 "An error occurred on the server while submitting the quiz."), w')) ∧
  Scenario.submit 2000 "ffffffffffffffffffffffff" (JArr []) Scenario.worldWithQuiz
  = (inr (message 404 "Quiz not found."), Scenario.worldWithQuiz).
Proof.
  destruct (submit_unknown_quiz Scenario.castNonString 2000 "42" (JArr [])
              Scenario.worldWithQuiz) as [H500 _].
  destruct (submit_unknown_quiz Scenario.castNonString 2000 "ffffffffffffffffffffffff"
              (JArr []) Scenario.worldWithQuiz) as [_ H404].
  split.
  - destruct (H500 (CastError "ObjectId") eq_refl) as (w' & Hrun & _).
    exists w'. exact Hrun.
  - apply (H404 "ffffffffffffffffffffffff"); [reflexivity | by vm_compute].
Defined.

Lemma submit_null_entry_witness :
  ∃ w',
    Scenario.submit 2000 Scenario.quizId (JArr [JObj []; JNull]) Scenario.worldWithQuiz
    = (inr (message 500 "An error occurred on the server while submitting the quiz."), w') ∧
    results w' = results Scenario.worldWithQuiz.
Proof.
  destruct (submit_null_entry Scenario.castNonString 2000 Scenario.quizId Scenario.quizId
              Scenario.theQuiz (Some Scenario.theQuestion) [] [JObj []; JNull]
              Scenario.worldWithQuiz)
    as (w' & Hrun & _ & Hres & _).
  - reflexivity.
  - by vm_compute.
  - reflexivity.
  - right. left.
  - intros q' _ v [-> | [-> | Hin%elem_of_nil]%elem_of_cons]%elem_of_cons; done.
  - exists w'. split; [exact Hrun | exact Hres].
Defined.

Lemma submit_ignores_foreign_entries_witness :
  filter (aboutQuestions (questions Scenario.theQuiz)) Scenario2.answersWithForeign
  = [mkAnswerEntry Scenario.questionId "A"] ∧
  Scenario.submit 2000 Scenario.quizId
    (JArr (map entryToJSON [mkAnswerEntry Scenario.questionId "A"])) Scenario.worldWithQuiz
  = Scenario.submit 2000 Scenario.quizId
      (JArr (map entryToJSON Scenario2.answersWithForeign)) Scenario.worldWithQuiz.
Proof.
  assert (Hfilter : filter (aboutQuestions (questions Scenario.theQuiz))
                      Scenario2.answersWithForeign
                    = [mkAnswerEntry Scenario.questionId "A"]) by (by vm_compute).
  split; [exact Hfilter |]. rewrite <- Hfilter.
  apply (submit_ignores_foreign_entries Scenario.castNonString 2000 Scenario.quizId
           Scenario.quizId Scenario.theQuiz); [reflexivity | by vm_compute].
Defined.

Lemma submit_all_correct_witness :
  ∃ rid results_v w',
    Scenario.submit 2000 Scenario.quizId
      (JArr (map entryToJSON [mkAnswerEntry Scenario.questionId "A"])) Scenario.worldWithQuiz
    = (inr (ResJson 200
              (JObj [("message", JStr "Quiz submitted successfully!");
                     ("resultId", JStr rid);
                     ("score", JNum 1);
                     ("totalQuestions", JNum 1);
                     ("results", JArr results_v)])),
       w').
Proof.
  destruct (submit_all_correct Scenario.castNonString 2000 Scenario.quizId Scenario.quizId
              Scenario.theQuiz [Scenario.theQuestion] Scenario.worldWithQuiz
              [mkAnswerEntry Scenario.questionId "A"])
    as (rid & results_v & r & w' & Hrun & _).
  - reflexivity.
  - by vm_compute.
  - reflexivity.
  - apply NoDup_singleton.
  - reflexivity.
  - exists rid, results_v, w'. exact Hrun.
Defined.

Lemma generate_keeps_upload_witness :
  (∃ w',
     generateQuizController Scenario.pdf Scenario.proseLlm Scenario.JSON_parse
       Scenario.castNonString Scenario.castQuestion 1000 Scenario.reqFileOnly
       Scenario.emptyWorld
     = (inr (message 500 "Failed to parse AI response. The format was invalid."), w') ∧
     files w'
     = <[Scenario.fileId := mkGridFile "notes.pdf" "application/pdf" (buffer Scenario.notesPdf)]>
         (files Scenario.emptyWorld)) ∧
  (∃ w',
     Scenario.generate 1000 Scenario.reqFileOnly Scenario2.worldUploadsFail
     = (inr generateFailed, w') ∧
     files w' = files Scenario2.worldUploadsFail).
Proof.
  split.
  - destruct (generateQuizController Scenario.pdf Scenario.proseLlm Scenario.JSON_parse
                Scenario.castNonString Scenario.castQuestion 1000 Scenario.reqFileOnly
                Scenario.emptyWorld) as [r w'] eqn:Hrun.
    exists w'. split.
    + vm_compute in Hrun. injection Hrun as [= <- <-]. reflexivity.
    + apply (generate_keeps_upload Scenario.pdf Scenario.proseLlm Scenario.JSON_parse
               Scenario.castNonString Scenario.castQuestion 1000 Scenario.reqFileOnly
               Scenario.notesPdf Scenario.emptyWorld r w');
        [reflexivity | left; reflexivity | reflexivity | exact Hrun].
  - destruct (Scenario.generate 1000 Scenario.reqFileOnly Scenario2.worldUploadsFail)
      as [r w'] eqn:Hrun.
    exists w'.
    destruct (generate_keeps_upload Scenario.pdf Scenario.llm Scenario.JSON_parse
                Scenario.castNonString Scenario.castQuestion 1000 Scenario.reqFileOnly
                Scenario.notesPdf Scenario2.worldUploadsFail r w')
      as (-> & Hfiles & _);
      [reflexivity | left; reflexivity | reflexivity | exact Hrun |].
    split; [reflexivity | exact Hfiles].
Defined.

Lemma generate_llm_call_witness :
  calls Scenario.worldWithQuiz
  = [CallLLM Scenario.pdfText (JNum 5); CallPdfParse (buffer Scenario.notesPdf)] ∧
  ∃ extraction,
    extraction = [] ∨ ∃ data, extraction = [CallPdfParse data].
Proof.
  split; [by vm_compute |].
  destruct (generate_llm_call Scenario.pdf Scenario.llm Scenario.JSON_parse
              Scenario.castNonString Scenario.castQuestion 1000 Scenario.reqFileOnly
              Scenario.emptyWorld
              (fst (Scenario.generate 1000 Scenario.reqFileOnly Scenario.emptyWorld))
              Scenario.worldWithQuiz)
    as (extraction & Hform & _).
  - apply surjective_pairing.
  - exists extraction. exact Hform.
Defined.

Lemma generate_blank_title_witness :
  truthy (body_title Scenario2.reqBlankTitle) = true ∧
  ∃ w',
    Scenario.generate 1000 Scenario2.reqBlankTitle Scenario.emptyWorld
    = (inr generateFailed, w') ∧
    quizzes w' = quizzes Scenario.emptyWorld.
Proof.
  split; [reflexivity |].
  destruct (generate_blank_title Scenario.pdf Scenario.llm Scenario.JSON_parse
              Scenario.castNonString Scenario.castQuestion 1000 Scenario2.reqBlankTitle
              "  " Scenario.emptyWorld
              (afterTopic (body_topic Scenario2.reqBlankTitle)) Scenario.emptyWorld
              Scenario.completion Scenario.questionJson [])
    as (w' & Hrun & Hq & _).
  - reflexivity.
  - discriminate.
  - reflexivity.
  - right. reflexivity.
  - reflexivity.
  - vm_compute. lia.
  - reflexivity.
  - by vm_compute.
  - exists w'. split; [exact Hrun | exact Hq].
Defined.

Lemma generate_stores_valid_quiz_witness :
  ∃ q,
    Scenario.generate 1000 Scenario.reqFileOnly Scenario.emptyWorld
    = (inr (created q), Scenario.worldWithQuiz) ∧
    quizzes Scenario.worldWithQuiz !! quiz_id q = Some q ∧
    Forall validStored (questions q).
Proof.
  assert (Hgen : Scenario.generate 1000 Scenario.reqFileOnly Scenario.emptyWorld
                 = (inr (created Scenario.theQuiz), Scenario.worldWithQuiz))
    by (by vm_compute).
  destruct (generate_stores_valid_quiz Scenario.pdf Scenario.llm Scenario.JSON_parse
              Scenario.castNonString Scenario.castQuestion 1000 Scenario.reqFileOnly
              Scenario.emptyWorld _ Scenario.worldWithQuiz Hgen)
    as (q & l & w1 & text & vs & Hbody & Hstored & _ & _ & _ & _ & _ & _ & _ & _ & Hvalid & _).
  exists q. split; [| split; [exact Hstored | exact Hvalid]].
  fold (created Scenario.theQuiz) in Hbody. rewrite <- Hbody. exact Hgen.
Defined.

Lemma generate_then_list_witness :
  ∃ entries,
    getAllQuizzesController Scenario.worldWithQuiz
    = (inr (ResJson 200 (JArr entries)), Scenario.worldWithQuiz) ∧
    ∃ n,
      JObj [("_id", JStr Scenario.quizId);
            ("title", JStr "Biology");
            ("questionCount", JNum (Z.of_nat n))] ∈ entries.
Proof.
  assert (Hgen : Scenario.generate 1000 Scenario.reqFileOnly Scenario.emptyWorld
                 = (inr (created Scenario.theQuiz), Scenario.worldWithQuiz))
    by (by vm_compute).
  destruct (generate_then_list Scenario.pdf Scenario.llm Scenario.JSON_parse
              Scenario.castNonString Scenario.castQuestion 1000 Scenario.reqFileOnly
              "Biology" Scenario.emptyWorld _ Scenario.worldWithQuiz eq_refl Hgen)
    as (quizId & n & entries & Hid & Hlist & Hin & _).
  injection Hid as [= <-].
  exists entries. split; [exact Hlist |]. exists n. exact Hin.
Defined.

Lemma generate_text_then_pdf_witness :
  getQuizPdfController Scenario2.textQuizId Scenario2.worldWithTextQuiz
  = (inr (message 404 "No PDF found for this quiz."), Scenario2.worldWithTextQuiz).
Proof.
  assert (Hgen : ∃ body,
            Scenario.generate 1000 Scenario.reqTopicOnly Scenario.emptyWorld
            = (inr (ResJson 201 body), Scenario2.worldWithTextQuiz) ∧
            getProp body "quizId" = inr (JStr Scenario2.textQuizId)).
  { eexists. split; by vm_compute. }
  destruct Hgen as (body & Hgen & Hid).
  destruct (generate_text_then_pdf Scenario.pdf Scenario.llm Scenario.JSON_parse
              Scenario.castNonString Scenario.castQuestion 1000 Scenario.reqTopicOnly
              Scenario.emptyWorld body Scenario2.worldWithTextQuiz eq_refl Hgen)
    as (quizId & Hid' & Hpdf).
  rewrite Hid in Hid'. injection Hid' as [= <-]. exact Hpdf.
Defined.

Lemma generate_extraction_failure_witness :
  ∃ w',
    generateQuizController Scenario2.brokenPdf Scenario.llm Scenario.JSON_parse
      Scenario.castNonString Scenario.castQuestion 1000 Scenario.reqFileOnly
      Scenario.emptyWorld
    = (inr generateFailed, w') ∧
    calls w' = CallPdfParse (buffer Scenario.notesPdf) :: calls Scenario.emptyWorld.
Proof.
  destruct (generate_extraction_failure Scenario2.brokenPdf Scenario.llm
              Scenario.JSON_parse Scenario.castNonString Scenario.castQuestion 1000
              Scenario.reqFileOnly Scenario.notesPdf Scenario.emptyWorld)
    as (w' & Hrun & _ & Hcalls).
  - reflexivity.
  - left. reflexivity.
  - reflexivity.
  - reflexivity.
  - exists w'. split; [exact Hrun | exact Hcalls].
Defined.

Lemma generate_llm_failure_witness :
  ∃ w',
    generateQuizController Scenario.pdf Scenario2.brokenLlm Scenario.JSON_parse
      Scenario.castNonString Scenario.castQuestion 1000 Scenario.reqTopicOnly
      Scenario.emptyWorld
    = (inr generateFailed, w').
Proof.
  destruct (generate_llm_failure Scenario.pdf Scenario2.brokenLlm Scenario.JSON_parse
              Scenario.castNonString Scenario.castQuestion 1000 Scenario.reqTopicOnly
              Scenario.emptyWorld
              (afterTopic (body_topic Scenario.reqTopicOnly)) Scenario.emptyWorld)
    as [Hrun _].
  - split; [reflexivity | right; reflexivity].
  - reflexivity.
  - vm_compute. lia.
  - reflexivity.
  - eexists. exact Hrun.
Defined.

Lemma submit_twice_history_witness :
  ∃ w1 w2 entries,
    snd (Scenario.submit 2000 Scenario.quizId (JArr []) Scenario.worldWithQuiz) = w1 ∧
    snd (Scenario.submit 3000 Scenario.quizId
           (JArr (map entryToJSON [mkAnswerEntry Scenario.questionId "A"])) w1) = w2 ∧
    ∃ quiz_v,
      getQuizForTakingController Scenario.quizId w2
      = (inr (ResJson 200 (JObj [("quiz", quiz_v); ("results", JArr entries)])), w2).
Proof.
  destruct (submit_twice_history Scenario.castNonString 2000 3000 Scenario.quizId
              Scenario.quizId Scenario.theQuiz [Scenario.theQuestion] Scenario.worldWithQuiz
              [] [mkAnswerEntry Scenario.questionId "A"])
    as (resp1 & w1 & resp2 & w2 & r1 & r2 & quiz_v & before & between & after
        & Hrun1 & Hrun2 & Hget & _).
  - reflexivity.
  - by vm_compute.
  - reflexivity.
  - lia.
  - exists w1, w2. eexists. unfold Scenario.submit.
    change (map entryToJSON []) with (@nil jsval) in Hrun1.
    rewrite Hrun1, Hrun2. split; [reflexivity |]. split; [reflexivity |].
    exists quiz_v. exact Hget.
Defined.
